(** * Google Docs tool entry points (gdocs/docs_tools.py)

    A shallow embedding of the document tools of [gdocs/docs_tools.py] and
    the properties of their request batches, validation gates, retry policy
    and text extraction.

    Conventions.
    - A Python [str] is the list of its code points ([str := list N]); [len]
      is the length of that list, [+] is [++].
    - A Python [int] is a [Z]; an argument that may be [None] is an [option].
    - A tool is a finite interaction program ([prog]): it returns a text,
      raises, or calls a collaborator (remote API or manager object) and
      goes on with the reply.  The collaborators are defined outside
      gdocs/docs_tools.py; their replies are supplied by a handler. *)

From Stdlib Require Import List ZArith NArith Bool String Ascii Lia.
From Stdlib.Strings Require Import Byte.
From Stdlib Require Import DecimalString.
Import ListNotations.

Set Implicit Arguments.
Set Warnings "-register-all".

(* ================================================================== *)
(** ** Python strings *)
(* ================================================================== *)

Module PyStr.

Definition char := N.
Definition str := list char.

(** A string literal of the source. *)
Definition lit (s : string) : str := map N_of_ascii (list_ascii_of_string s).

Definition len (s : str) : Z := Z.of_nat (List.length s).

(** Truth value of a string: non-empty. *)
Definition truthy (s : str) : bool :=
  match s with [] => false | _ :: _ => true end.

(** [str.isspace] on one code point. *)
Definition is_space (c : char) : bool :=
  ((9 <=? c) && (c <=? 13) || (28 <=? c) && (c <=? 32)
   || (c =? 133) || (c =? 160) || (c =? 5760)
   || (8192 <=? c) && (c <=? 8202)
   || (c =? 8232) || (c =? 8233) || (c =? 8239) || (c =? 8287)
   || (c =? 12288))%N.

Fixpoint lstrip (s : str) : str :=
  match s with
  | c :: rest => if is_space c then lstrip rest else s
  | [] => []
  end.

(** [s.strip()]: leading and trailing whitespace removed. *)
Definition strip (s : str) : str := rev (lstrip (rev (lstrip s))).

Fixpoint starts_with (p s : str) : bool :=
  match p, s with
  | [], _ => true
  | a :: p', b :: s' => (a =? b)%N && starts_with p' s'
  | _ :: _, [] => false
  end.

(** [a == b] on strings. *)
Fixpoint eqb_str (a b : str) : bool :=
  match a, b with
  | [], [] => true
  | x :: a', y :: b' => (x =? y)%N && eqb_str a' b'
  | _, _ => false
  end.

(** [needle in hay]. *)
Fixpoint contains (needle hay : str) : bool :=
  starts_with needle hay ||
  match hay with
  | [] => false
  | _ :: hay' => contains needle hay'
  end.

(** [sep.join(parts)]. *)
Fixpoint join (sep : str) (parts : list str) : str :=
  match parts with
  | [] => []
  | [p] => p
  | p :: rest => p ++ sep ++ join sep rest
  end.

(** [n * s] for a repetition count. *)
Fixpoint repeat_str (s : str) (n : nat) : str :=
  match n with
  | O => []
  | S n' => s ++ repeat_str s n'
  end.

(** [str(n)] for an integer: decimal digits, a leading minus sign when
    negative. *)
Definition of_Z (n : Z) : str := lit (NilZero.string_of_int (Z.to_int n)).

(** [str(b)] for a boolean. *)
Definition of_bool (b : bool) : str := if b then lit "True" else lit "False".

End PyStr.

Import PyStr.

(* ================================================================== *)
(** ** Edit operations *)
(* ================================================================== *)

(** Modelled from the spec: the request builders of [gdocs.docs_helpers]
    ([create_insert_text_request], [create_delete_range_request], ...) are
    defined outside gdocs/docs_tools.py.  The spec describes them as pure
    mappings from typed parameters to one operation descriptor of the
    tagged variant [EditOperation]; each builder is the constructor of its
    variant, applied to the arguments in the order the tools pass them. *)
Inductive EditOperation :=
| InsertText (offset : Z) (text : str)
| DeleteRange (start_index end_index : Z)
| FormatText (start_index : Z) (end_index : option Z)
             (bold italic underline : option bool)
             (font_size : option Z) (font_family : option str)
| InsertTable (offset rows columns : Z)
| InsertImage (offset : Z) (uri : str) (width height : option Z)
| InsertPageBreak (offset : Z)
| ReplaceAll (find_text replace_text : str) (match_case : bool)
| InsertBulletList (start_index end_index : Z) (list_type : str).

Definition create_insert_text_request := InsertText.
Definition create_delete_range_request := DeleteRange.
Definition create_format_text_request := FormatText.
Definition create_find_replace_request := ReplaceAll.
Definition create_insert_table_request := InsertTable.
Definition create_insert_page_break_request := InsertPageBreak.
Definition create_insert_image_request := InsertImage.
Definition create_bullet_list_request := InsertBulletList.

(** The lowest offset a request addresses: the insertion point of an
    insertion, the start of a range. [ReplaceAll] addresses no offset. *)
Definition lowest_offset (r : EditOperation) : option Z :=
  match r with
  | InsertText o _ | InsertTable o _ _ | InsertImage o _ _ _
  | InsertPageBreak o => Some o
  | DeleteRange s _ | FormatText s _ _ _ _ _ _ | InsertBulletList s _ _ =>
      Some s
  | ReplaceAll _ _ _ => None
  end.

(* ================================================================== *)
(** ** Values exchanged with the collaborators *)
(* ================================================================== *)

Definition bytes := list byte.

(** An exception; [exn_message] is [str(e)]. *)
Inductive exn :=
| HttpError (message : str)
| IndexError (message : str)
| RecursionError (message : str)
| OtherError (message : str).

Definition exn_message (e : exn) : str :=
  match e with
  | HttpError m | IndexError m | RecursionError m | OtherError m => m
  end.

(** Drive file metadata; a field is [None] when the key is absent. *)
Record file_metadata := {
  meta_mimeType : option str;
  meta_name : option str;
  meta_webViewLink : option str
}.

(** A structural element of a document body, as [get_doc_content] reads it:
    a dict with a ['paragraph'] key (the list holds, for each paragraph
    element, the ['content'] of its non-empty ['textRun'], if any), a dict
    with a ['table'] key (rows of cells, each cell with its ['content']
    elements), or a dict with neither.  A missing list is the empty list, as
    the [.get(key, [])] of the source makes it. *)
Inductive element :=
| Paragraph (runs : list (option str))
| Table (tableRows : list (list (list element)))
| OtherElement.

Record document_tab := {
  tab_title : option str;
  tab_body : list element
}.

(** A tab: its ['documentTab'], if present, and its ['childTabs']. *)
Inductive tab :=
| Tab (documentTab : option document_tab) (childTabs : list tab).

Record document := {
  doc_body : list element;
  doc_tabs : list tab
}.

(** A value of an operation dict given to [batch_update_doc]. *)
Inductive pyval :=
| VNone
| VBool (b : bool)
| VInt (n : Z)
| VStr (s : str).

Definition operation := list (str * pyval).

(** [table_data]: a list of rows of cell values; [None] is Python's None. *)
Definition table_data := list (list (option str)).

Record table_metadata := {
  tm_rows : option Z;
  tm_columns : option Z
}.

Record batch_metadata := {
  bm_replies_count : option Z
}.

(** A table as [find_tables] reports it. *)
Record cell_info := {
  cell_start_index : Z;
  cell_end_index : Z;
  cell_insertion_index : option Z;
  cell_content : option str;
  cell_content_elements : nat
}.

Record table_info := {
  ti_rows : Z;
  ti_columns : Z;
  ti_start_index : Z;
  ti_end_index : Z;
  ti_cells : list (list cell_info)
}.

(** A JSON value handed to [json.dumps]. *)
Inductive json :=
| JInt (n : Z)
| JStr (s : str)
| JList (items : list json)
| JDict (fields : list (str * json)).

(* ================================================================== *)
(** ** Tools as interaction programs *)
(* ================================================================== *)

(** Calls a tool makes to its collaborators, indexed by the reply type.
    [DriveGetMedia] stands for the chunked download: the reply lists the
    chunks [next_chunk] delivers, the first one apart (there is always at
    least one call of [next_chunk]).  The last three are the entry points
    of the manager objects of [gdocs.managers], which perform the remote
    calls of their own. *)
Inductive netE : Type -> Type :=
| DriveFilesGet (fileId fields : str) : netE file_metadata
| DriveGetMedia (fileId : str) : netE (bytes * list bytes)
| DocsGet (documentId : str) (includeTabsContent : bool) : netE document
| DocsBatchUpdate (documentId : str) (requests : list EditOperation)
    : netE unit
| CreateAndPopulateTable (document_id : str) (data : table_data)
    (index : Z) (bold_headers : bool) : netE (bool * str * table_metadata)
| UpdateHeaderFooterContent
    (document_id section_type content header_footer_type : str)
    : netE (bool * str)
| ExecuteBatchOperations (document_id : str) (operations : list operation)
    : netE (bool * str * batch_metadata).

Inductive result (A : Type) :=
| Ok (a : A)
| Err (e : exn).
Arguments Err {A} e.

(** A tool body: returns, raises, or calls and continues with the reply
    (or the exception the call raised). *)
Inductive prog (A : Type) : Type :=
| Ret (a : A)
| Raise (e : exn)
| Call (R : Type) (c : netE R) (k : result R -> prog A).
Arguments Raise {A} e.
Arguments Call {A R} c k.

(** A call outside any [try]: an exception propagates. *)
Definition call {R} (c : netE R) : prog R :=
  Call c (fun r => match r with Ok v => Ret v | Err e => Raise e end).

(** A call inside [try ... except Exception as e]. *)
Definition try_call {R} (c : netE R) : prog (result R) := Call c (@Ret _).

Fixpoint bind {A B} (p : prog A) (f : A -> prog B) : prog B :=
  match p with
  | Ret a => f a
  | Raise e => Raise e
  | Call c k => Call c (fun r => bind (k r) f)
  end.

Notation "x <- p ;; q" := (bind p (fun x => q))
  (at level 100, p at next level, right associativity).
Notation "p ;;; q" := (bind p (fun _ => q))
  (at level 100, right associativity).

(** *** Running a tool against collaborators *)

(** One recorded call. *)
Inductive event :=
| Ev (R : Type) (c : netE R).
Arguments Ev {R} c.

Inductive outcome (A : Type) :=
| Returned (a : A)
| Raised (e : exn).
Arguments Raised {A} e.

Section Run.

(** [W] is the state of the remote side. *)
Variable W : Type.

Definition handler := forall R, netE R -> W -> result R * W.

Variable h : handler.

(** The outcome of a tool, the final remote state and the calls issued,
    in order. *)
Fixpoint run {A} (p : prog A) (w : W) : outcome A * W * list event :=
  match p with
  | Ret a => (Returned a, w, [])
  | Raise e => (Raised e, w, [])
  | Call c k =>
      let '(r, w') := h c w in
      let '(o, w'', evs) := run (k r) w' in
      (o, w'', Ev c :: evs)
  end.

Definition outcome_of {A} (p : prog A) (w : W) : outcome A :=
  fst (fst (run p w)).

Definition calls_of {A} (p : prog A) (w : W) : list event :=
  snd (run p w).

End Run.

(* ================================================================== *)
(** ** The validation manager *)
(* ================================================================== *)

(** [gdocs.managers.ValidationManager] is defined outside gdocs/docs_tools.py.
    The tools use its checks through this interface: each check is a pure
    function returning [(is_valid, error_msg)]. *)
Record ValidationManager := {
  validate_document_id : str -> bool * str;
  validate_text_formatting_params :
    option bool -> option bool -> option bool -> option Z -> option str ->
    bool * str;
  validate_index_range : Z -> option Z -> bool * str;
  validate_header_footer_params : str -> str -> bool * str;
  validate_text_content : str -> bool * str;
  validate_batch_operations : list operation -> bool * str;
  validate_table_data : table_data -> bool * str;
  validate_index : Z -> str -> bool * str
}.

(** ** Truth values and defaults *)

Definition is_some {A} (o : option A) : bool :=
  match o with Some _ => true | None => false end.

(** Truth value of an optional integer: neither [None] nor 0. *)
Definition truthy_int (o : option Z) : bool :=
  match o with Some n => negb (n =? 0)%Z | None => false end.

(** Truth value of an optional string: neither [None] nor empty. *)
Definition truthy_str (o : option str) : bool :=
  match o with Some s => truthy s | None => false end.

Definition any (l : list bool) : bool := existsb (fun b => b) l.

Definition doc_link (document_id : str) : str :=
  lit "https://docs.google.com/document/d/" ++ document_id ++ lit "/edit".

Definition default_str (o : option str) (d : str) : str :=
  match o with Some s => s | None => d end.

(* ================================================================== *)
(** ** Text extraction of get_doc_content *)
(* ================================================================== *)

Definition nl : str := [10%N].

(** [TAB_HEADER_FORMAT.format(tab_name=tab_name)] *)
Definition tab_header (tab_name : str) : str :=
  nl ++ lit "--- TAB: " ++ tab_name ++ lit " ---" ++ nl.

(** The text of a paragraph: the contents of its text runs, concatenated. *)
Definition paragraph_text (runs : list (option str)) : str :=
  List.concat (map (fun run => match run with Some c => c | None => [] end) runs).

(** [[s] if s.strip() else []]: a line is kept when it is not blank. *)
Definition keep_nonblank (s : str) : list str :=
  if truthy (strip s) then [s] else [].

(** What one element appends to [text_lines] in a walk at [depth]
    (a depth that passed the guard).  A cell of a table is walked by the
    recursive call [extract_text_from_elements(cell_content, depth=depth+1)],
    which returns the empty string when [depth + 1 > 5]. *)
Fixpoint element_lines (depth : nat) (e : element) {struct e} : list str :=
  match e with
  | Paragraph runs => keep_nonblank (paragraph_text runs)
  | Table tableRows =>
      flat_map
        (fun row =>
           flat_map
             (fun cell_content =>
                let cell_text :=
                  if (5 <? S depth)%nat then []
                  else List.concat (flat_map (element_lines (S depth))
                                 cell_content) in
                keep_nonblank cell_text)
             row)
        tableRows
  | OtherElement => []
  end.

(** [extract_text_from_elements(elements, tab_name, depth)] *)
Definition extract_text_from_elements
  (elements : list element) (tab_name : option str) (depth : nat) : str :=
  if (5 <? depth)%nat then []
  else
    List.concat ((if truthy_str tab_name
             then [tab_header (default_str tab_name [])] else []) ++
            flat_map (element_lines depth) elements).

(** The text [process_tab_hierarchy(tab, level)] builds when every call
    it makes fits the call stack: the text of the tab's own body under its
    header, then the texts of its child tabs, one level further in. *)
Fixpoint tab_hierarchy_text (t : tab) (level : nat) {struct t} : str :=
  match t with
  | Tab documentTab childTabs =>
      (match documentTab with
       | Some dt =>
           let tab_title := default_str (tab_title dt) (lit "Untitled Tab") in
           let tab_title :=
             if (0 <? level)%nat
             then repeat_str (lit "    ") level ++ tab_title
             else tab_title in
           extract_text_from_elements (tab_body dt) (Some tab_title) 0
       | None => []
       end) ++
      List.concat (map (fun child_tab => tab_hierarchy_text child_tab (S level))
                childTabs)
  end.

(** The body text of a native document when every call fits the call
    stack: the main body, then every tab. *)
Definition document_text (doc_data : document) : str :=
  let main_content := extract_text_from_elements (doc_body doc_data) None 0 in
  List.concat (keep_nonblank main_content ++
          flat_map (fun t => keep_nonblank (tab_hierarchy_text t 0))
            (doc_tabs doc_data)).

(** *** The call stack of the walk *)

(** Both walks are recursive Python functions without [try]: every call
    of one of them takes a frame of the interpreter's call stack, and a
    call made when no frame is left raises RecursionError, which ends the
    whole walk.  [frames] counts the nested calls of Python functions the
    interpreter still allows at a point of the program (its recursion
    limit less the frames in use); built-in methods are not counted. *)
Definition recursion_error : exn :=
  RecursionError (lit "maximum recursion depth exceeded").

(** The nested calls of [extract_text_from_elements] that one element
    causes in a walk at [depth]: none for a paragraph; for a table, one
    call for the content of each cell, which returns at once beyond the
    ceiling and walks the content of the cell otherwise. *)
Fixpoint element_call_depth (depth : nat) (e : element) {struct e} : nat :=
  match e with
  | Table tableRows =>
      list_max
        (flat_map
           (fun row =>
              map (fun cell_content =>
                     if (5 <? S depth)%nat then 1%nat
                     else S (list_max
                               (map (element_call_depth (S depth))
                                  cell_content)))
                row)
           tableRows)
  | Paragraph _ => 0%nat
  | OtherElement => 0%nat
  end.

(** The frames a call [extract_text_from_elements(elements, _, depth)]
    needs: its own and those of the deepest chain of calls it makes. *)
Definition extract_call_depth (elements : list element) (depth : nat) : nat :=
  if (5 <? depth)%nat then 1%nat
  else S (list_max (map (element_call_depth depth) elements)).

(** A call of [extract_text_from_elements] with [frames] left. *)
Definition extract_text_on_stack (frames : nat)
  (elements : list element) (tab_name : option str) (depth : nat)
  : result str :=
  if (extract_call_depth elements depth <=? frames)%nat
  then Ok (extract_text_from_elements elements tab_name depth)
  else Err recursion_error.

(** [tab_text += r] for each result in turn; the first exception ends the
    loop. *)
Fixpoint append_results (tab_text : result str) (more : list (result str))
  : result str :=
  match more with
  | [] => tab_text
  | r :: rest =>
      match tab_text, r with
      | Ok text, Ok s => append_results (Ok (text ++ s)) rest
      | Err e, _ => Err e
      | Ok _, Err e => Err e
      end
  end.

(** [process_tab_hierarchy(tab, level)] called with [frames] left: the
    call takes one frame; the walk of the tab's own body and the calls for
    the child tabs run with one frame less. *)
Fixpoint process_tab_hierarchy (frames : nat) (t : tab) (level : nat)
  {struct t} : result str :=
  match frames with
  | O => Err recursion_error
  | S frames =>
      match t with
      | Tab documentTab childTabs =>
          let tab_text :=
            match documentTab with
            | Some dt =>
                let tab_title :=
                  default_str (tab_title dt) (lit "Untitled Tab") in
                let tab_title :=
                  if (0 <? level)%nat
                  then repeat_str (lit "    ") level ++ tab_title
                  else tab_title in
                extract_text_on_stack frames (tab_body dt) (Some tab_title) 0
            | None => Ok []
            end in
          append_results tab_text
            (map (fun child_tab =>
                    process_tab_hierarchy frames child_tab (S level))
               childTabs)
      end
  end.

(** The frames a call of [process_tab_hierarchy] needs: its own and those
    of the deepest chain of calls below it. *)
Fixpoint tab_call_depth (t : tab) : nat :=
  match t with
  | Tab documentTab childTabs =>
      S (Nat.max
           (match documentTab with
            | Some dt => extract_call_depth (tab_body dt) 0
            | None => 0%nat
            end)
           (list_max (map tab_call_depth childTabs)))
  end.

(** [processed_text_lines.append(r)] for each non-blank result in turn;
    the first exception ends the loop. *)
Fixpoint kept_texts (results : list (result str)) : result (list str) :=
  match results with
  | [] => Ok []
  | Ok tab_content :: rest =>
      match kept_texts rest with
      | Ok lines => Ok (keep_nonblank tab_content ++ lines)
      | Err e => Err e
      end
  | Err e :: _ => Err e
  end.

(** The body text of a native document, built with [frames] left: the main
    body, then every tab. *)
Definition native_body_text (frames : nat) (doc_data : document)
  : result str :=
  match extract_text_on_stack frames (doc_body doc_data) None 0 with
  | Err e => Err e
  | Ok main_content =>
      match kept_texts (map (fun t => process_tab_hierarchy frames t 0)
                          (doc_tabs doc_data)) with
      | Err e => Err e
      | Ok tab_contents =>
          Ok (List.concat (keep_nonblank main_content ++ tab_contents))
      end
  end.

(** The frames the walk of a whole document needs. *)
Definition native_call_depth (doc_data : document) : nat :=
  Nat.max (extract_call_depth (doc_body doc_data) 0)
    (list_max (map tab_call_depth (doc_tabs doc_data))).

(* ================================================================== *)
(** ** UTF-8 decoding *)
(* ================================================================== *)

Definition is_continuation (n : N) : bool := ((128 <=? n) && (n <=? 191))%N.

Definition cons_opt (c : char) (o : option str) : option str :=
  match o with Some s => Some (c :: s) | None => None end.

(** [bytes.decode("utf-8")]: the code points of a well-formed UTF-8
    sequence, [None] where Python raises [UnicodeDecodeError] (a stray or
    missing continuation byte, an overlong form, a surrogate, a value above
    U+10FFFF). *)
Fixpoint utf8_decode (bs : bytes) : option str :=
  match bs with
  | [] => Some []
  | b0 :: r0 =>
      let n0 := Byte.to_N b0 in
      if (n0 <? 128)%N then cons_opt n0 (utf8_decode r0)
      else if ((194 <=? n0) && (n0 <=? 223))%N then
        match r0 with
        | b1 :: r1 =>
            let n1 := Byte.to_N b1 in
            if is_continuation n1
            then cons_opt ((n0 - 192) * 64 + (n1 - 128))%N (utf8_decode r1)
            else None
        | _ => None
        end
      else if ((224 <=? n0) && (n0 <=? 239))%N then
        match r0 with
        | b1 :: b2 :: r2 =>
            let n1 := Byte.to_N b1 in
            let n2 := Byte.to_N b2 in
            let cp := ((n0 - 224) * 4096 + (n1 - 128) * 64 + (n2 - 128))%N in
            if is_continuation n1 && is_continuation n2 &&
               (2048 <=? cp)%N &&
               negb ((55296 <=? cp) && (cp <=? 57343))%N
            then cons_opt cp (utf8_decode r2)
            else None
        | _ => None
        end
      else if ((240 <=? n0) && (n0 <=? 244))%N then
        match r0 with
        | b1 :: b2 :: b3 :: r3 =>
            let n1 := Byte.to_N b1 in
            let n2 := Byte.to_N b2 in
            let n3 := Byte.to_N b3 in
            let cp := ((n0 - 240) * 262144 + (n1 - 128) * 4096 +
                       (n2 - 128) * 64 + (n3 - 128))%N in
            if is_continuation n1 && is_continuation n2 &&
               is_continuation n3 &&
               (65536 <=? cp)%N && (cp <=? 1114111)%N
            then cons_opt cp (utf8_decode r3)
            else None
        | _ => None
        end
      else None
  end.

(** The byte of a number below 256. *)
Definition byte_of (n : N) : byte :=
  match Byte.of_N n with Some b => b | None => x00 end.

(** A code point that has a UTF-8 encoding: at most U+10FFFF and not a
    surrogate. *)
Definition is_scalar (c : char) : bool :=
  ((c <=? 1114111) && negb ((55296 <=? c) && (c <=? 57343)))%N.

(** [str.encode("utf-8")] on one code point. *)
Definition utf8_encode_char (c : char) : bytes :=
  if (c <? 128)%N then [byte_of c]
  else if (c <? 2048)%N then
    [byte_of (192 + c / 64); byte_of (128 + c mod 64)]
  else if (c <? 65536)%N then
    [byte_of (224 + c / 4096); byte_of (128 + (c / 64) mod 64);
     byte_of (128 + c mod 64)]
  else
    [byte_of (240 + c / 262144); byte_of (128 + (c / 4096) mod 64);
     byte_of (128 + (c / 64) mod 64); byte_of (128 + c mod 64)].

Definition utf8_encode (s : str) : bytes := flat_map utf8_encode_char s.

(* ================================================================== *)
(** ** Tool entry points *)
(* ================================================================== *)

Section Tools.

Variable validator : ValidationManager.

(** *** modify_doc_text *)

(** [any([bold is not None, italic is not None, underline is not None,
    font_size, font_family])] *)
Definition formatting_requested
  (bold italic underline : option bool)
  (font_size : option Z) (font_family : option str) : bool :=
  any [is_some bold; is_some italic; is_some underline;
       truthy_int font_size; truthy_str font_family].

(** The input validation of [modify_doc_text]: the text returned by the
    first check that fails, if any. *)
Definition modify_doc_text_validation
  (document_id : str) (start_index : Z) (end_index : option Z)
  (text : option str) (bold italic underline : option bool)
  (font_size : option Z) (font_family : option str) : option str :=
  let '(is_valid, error_msg) := validate_document_id validator document_id in
  if negb is_valid then Some (lit "Error: " ++ error_msg) else
  if negb (is_some text) &&
     negb (formatting_requested bold italic underline font_size font_family)
  then Some (lit "Error: Must provide either 'text' to insert/replace, or formatting parameters (bold, italic, underline, font_size, font_family).")
  else
  if formatting_requested bold italic underline font_size font_family then
    let '(is_valid, error_msg) :=
      validate_text_formatting_params validator
        bold italic underline font_size font_family in
    if negb is_valid then Some (lit "Error: " ++ error_msg) else
    match end_index with
    | None => Some (lit "Error: 'end_index' is required when applying formatting.")
    | Some _ =>
        let '(is_valid, error_msg) :=
          validate_index_range validator start_index end_index in
        if negb is_valid then Some (lit "Error: " ++ error_msg) else None
    end
  else None.

(** [end_index is not None and end_index > start_index] *)
Definition is_replacement (start_index : Z) (end_index : option Z) : bool :=
  match end_index with
  | Some e => (start_index <? e)%Z
  | None => false
  end.

Definition str_of_opt_Z (o : option Z) : str :=
  match o with Some n => of_Z n | None => lit "None" end.

(** The text insertion/replacement part: requests and summary lines. *)
Definition text_requests
  (start_index : Z) (end_index : option Z) (text : option str)
  : list EditOperation * list str :=
  match text with
  | None => ([], [])
  | Some text =>
      match end_index with
      | Some e =>
          if (start_index <? e)%Z then
            if (start_index =? 0)%Z then
              let adjusted_end := (e + len text)%Z in
              ([create_insert_text_request 1 text;
                create_delete_range_request (1 + len text) adjusted_end],
               [lit "Replaced text from index " ++ of_Z start_index ++
                lit " to " ++ of_Z e])
            else
              ([create_delete_range_request start_index e;
                create_insert_text_request start_index text],
               [lit "Replaced text from index " ++ of_Z start_index ++
                lit " to " ++ of_Z e])
          else
            let actual_index := if (start_index =? 0)%Z then 1%Z
                                else start_index in
            ([create_insert_text_request actual_index text],
             [lit "Inserted text at index " ++ of_Z start_index])
      | None =>
          let actual_index := if (start_index =? 0)%Z then 1%Z
                              else start_index in
          ([create_insert_text_request actual_index text],
           [lit "Inserted text at index " ++ of_Z start_index])
      end
  end.

(** The range to format before the adjustments for offset 0: the range
  given when no text is written, the new text when text is written. *)
Definition format_range_of_text
(start_index : Z) (end_index : option Z) (text : option str)
: Z * option Z :=
let format_start := start_index in
let format_end := end_index in
match text with
| Some text =>
    if is_replacement start_index end_index then
      (format_start, Some (start_index + len text)%Z)
    else
      let actual_index := if (start_index =? 0)%Z then 1%Z
                          else start_index in
      (actual_index, Some (actual_index + len text)%Z)
| None => (format_start, format_end)
end.

(** The range the formatting request is given: a start of 0 becomes 1, and
  an end that is not after the start becomes the start plus 1. *)
Definition format_range
(start_index : Z) (end_index : option Z) (text : option str)
: Z * option Z :=
let '(format_start, format_end) :=
  format_range_of_text start_index end_index text in
let format_start := if (format_start =? 0)%Z then 1%Z else format_start in
let format_end :=
  match format_end with
  | Some fe => if (fe <=? format_start)%Z then Some (format_start + 1)%Z
               else Some fe
  | None => None
  end in
(format_start, format_end).

Definition format_details
  (bold italic underline : option bool)
  (font_size : option Z) (font_family : option str) : list str :=
  (match bold with Some b => [lit "bold=" ++ of_bool b] | None => [] end) ++
  (match italic with Some b => [lit "italic=" ++ of_bool b] | None => [] end) ++
  (match underline with
   | Some b => [lit "underline=" ++ of_bool b] | None => [] end) ++
  (if truthy_int font_size
   then [lit "font_size=" ++ str_of_opt_Z font_size] else []) ++
  (match font_family with
   | Some f => if truthy f then [lit "font_family=" ++ f] else []
   | None => []
   end).

(** The formatting part: requests and summary lines. *)
Definition format_requests
  (start_index : Z) (end_index : option Z) (text : option str)
  (bold italic underline : option bool)
  (font_size : option Z) (font_family : option str)
  : list EditOperation * list str :=
  if formatting_requested bold italic underline font_size font_family then
    let '(format_start, format_end) :=
      format_range start_index end_index text in
    ([create_format_text_request format_start format_end
        bold italic underline font_size font_family],
     [lit "Applied formatting (" ++
      join (lit ", ")
        (format_details bold italic underline font_size font_family) ++
      lit ") to range " ++ of_Z format_start ++ lit "-" ++
      str_of_opt_Z format_end])
  else ([], []).

(** The batch [modify_doc_text] sends once validation has passed. *)
Definition modify_doc_text_requests
  (start_index : Z) (end_index : option Z) (text : option str)
  (bold italic underline : option bool)
  (font_size : option Z) (font_family : option str) : list EditOperation :=
  fst (text_requests start_index end_index text) ++
  fst (format_requests start_index end_index text
         bold italic underline font_size font_family).

Definition modify_doc_text
  (document_id : str) (start_index : Z) (end_index : option Z)
  (text : option str) (bold italic underline : option bool)
  (font_size : option Z) (font_family : option str) : prog str :=
  match modify_doc_text_validation document_id start_index end_index text
          bold italic underline font_size font_family with
  | Some error => Ret error
  | None =>
      let requests :=
        modify_doc_text_requests start_index end_index text
          bold italic underline font_size font_family in
      let operations :=
        snd (text_requests start_index end_index text) ++
        snd (format_requests start_index end_index text
               bold italic underline font_size font_family) in
      call (DocsBatchUpdate document_id requests) ;;;
      let link := doc_link document_id in
      let operation_summary := join (lit "; ") operations in
      let text_info :=
        match text with
        | Some t =>
            if truthy t
            then lit " Text length: " ++ of_Z (len t) ++ lit " characters."
            else []
        | None => []
        end in
      Ret (operation_summary ++ lit " in document " ++ document_id ++
           lit "." ++ text_info ++ lit " Link: " ++ link)
  end.

(** *** insert_doc_elements *)

(** [str.lower], a library function. *)
Variable str_lower : str -> str.

(** [if index == 0: index = 1] *)
Definition avoid_section_break (index : Z) : Z :=
  if (index =? 0)%Z then 1%Z else index.

Definition insert_doc_elements
  (document_id element_type : str) (index : Z) (rows columns : option Z)
  (list_type text : option str) : prog str :=
  let index := avoid_section_break index in
  let send (requests : list EditOperation) (description : str) :=
    call (DocsBatchUpdate document_id requests) ;;;
    let link := doc_link document_id in
    Ret (lit "Inserted " ++ description ++ lit " at index " ++ of_Z index ++
         lit " in document " ++ document_id ++ lit ". Link: " ++ link) in
  if eqb_str element_type (lit "table") then
    match rows, columns with
    | Some r, Some c =>
        if (r =? 0)%Z || (c =? 0)%Z then
          Ret (lit "Error: 'rows' and 'columns' parameters are required for table insertion.")
        else
          send [create_insert_table_request index r c]
               (lit "table (" ++ of_Z r ++ lit "x" ++ of_Z c ++ lit ")")
    | _, _ =>
        Ret (lit "Error: 'rows' and 'columns' parameters are required for table insertion.")
    end
  else if eqb_str element_type (lit "list") then
    match list_type with
    | Some lt =>
        if truthy lt then
          let text := if truthy_str text
                      then match text with Some t => t | None => [] end
                      else lit "List item" in
          send [create_insert_text_request index (text ++ nl);
                create_bullet_list_request index (index + len text) lt]
               (str_lower lt ++ lit " list")
        else
          Ret (lit "Error: 'list_type' parameter is required for list insertion ('UNORDERED' or 'ORDERED').")
    | None =>
        Ret (lit "Error: 'list_type' parameter is required for list insertion ('UNORDERED' or 'ORDERED').")
    end
  else if eqb_str element_type (lit "page_break") then
    send [create_insert_page_break_request index] (lit "page break")
  else
    Ret (lit "Error: Unsupported element type '" ++ element_type ++
         lit "'. Supported types: 'table', 'list', 'page_break'.").

(** *** insert_doc_image *)

(** [width or 'auto'] rendered in the result text. *)
Definition size_or_auto (o : option Z) : str :=
  if truthy_int o then str_of_opt_Z o else lit "auto".

Definition insert_doc_image
  (document_id image_source : str) (index : Z) (width height : option Z)
  : prog str :=
  let index := avoid_section_break index in
  let send (image_uri source_description : str) :=
    let requests := [create_insert_image_request index image_uri
                       width height] in
    call (DocsBatchUpdate document_id requests) ;;;
    let size_info :=
      if truthy_int width || truthy_int height
      then lit " (size: " ++ size_or_auto width ++ lit "x" ++
           size_or_auto height ++ lit " points)"
      else [] in
    let link := doc_link document_id in
    Ret (lit "Inserted " ++ source_description ++ size_info ++
         lit " at index " ++ of_Z index ++ lit " in document " ++
         document_id ++ lit ". Link: " ++ link) in
  let is_drive_file :=
    negb (starts_with (lit "http://") image_source ||
          starts_with (lit "https://") image_source) in
  if is_drive_file then
    r <- try_call (DriveFilesGet image_source (lit "id, name, mimeType")) ;;
    match r with
    | Ok file_metadata =>
        let mime_type := default_str (meta_mimeType file_metadata) [] in
        if negb (starts_with (lit "image/") mime_type) then
          Ret (lit "Error: File " ++ image_source ++
               lit " is not an image (MIME type: " ++ mime_type ++ lit ").")
        else
          send (lit "https://drive.google.com/uc?id=" ++ image_source)
               (lit "Drive file " ++
                default_str (meta_name file_metadata) image_source)
    | Err e =>
        Ret (lit "Error: Could not access Drive file " ++ image_source ++
             lit ": " ++ exn_message e)
    end
  else
    send image_source (lit "URL image").

(** *** update_doc_headers_footers *)

(** The checks of a tool, in order; the first that fails gives the text
    the tool returns, after [prefix]. *)
Fixpoint first_failure (prefix : str) (checks : list (bool * str))
  : option str :=
  match checks with
  | [] => None
  | (is_valid, error_msg) :: rest =>
      if negb is_valid then Some (prefix ++ error_msg)
      else first_failure prefix rest
  end.

Definition update_doc_headers_footers_validation
  (document_id section_type content header_footer_type : str)
  : option str :=
  first_failure (lit "Error: ")
    [validate_document_id validator document_id;
     validate_header_footer_params validator section_type header_footer_type;
     validate_text_content validator content].

Definition update_doc_headers_footers
  (document_id section_type content header_footer_type : str) : prog str :=
  match update_doc_headers_footers_validation
          document_id section_type content header_footer_type with
  | Some error => Ret error
  | None =>
      r <- call (UpdateHeaderFooterContent
                   document_id section_type content header_footer_type) ;;
      let '(success, message) := r in
      if (success : bool) then
        let link := doc_link document_id in
        Ret (message ++ lit ". Link: " ++ link)
      else Ret (lit "Error: " ++ message)
  end.

(** *** batch_update_doc *)

Definition batch_update_doc_validation
  (document_id : str) (operations : list operation) : option str :=
  first_failure (lit "Error: ")
    [validate_document_id validator document_id;
     validate_batch_operations validator operations].

Definition default_Z (o : option Z) (d : Z) : Z :=
  match o with Some n => n | None => d end.

Definition batch_update_doc
  (document_id : str) (operations : list operation) : prog str :=
  match batch_update_doc_validation document_id operations with
  | Some error => Ret error
  | None =>
      r <- call (ExecuteBatchOperations document_id operations) ;;
      let '(success, message, metadata) := r in
      if (success : bool) then
        let link := doc_link document_id in
        let replies_count := default_Z (bm_replies_count metadata) 0 in
        Ret (message ++ lit " on document " ++ document_id ++
             lit ". API replies: " ++ of_Z replies_count ++
             lit ". Link: " ++ link)
      else Ret (lit "Error: " ++ message)
  end.

(** *** create_table_with_data *)

Definition create_table_with_data_validation
  (document_id : str) (data : table_data) (index : Z) : option str :=
  first_failure (lit "ERROR: ")
    [validate_document_id validator document_id;
     validate_table_data validator data;
     validate_index validator index (lit "Index")].

Definition boundary_message : str := lit "must be less than the end index".

Definition create_table_with_data
  (document_id : str) (data : table_data) (index : Z) (bold_headers : bool)
  : prog str :=
  match create_table_with_data_validation document_id data index with
  | Some error => Ret error
  | None =>
      r <- call (CreateAndPopulateTable document_id data index
                   bold_headers) ;;
      r <- (let '(success, message, metadata) := r in
            if negb success && contains boundary_message message then
              call (CreateAndPopulateTable document_id data (index - 1)
                      bold_headers)
            else Ret r) ;;
      let '(success, message, metadata) := r in
      if (success : bool) then
        let link := doc_link document_id in
        let rows := default_Z (tm_rows metadata) 0 in
        let columns := default_Z (tm_columns metadata) 0 in
        Ret (lit "SUCCESS: " ++ message ++ lit ". Table: " ++ of_Z rows ++
             lit "x" ++ of_Z columns ++ lit ", Index: " ++ of_Z index ++
             lit ". Link: " ++ link)
      else Ret (lit "ERROR: " ++ message)
  end.

(** *** debug_table_structure *)

(** [find_tables] of [gdocs.docs_structure], [json.dumps(_, indent=2)]
    and [repr] are defined outside gdocs/docs_tools.py. *)
Variable find_tables : document -> list table_info.
Variable json_dumps : json -> str.
Variable py_repr : str -> str.

(** [l[i]]: a negative index counts from the end. *)
Definition py_index {A} (l : list A) (i : Z) : result A :=
  let n := Z.of_nat (List.length l) in
  let pos := if (0 <=? i)%Z then Some i
             else if (- n <=? i)%Z then Some (n + i)%Z else None in
  match pos with
  | Some p =>
      match nth_error l (Z.to_nat p) with
      | Some a => Ok a
      | None => Err (IndexError (lit "list index out of range"))
      end
  | None => Err (IndexError (lit "list index out of range"))
  end.

Definition cell_debug (row_idx col_idx : nat) (cell : cell_info) : json :=
  JDict
    [(lit "position",
      JStr (lit "(" ++ of_Z (Z.of_nat row_idx) ++ lit "," ++
            of_Z (Z.of_nat col_idx) ++ lit ")"));
     (lit "range",
      JStr (lit "[" ++ of_Z (cell_start_index cell) ++ lit "-" ++
            of_Z (cell_end_index cell) ++ lit "]"));
     (lit "insertion_index",
      match cell_insertion_index cell with
      | Some i => JInt i
      | None => JStr (lit "N/A")
      end);
     (lit "current_content",
      JStr (py_repr (default_str (cell_content cell) [])));
     (lit "content_elements_count",
      JInt (Z.of_nat (cell_content_elements cell)))].

(** [enumerate]: the elements with their positions, from [start]. *)
Fixpoint enumerate {A} (start : nat) (l : list A) : list (nat * A) :=
  match l with
  | [] => []
  | a :: rest => (start, a) :: enumerate (S start) rest
  end.

Definition table_debug_info (table_index : Z) (info : table_info) : json :=
  JDict
    [(lit "table_index", JInt table_index);
     (lit "dimensions",
      JStr (of_Z (ti_rows info) ++ lit "x" ++ of_Z (ti_columns info)));
     (lit "table_range",
      JStr (lit "[" ++ of_Z (ti_start_index info) ++ lit "-" ++
            of_Z (ti_end_index info) ++ lit "]"));
     (lit "cells",
      JList
        (map (fun '(row_idx, row) =>
                JList (map (fun '(col_idx, cell) =>
                              cell_debug row_idx col_idx cell)
                           (enumerate 0 row)))
             (enumerate 0 (ti_cells info))))].

Definition debug_table_structure (document_id : str) (table_index : Z)
  : prog str :=
  doc <- call (DocsGet document_id false) ;;
  let tables := find_tables doc in
  if (Z.of_nat (List.length tables) <=? table_index)%Z then
    Ret (lit "Error: Table index " ++ of_Z table_index ++
         lit " not found. Document has " ++
         of_Z (Z.of_nat (List.length tables)) ++ lit " table(s).")
  else
    match py_index tables table_index with
    | Err e => Raise e
    | Ok info =>
        let debug_info := table_debug_info table_index info in
        let link := doc_link document_id in
        Ret (lit "Table structure debug for table " ++ of_Z table_index ++
             lit ":" ++ nl ++ nl ++ json_dumps debug_info ++ nl ++ nl ++
             lit "Link: " ++ link)
    end.

(** *** get_doc_content *)

(** [extract_office_xml_text] of [core.utils], defined outside
    gdocs/docs_tools.py: the text of an Office file, or [None]. *)
Variable extract_office_xml_text : bytes -> str -> option str.

Definition native_mime_type : str :=
  lit "application/vnd.google-apps.document".

(** [while not done: status, done = downloader.next_chunk()]: the chunks
    are written to the buffer one after the other. *)
Definition download_loop (first : bytes) (more : list bytes) : bytes :=
  fold_left (fun fh chunk => fh ++ chunk) more first.

(** The body text of a downloaded file. *)
Definition downloaded_body_text (file_content_bytes : bytes)
  (mime_type : str) : str :=
  let office_text := extract_office_xml_text file_content_bytes mime_type in
  if truthy_str office_text then default_str office_text []
  else
    match utf8_decode file_content_bytes with
    | Some body_text => body_text
    | None =>
        lit "[Binary or unsupported text encoding for mimeType '" ++
        mime_type ++ lit "' - " ++
        of_Z (Z.of_nat (List.length file_content_bytes)) ++ lit " bytes]"
    end.

Definition content_header
  (file_name document_id mime_type web_view_link : str) : str :=
  lit "File: " ++ [34%N] ++ file_name ++ [34%N] ++ lit " (ID: " ++
  document_id ++ lit ", Type: " ++ mime_type ++ lit ")" ++ nl ++
  lit "Link: " ++ web_view_link ++ nl ++ nl ++ lit "--- CONTENT ---" ++ nl.

(** [frames] is the number of nested calls the interpreter still allows
    inside the body of the tool. *)
Definition get_doc_content (frames : nat) (document_id : str) : prog str :=
  file_metadata <- call (DriveFilesGet document_id
                           (lit "id, name, mimeType, webViewLink")) ;;
  let mime_type := default_str (meta_mimeType file_metadata) [] in
  let file_name :=
    default_str (meta_name file_metadata) (lit "Unknown File") in
  let web_view_link := default_str (meta_webViewLink file_metadata) (lit "#") in
  body_text <-
    (if eqb_str mime_type native_mime_type then
       doc_data <- call (DocsGet document_id true) ;;
       match native_body_text frames doc_data with
       | Ok body_text => Ret body_text
       | Err e => Raise e
       end
     else
       chunks <- call (DriveGetMedia document_id) ;;
       let file_content_bytes := download_loop (fst chunks) (snd chunks) in
       Ret (downloaded_body_text file_content_bytes mime_type)) ;;
  let header := content_header file_name document_id mime_type web_view_link in
  Ret (header ++ body_text).

End Tools.

(* ================================================================== *)
(** ** Validation checks described by the spec *)
(* ================================================================== *)

Module SpecValidation.

(** Why an index range is refused. *)
Inductive range_failure :=
| StartNegative
| EndNegative
| EndNotAfterStart.

(** Why a batch of operations is refused. *)
Inductive batch_failure :=
| EmptyOperations
| InvalidOperation (position : nat).

Section Checks.

(** The wording of the diagnostics is not fixed by the spec. *)
Variable describe_range : range_failure -> str.
Variable describe_batch : batch_failure -> str.

(** The parameters each known operation type requires; [None] for a
    type that is not known.  The table belongs to the validation manager. *)
Variable required_params : str -> option (list str).

(** Modelled from the spec: [ValidationManager.validate_index_range]
    is defined outside gdocs/docs_tools.py.  The spec says it "fails if
    start<0, end<start, or end<0 when provided", and that "for all
    non-negative start < end, validate_index_range(start,end) succeeds;
    for end <= start, it fails".  The check below is the one that meets
    both sentences: it succeeds exactly when start is non-negative and
    the end, when provided, is greater than start. *)
Definition validate_index_range (start_index : Z) (end_index : option Z)
  : bool * str :=
  if (start_index <? 0)%Z then (false, describe_range StartNegative)
  else
    match end_index with
    | None => (true, [])
    | Some e =>
        if (e <? 0)%Z then (false, describe_range EndNegative)
        else if (e <=? start_index)%Z
             then (false, describe_range EndNotAfterStart)
             else (true, [])
    end.

Fixpoint lookup (key : str) (d : operation) : option pyval :=
  match d with
  | [] => None
  | (k, v) :: rest => if eqb_str k key then Some v else lookup key rest
  end.

(** An operation names a known type and carries the parameters that
    type requires. *)
Definition well_formed_operation (op : operation) : bool :=
  match lookup (lit "type") op with
  | Some (VStr t) =>
      match required_params t with
      | Some params => forallb (fun p => is_some (lookup p op)) params
      | None => false
      end
  | _ => false
  end.

Fixpoint first_invalid (position : nat) (ops : list operation)
  : option nat :=
  match ops with
  | [] => None
  | op :: rest =>
      if well_formed_operation op then first_invalid (S position) rest
      else Some position
  end.

(** Modelled from the spec: [ValidationManager.validate_batch_operations]
    is defined outside gdocs/docs_tools.py.  The spec says it "fails
    unless every element names a known operation type and carries the
    parameters that type requires", and that an empty operation list
    "fails validation with a descriptive message". *)
Definition validate_batch_operations (operations : list operation)
  : bool * str :=
  match operations with
  | [] => (false, describe_batch EmptyOperations)
  | _ :: _ =>
      match first_invalid 0 operations with
      | Some position => (false, describe_batch (InvalidOperation position))
      | None => (true, [])
      end
  end.

End Checks.

End SpecValidation.

(** A validation manager whose range and batch checks are the ones the
    spec describes; the other checks are those of [base]. *)
Definition with_spec_checks
  (describe_range : SpecValidation.range_failure -> str)
  (describe_batch : SpecValidation.batch_failure -> str)
  (required_params : str -> option (list str))
  (base : ValidationManager) : ValidationManager :=
  {| validate_document_id := validate_document_id base;
     validate_text_formatting_params := validate_text_formatting_params base;
     validate_index_range :=
       SpecValidation.validate_index_range describe_range;
     validate_header_footer_params := validate_header_footer_params base;
     validate_text_content := validate_text_content base;
     validate_batch_operations :=
       SpecValidation.validate_batch_operations
         describe_batch required_params;
     validate_table_data := validate_table_data base;
     validate_index := validate_index base |}.

(* ================================================================== *)
(** ** Calls recorded in a run *)
(* ================================================================== *)

(** The request batches among recorded calls. *)
Definition batch_of (ev : event) : list (list EditOperation) :=
  match ev with
  | Ev c =>
      match c with
      | DocsBatchUpdate _ requests => [requests]
      | _ => []
      end
  end.

Definition batches (evs : list event) : list (list EditOperation) :=
  flat_map batch_of evs.

(** The indices at which table creation was attempted among recorded
    calls. *)
Definition attempt_of (ev : event) : list Z :=
  match ev with
  | Ev c =>
      match c with
      | CreateAndPopulateTable _ _ index _ => [index]
      | _ => []
      end
  end.

Definition table_attempts (evs : list event) : list Z :=
  flat_map attempt_of evs.

(* ================================================================== *)
(** ** The validation checks of each tool *)
(* ================================================================== *)

(** A call of one of the four tools that validate their input through the
    validation manager. *)
Inductive tool_call :=
| ModifyDocText (document_id : str) (start_index : Z) (end_index : option Z)
    (text : option str) (bold italic underline : option bool)
    (font_size : option Z) (font_family : option str)
| UpdateDocHeadersFooters
    (document_id section_type content header_footer_type : str)
| BatchUpdateDoc (document_id : str) (operations : list operation)
| CreateTableWithData (document_id : str) (data : table_data) (index : Z)
    (bold_headers : bool).

Definition tool_body (validator : ValidationManager) (tc : tool_call)
  : prog str :=
  match tc with
  | ModifyDocText d s e t b i u fs ff =>
      modify_doc_text validator d s e t b i u fs ff
  | UpdateDocHeadersFooters d st c hft =>
      update_doc_headers_footers validator d st c hft
  | BatchUpdateDoc d ops => batch_update_doc validator d ops
  | CreateTableWithData d data index bold =>
      create_table_with_data validator d data index bold
  end.

(** The validation checks a tool performs on its input, in order, each with
    its verdict and diagnostic.  [modify_doc_text] checks the formatting
    parameters and the range only when formatting is requested, and the
    range only when [end_index] is given. *)
Definition checks_performed (validator : ValidationManager) (tc : tool_call)
  : list (bool * str) :=
  match tc with
  | ModifyDocText d s e t b i u fs ff =>
      [validate_document_id validator d;
       (is_some t || formatting_requested b i u fs ff,
        lit "Must provide either 'text' to insert/replace, or formatting parameters (bold, italic, underline, font_size, font_family).")]
      ++
      (if formatting_requested b i u fs ff then
         [validate_text_formatting_params validator b i u fs ff;
          (is_some e, lit "'end_index' is required when applying formatting.")]
         ++ match e with
            | Some _ => [validate_index_range validator s e]
            | None => []
            end
       else [])
  | UpdateDocHeadersFooters d st c hft =>
      [validate_document_id validator d;
       validate_header_footer_params validator st hft;
       validate_text_content validator c]
  | BatchUpdateDoc d ops =>
      [validate_document_id validator d;
       validate_batch_operations validator ops]
  | CreateTableWithData d data index bold =>
      [validate_document_id validator d;
       validate_table_data validator data;
       validate_index validator index (lit "Index")]
  end.

Definition error_prefix (tc : tool_call) : str :=
  match tc with
  | CreateTableWithData _ _ _ _ => lit "ERROR: "
  | _ => lit "Error: "
  end.

(** The text a tool returns when validation fails, if it does. *)
Definition validation_error (validator : ValidationManager) (tc : tool_call)
  : option str :=
  first_failure (error_prefix tc) (checks_performed validator tc).

(* ================================================================== *)
(** ** Offsets addressed by a batch *)
(* ================================================================== *)

(** No request of the batch addresses offset 0 as its insertion point or
    as the start of its range. *)
Definition avoids_offset_zero (requests : list EditOperation) : Prop :=
  forall r, In r requests -> lowest_offset r <> Some 0%Z.

(* ================================================================== *)
(** ** Trees cut at a depth *)
(* ================================================================== *)

(** Induction on elements through the rows and cells of tables. *)
Section ElementInduction.

Variable P : element -> Prop.
Hypothesis P_paragraph : forall runs, P (Paragraph runs).
Hypothesis P_table :
  forall tableRows, Forall (Forall (Forall P)) tableRows -> P (Table tableRows).
Hypothesis P_other : P OtherElement.

Fixpoint element_nested_ind (e : element) : P e :=
  match e with
  | Paragraph runs => P_paragraph runs
  | Table tableRows =>
      P_table
        ((fix rows_ind (rows : list (list (list element)))
            : Forall (Forall (Forall P)) rows :=
            match rows with
            | [] => Forall_nil _
            | row :: rows' =>
                Forall_cons row
                  ((fix row_ind (cells : list (list element))
                      : Forall (Forall P) cells :=
                      match cells with
                      | [] => Forall_nil _
                      | cell :: cells' =>
                          Forall_cons cell
                            ((fix cell_ind (content : list element)
                                : Forall P content :=
                                match content with
                                | [] => Forall_nil _
                                | x :: content' =>
                                    Forall_cons x (element_nested_ind x)
                                      (cell_ind content')
                                end) cell)
                            (row_ind cells')
                      end) row)
                  (rows_ind rows')
            end) tableRows)
  | OtherElement => P_other
  end.

End ElementInduction.

(** Induction on tabs through their child tabs. *)
Section TabInduction.

Variable P : tab -> Prop.
Hypothesis P_tab :
  forall documentTab childTabs,
    Forall P childTabs -> P (Tab documentTab childTabs).

Fixpoint tab_nested_ind (t : tab) : P t :=
  match t with
  | Tab documentTab childTabs =>
      P_tab documentTab
        ((fix children_ind (children : list tab) : Forall P children :=
            match children with
            | [] => Forall_nil _
            | child :: children' =>
                Forall_cons child (tab_nested_ind child)
                  (children_ind children')
            end) childTabs)
  end.

End TabInduction.

(** An element with the content of every cell nested more than [budget]
    tables below it removed. *)
Fixpoint truncate_element (budget : nat) (e : element) {struct e}
  : element :=
  match e with
  | Table tableRows =>
      Table
        (map (map (fun cell_content =>
                     match budget with
                     | O => []
                     | S budget' => map (truncate_element budget') cell_content
                     end))
           tableRows)
  | Paragraph runs => Paragraph runs
  | OtherElement => OtherElement
  end.

Definition truncate_document_tab (budget : nat) (dt : document_tab)
  : document_tab :=
  {| tab_title := tab_title dt;
     tab_body := map (truncate_element budget) (tab_body dt) |}.

(** A tab with cell nesting cut at [budget] in the body of every tab,
    all child tabs kept. *)
Fixpoint truncate_cells_of_tab (budget : nat) (t : tab) : tab :=
  match t with
  | Tab documentTab childTabs =>
      Tab (option_map (truncate_document_tab budget) documentTab)
        (map (truncate_cells_of_tab budget) childTabs)
  end.

(** A tab with cell nesting cut at [budget] and the child tabs nested
    more than [levels] tabs below it removed. *)
Fixpoint truncate_tab (budget levels : nat) (t : tab) {struct t} : tab :=
  match t with
  | Tab documentTab childTabs =>
      Tab (option_map (truncate_document_tab budget) documentTab)
        match levels with
        | O => []
        | S levels' => map (truncate_tab budget levels') childTabs
        end
  end.

(** A document cut at a depth ceiling for cells only. *)
Definition truncate_cells (ceiling : nat) (doc : document) : document :=
  {| doc_body := map (truncate_element ceiling) (doc_body doc);
     doc_tabs := map (truncate_cells_of_tab ceiling) (doc_tabs doc) |}.

(** A document cut at a depth ceiling for cells and for tabs. *)
Definition truncate_document (ceiling : nat) (doc : document) : document :=
  {| doc_body := map (truncate_element ceiling) (doc_body doc);
     doc_tabs := map (truncate_tab ceiling ceiling) (doc_tabs doc) |}.

(** [descendant n t t']: [t'] is nested [n] levels of child tabs below
    [t]. *)
Inductive descendant : nat -> tab -> tab -> Prop :=
| descendant_self t : descendant 0 t t
| descendant_child n documentTab childTabs child t' :
    In child childTabs ->
    descendant n child t' ->
    descendant (S n) (Tab documentTab childTabs) t'.

(** A chain of [n] tabs without content around [t]. *)
Fixpoint nest_tab (n : nat) (t : tab) : tab :=
  match n with
  | O => t
  | S n' => Tab None [nest_tab n' t]
  end.

(** [e] inside [n] tables of one cell each. *)
Fixpoint nest_table (n : nat) (e : element) : element :=
  match n with
  | O => e
  | S n' => Table [[[nest_table n' e]]]
  end.

Definition leaf_tab (title text : str) : tab :=
  Tab (Some {| tab_title := Some title;
               tab_body := [Paragraph [Some text]] |}) [].

(** A document whose only text is in a tab seven levels below a top-level
    tab. *)
Definition deep_tabs_document : document :=
  {| doc_body := [];
     doc_tabs := [nest_tab 7 (leaf_tab (lit "Notes") (lit "deep text"))] |}.

(* ================================================================== *)
(** ** Collaborators used in examples *)
(* ================================================================== *)

Module Examples.

(** A validation manager that accepts everything. *)
Definition accept_all : ValidationManager :=
  {| validate_document_id := fun _ => (true, []);
     validate_text_formatting_params := fun _ _ _ _ _ => (true, []);
     validate_index_range := fun _ _ => (true, []);
     validate_header_footer_params := fun _ _ => (true, []);
     validate_text_content := fun _ => (true, []);
     validate_batch_operations := fun _ => (true, []);
     validate_table_data := fun _ => (true, []);
     validate_index := fun _ _ => (true, []) |}.

(** A validation manager that refuses every document id. *)
Definition reject_ids : ValidationManager :=
  {| validate_document_id := fun _ => (false, lit "Invalid document ID");
     validate_text_formatting_params := fun _ _ _ _ _ => (true, []);
     validate_index_range := fun _ _ => (true, []);
     validate_header_footer_params := fun _ _ => (true, []);
     validate_text_content := fun _ => (true, []);
     validate_batch_operations := fun _ => (true, []);
     validate_table_data := fun _ => (true, []);
     validate_index := fun _ _ => (true, []) |}.

Definition describe_range (f : SpecValidation.range_failure) : str :=
  match f with
  | SpecValidation.StartNegative => lit "start_index cannot be negative"
  | SpecValidation.EndNegative => lit "end_index cannot be negative"
  | SpecValidation.EndNotAfterStart =>
      lit "end_index must be greater than start_index"
  end.

Definition describe_batch (f : SpecValidation.batch_failure) : str :=
  match f with
  | SpecValidation.EmptyOperations => lit "Operations list cannot be empty"
  | SpecValidation.InvalidOperation n =>
      lit "Invalid operation at position " ++ of_Z (Z.of_nat n)
  end.

Definition required_params (t : str) : option (list str) :=
  if eqb_str t (lit "insert_text") then Some [lit "index"; lit "text"]
  else if eqb_str t (lit "insert_page_break") then Some [lit "index"]
  else None.

(** The spec's range and batch checks over [accept_all]. *)
Definition spec_checks : ValidationManager :=
  with_spec_checks
    describe_range describe_batch required_params accept_all.

Definition empty_metadata : file_metadata :=
  {| meta_mimeType := None; meta_name := None; meta_webViewLink := None |}.

Definition empty_document : document := {| doc_body := []; doc_tabs := [] |}.

(** A remote side without state: every call succeeds; a table is
    created with the reply [table_reply index]. *)
Definition quiet (table_reply : Z -> bool * str * table_metadata)
  : handler unit :=
  fun R c w =>
    match c in netE R return result R * unit with
    | DriveFilesGet _ _ => (Ok empty_metadata, tt)
    | DriveGetMedia _ => (Ok ([], []), tt)
    | DocsGet _ _ => (Ok empty_document, tt)
    | DocsBatchUpdate _ _ => (Ok tt, tt)
    | CreateAndPopulateTable _ _ index _ => (Ok (table_reply index), tt)
    | UpdateHeaderFooterContent _ _ _ _ => (Ok (true, lit "Updated"), tt)
    | ExecuteBatchOperations _ _ =>
        (Ok (true, lit "Done", {| bm_replies_count := None |}), tt)
    end.

Definition table_ok (index : Z) : bool * str * table_metadata :=
  (true, lit "Table created",
   {| tm_rows := Some 2%Z; tm_columns := Some 3%Z |}).

(** A document whose end is at offset 10: a table at 10 or beyond is
  refused with the boundary message of the remote API. *)
Definition table_at_end (index : Z) : bool * str * table_metadata :=
if (10 <=? index)%Z then
  (false,
   lit "Index " ++ of_Z index ++
   lit " must be less than the end index of the referenced segment, 10.",
   {| tm_rows := None; tm_columns := None |})
else table_ok index.

Definition grid_2x3 : table_data :=
[[Some (lit "a"); Some (lit "b"); Some (lit "c")];
 [Some (lit "d"); Some (lit "e"); Some (lit "f")]].

Definition binary_metadata : file_metadata :=
{| meta_mimeType := Some (lit "application/octet-stream");
   meta_name := Some (lit "blob.bin");
   meta_webViewLink := None |}.

(** A binary file in Drive: one byte that is not UTF-8, no Office text. *)
Definition binary_file : handler unit :=
fun R c w =>
  match c in netE R return result R * unit with
  | DriveFilesGet _ _ => (Ok binary_metadata, tt)
  | DriveGetMedia _ => (Ok ([xff], []), tt)
  | DocsGet _ _ => (Ok empty_document, tt)
  | DocsBatchUpdate _ _ => (Ok tt, tt)
  | CreateAndPopulateTable _ _ index _ => (Ok (table_ok index), tt)
  | UpdateHeaderFooterContent _ _ _ _ => (Ok (true, lit "Updated"), tt)
  | ExecuteBatchOperations _ _ =>
      (Ok (true, lit "Done", {| bm_replies_count := None |}), tt)
  end.

Definition no_office_text (content : bytes) (mime_type : str) : option str :=
None.

Definition no_tables (doc : document) : list table_info := [].

Definition no_json (value : json) : str := [].

End Examples.

(* ================================================================== *)
(** ** Table creation against a linear document *)
(* ================================================================== *)

Module TableScenario.

(** Modelled from the spec: the remote document as the spec's data model
    describes it, a linear address space in which every offset holds one
    item.  Offset 0 holds the reserved boundary marker; a table is laid out
    as its start marker, then for each row a row marker and for each cell
    a cell marker followed by the characters of the cell, then an end
    marker.  A cell's marker occupies the cell's start offset, so text
    written into the cell goes at the next offset. *)
Inductive slot :=
| SectionBreak
| Ch (c : char) (bold : bool)
| TableStart
| RowStart
| CellStart
| TableEnd.

(** Modelled from the spec: [Cell] of the data model. *)
Record Cell := {
  row_index : nat;
  column_index : nat;
  start_offset : Z;
  end_offset : Z;
  insertion_offset : Z;
  text : str;
  text_bold : list bool
}.

(** Modelled from the spec: the Table variant of [ParsedElement]. *)
Record TableElement := {
  table_start_offset : Z;
  table_end_offset : Z;
  row_count : nat;
  column_count : nat;
  cells : list Cell
}.

(** Modelled from the spec: [DocumentStructure], reduced to the fields the
    table manager reads. *)
Record DocumentStructure := {
  total_length : Z;
  tables : list TableElement
}.

(** *** Document structure parser *)

(** The state of the single walk over the document: the cell and the table
    being read, if any, and the tables read so far. *)
Record walk := {
  open_cell : option Cell;
  open_table : option TableElement;
  rows_seen : nat;
  columns_seen : nat;
  done_tables : list TableElement
}.

Definition close_cell (pos : Z) (st : walk) : walk :=
  match open_cell st, open_table st with
  | Some c, Some t =>
      {| open_cell := None;
         open_table :=
           Some {| table_start_offset := table_start_offset t;
                   table_end_offset := table_end_offset t;
                   row_count := row_count t;
                   column_count := column_count t;
                   cells :=
                     cells t ++
                     [{| row_index := row_index c;
                         column_index := column_index c;
                         start_offset := start_offset c;
                         end_offset := pos;
                         insertion_offset := insertion_offset c;
                         text := text c;
                         text_bold := text_bold c |}] |};
         rows_seen := rows_seen st;
         columns_seen := columns_seen st;
         done_tables := done_tables st |}
  | _, _ => st
  end.

Definition walk_step (pos : Z) (st : walk) (s : slot) : walk :=
  match s with
  | SectionBreak => st
  | Ch c b =>
      match open_cell st with
      | Some cell =>
          {| open_cell :=
               Some {| row_index := row_index cell;
                       column_index := column_index cell;
                       start_offset := start_offset cell;
                       end_offset := end_offset cell;
                       insertion_offset := insertion_offset cell;
                       text := text cell ++ [c];
                       text_bold := text_bold cell ++ [b] |};
             open_table := open_table st;
             rows_seen := rows_seen st;
             columns_seen := columns_seen st;
             done_tables := done_tables st |}
      | None => st
      end
  | TableStart =>
      {| open_cell := None;
         open_table :=
           Some {| table_start_offset := pos; table_end_offset := pos;
                   row_count := 0; column_count := 0; cells := [] |};
         rows_seen := 0;
         columns_seen := 0;
         done_tables := done_tables st |}
  | RowStart =>
      let st := close_cell pos st in
      {| open_cell := None;
         open_table := open_table st;
         rows_seen := S (rows_seen st);
         columns_seen := 0;
         done_tables := done_tables st |}
  | CellStart =>
      let st := close_cell pos st in
      {| open_cell :=
           Some {| row_index := pred (rows_seen st);
                   column_index := columns_seen st;
                   start_offset := pos;
                   end_offset := pos;
                   insertion_offset := pos + 1;
                   text := [];
                   text_bold := [] |};
         open_table := open_table st;
         rows_seen := rows_seen st;
         columns_seen := S (columns_seen st);
         done_tables := done_tables st |}
  | TableEnd =>
      let st := close_cell pos st in
      match open_table st with
      | Some t =>
          {| open_cell := None;
             open_table := None;
             rows_seen := 0;
             columns_seen := 0;
             done_tables :=
               done_tables st ++
               [{| table_start_offset := table_start_offset t;
                   table_end_offset := pos + 1;
                   row_count := rows_seen st;
                   column_count := columns_seen st;
                   cells := cells t |}] |}
      | None => st
      end
  end.

Fixpoint walk_from (pos : Z) (st : walk) (doc : list slot) : walk :=
  match doc with
  | [] => st
  | s :: rest => walk_from (pos + 1) (walk_step pos st s) rest
  end.

(** Modelled from the spec: the Document Structure Parser, one walk over
    the document with a running offset cursor. *)
Definition parse_document_structure (doc : list slot) : DocumentStructure :=
  {| total_length := Z.of_nat (List.length doc);
     tables :=
       done_tables
         (walk_from 0
            {| open_cell := None; open_table := None; rows_seen := 0;
               columns_seen := 0; done_tables := [] |}
            doc) |}.

(** *** The remote document *)

(** The remote side: the document, and every operation sent to it so far,
    each with the document as it was when the operation arrived. *)
Record remote := {
  slots : list slot;
  history : list (EditOperation * list slot)
}.

Definition emitted (rm : remote) : list EditOperation :=
  map fst (history rm).

(** The rejection of an insertion at or beyond the end of the document. *)
Definition boundary_error (offset len : Z) : str :=
  lit "Index " ++ of_Z offset ++
  lit " must be less than the end index of the referenced segment, " ++
  of_Z len ++ lit ".".

Definition splice (offset : Z) (new : list slot) (doc : list slot)
  : list slot :=
  firstn (Z.to_nat offset) doc ++ new ++ skipn (Z.to_nat offset) doc.

(** The items of an empty table of [rows] by [columns] cells. *)
Definition table_slots (rows columns : Z) : list slot :=
  TableStart ::
  List.concat (repeat (RowStart :: repeat CellStart (Z.to_nat columns))
                 (Z.to_nat rows)) ++
  [TableEnd].

Fixpoint set_bold_from (pos start_index end_index : Z) (b : bool)
  (doc : list slot) : list slot :=
  match doc with
  | [] => []
  | s :: rest =>
      (match s with
       | Ch c old =>
           if (start_index <=? pos)%Z && (pos <? end_index)%Z
           then Ch c b else Ch c old
       | _ => s
       end) :: set_bold_from (pos + 1) start_index end_index b rest
  end.

(** Modelled from the spec: the effect of one operation on the remote
    document, or the message of its rejection.  An insertion addresses an
    offset from 1 (offset 0 is reserved) to below the end of the document;
    text inserted at an offset shifts everything from that offset on. *)
Definition apply_operation (op : EditOperation) (doc : list slot)
  : str + list slot :=
  let len := Z.of_nat (List.length doc) in
  let insert (offset : Z) (new : list slot) :=
    if (offset <? 1)%Z then
      inl (lit "Index " ++ of_Z offset ++ lit " must be at least 1.")
    else if (len <=? offset)%Z then inl (boundary_error offset len)
    else inr (splice offset new doc) in
  match op with
  | InsertText offset value =>
      insert offset (map (fun c => Ch c false) value)
  | InsertTable offset rows columns =>
      insert offset (table_slots rows columns)
  | FormatText start_index (Some end_index) (Some b) _ _ _ _ =>
      inr (set_bold_from 0 start_index end_index b doc)
  | _ => inr doc
  end.

(** Sends one operation: it is recorded, and applied unless rejected. *)
Definition send (op : EditOperation) (rm : remote) : option str * remote :=
  match apply_operation op (slots rm) with
  | inl error =>
      (Some error,
       {| slots := slots rm; history := history rm ++ [(op, slots rm)] |})
  | inr doc =>
      (None, {| slots := doc; history := history rm ++ [(op, slots rm)] |})
  end.

(** *** Table operation manager *)

(** Locating the newly created table: the first table that starts at or
    after the offset the table was inserted at. *)
Definition locate_table (index : Z) (structure : DocumentStructure)
  : option TableElement :=
  find (fun t => (index <=? table_start_offset t)%Z) (tables structure).

Definition cell_at (t : TableElement) (r c : nat) : option Cell :=
  find (fun cell => (row_index cell =? r)%nat && (column_index cell =? c)%nat)
    (cells t).

Definition row_cells (t : TableElement) (r : nat) : list Cell :=
  filter (fun cell => (row_index cell =? r)%nat) (cells t).

(** The values of one row, each written at the insertion offset its cell
    has in [t], in the order given. *)
Fixpoint populate_cells (t : TableElement) (r : nat)
  (values : list (nat * option str)) (rm : remote) : option str * remote :=
  match values with
  | [] => (None, rm)
  | (c, value) :: rest =>
      if truthy_str value then
        match cell_at t r c with
        | Some cell =>
            let '(error, rm) :=
              send (InsertText (insertion_offset cell) (default_str value [])) rm in
            match error with
            | Some e => (Some e, rm)
            | None => populate_cells t r rest rm
            end
        | None => (Some (lit "Cell not found"), rm)
        end
      else populate_cells t r rest rm
  end.

(** Bolding the first row: its span is read from a fresh structure. *)
Definition format_header_row (index : Z) (rm : remote) : option str * remote :=
  match locate_table index (parse_document_structure (slots rm)) with
  | Some t =>
      match row_cells t 0 with
      | first :: others =>
          send (FormatText (start_offset first)
                  (Some (end_offset (last others first)))
                  (Some true) None None None None) rm
      | [] => (None, rm)
      end
  | None => (Some (lit "Table not found"), rm)
  end.

(** Modelled from the spec: step 3 and 4 of the protocol of the Table
    Operation Manager.  The rows are filled in order; before each row the
    structure is parsed again, and within the row the columns are written
    in reverse, so that no offset of that snapshot is used after an
    insertion before it.  The first row is bolded once its values are
    in. *)
Fixpoint populate_rows (index : Z) (bold_headers : bool)
  (rows : list (nat * list (option str))) (rm : remote)
  : option str * remote :=
  match rows with
  | [] => (None, rm)
  | (r, values) :: rest =>
      match locate_table index (parse_document_structure (slots rm)) with
      | Some t =>
          let '(error, rm) :=
            populate_cells t r (rev (enumerate 0 values)) rm in
          match error with
          | Some e => (Some e, rm)
          | None =>
              let '(error, rm) :=
                if bold_headers && (r =? 0)%nat
                then format_header_row index rm else (None, rm) in
              match error with
              | Some e => (Some e, rm)
              | None => populate_rows index bold_headers rest rm
              end
          end
      | None => (Some (lit "Table not found"), rm)
      end
  end.

(** Modelled from the spec: [TableOperationManager.create_and_populate_table]
    is defined outside gdocs/docs_tools.py.  The protocol of the spec: issue
    InsertTable, parse the structure again to locate the new table and the
    insertion offset of each cell, issue InsertText for every non-empty
    value, and FormatText over the header row when bolding is requested.
    A rejection by the remote side is reported with its message. *)
Definition create_and_populate_table
  (data : table_data) (index : Z) (bold_headers : bool) (rm : remote)
  : (bool * str * table_metadata) * remote :=
  let rows := Z.of_nat (List.length data) in
  let columns := Z.of_nat (List.length (hd [] data)) in
  let '(error, rm) := send (InsertTable index rows columns) rm in
  match error with
  | Some e => ((false, e, {| tm_rows := None; tm_columns := None |}), rm)
  | None =>
      let '(error, rm) :=
        populate_rows index bold_headers (enumerate 0 data) rm in
      match error with
      | Some e => ((false, e, {| tm_rows := None; tm_columns := None |}), rm)
      | None =>
          ((true,
            lit "Successfully created " ++ of_Z rows ++ lit "x" ++
            of_Z columns ++ lit " table",
            {| tm_rows := Some rows; tm_columns := Some columns |}), rm)
      end
  end.

(** The collaborators of the table scenarios: the table manager working on
    the remote document.  The other calls are not part of these scenarios
    and leave the document as it is. *)
Definition table_remote : handler remote :=
  fun R c rm =>
    match c in netE R return result R * remote with
    | CreateAndPopulateTable _ data index bold_headers =>
        let '(reply, rm) :=
          create_and_populate_table data index bold_headers rm in
        (Ok reply, rm)
    | DriveFilesGet _ _ => (Ok Examples.empty_metadata, rm)
    | DriveGetMedia _ => (Ok ([], []), rm)
    | DocsGet _ _ => (Ok Examples.empty_document, rm)
    | DocsBatchUpdate _ _ => (Ok tt, rm)
    | UpdateHeaderFooterContent _ _ _ _ => (Ok (true, []), rm)
    | ExecuteBatchOperations _ _ =>
        (Ok (true, [], {| bm_replies_count := None |}), rm)
    end.

(** The texts of the cells of a table, row by row. *)
Definition table_texts (t : TableElement) : list (list str) :=
  map (fun r => map text (row_cells t r)) (seq 0 (row_count t)).

Definition table_bold (t : TableElement) : list (list (list bool)) :=
  map (fun r => map text_bold (row_cells t r)) (seq 0 (row_count t)).

(** A document holding the paragraph "Intro" after the boundary marker:
    its total length is 7. *)
Definition intro_document : list slot :=
  SectionBreak :: map (fun c => Ch c false) (lit "Intro" ++ nl).

(** A document of total length 10: the boundary marker and a paragraph of
    nine characters. *)
Definition ten_document : list slot :=
  SectionBreak :: map (fun c => Ch c false) (lit "Overview" ++ nl).

Definition header_and_row : table_data :=
  [[Some (lit "A"); Some (lit "B")]; [Some (lit "1"); Some (lit "2")]].

(** *** Documents around a table *)

(** A stretch of document without any table marker. *)
Definition plain (doc : list slot) : bool :=
  forallb (fun s => match s with
                    | SectionBreak | Ch _ _ => true
                    | _ => false
                    end) doc.

(** Offsets moved by [d]. *)
Definition shift_cell (d : Z) (c : Cell) : Cell :=
  {| row_index := row_index c;
     column_index := column_index c;
     start_offset := start_offset c + d;
     end_offset := end_offset c + d;
     insertion_offset := insertion_offset c + d;
     text := text c;
     text_bold := text_bold c |}.

Definition shift_table (d : Z) (t : TableElement) : TableElement :=
  {| table_start_offset := table_start_offset t + d;
     table_end_offset := table_end_offset t + d;
     row_count := row_count t;
     column_count := column_count t;
     cells := map (shift_cell d) (cells t) |}.

Definition shift_walk (d : Z) (st : walk) : walk :=
  {| open_cell := option_map (shift_cell d) (open_cell st);
     open_table := option_map (shift_table d) (open_table st);
     rows_seen := rows_seen st;
     columns_seen := columns_seen st;
     done_tables := map (shift_table d) (done_tables st) |}.

Definition walk_start : walk :=
  {| open_cell := None; open_table := None; rows_seen := 0;
     columns_seen := 0; done_tables := [] |}.

(** The tables of a stretch of document read on its own, from offset 0. *)
Definition tables_of (doc : list slot) : list TableElement :=
  done_tables (walk_from 0 walk_start doc).

(** A table of two rows and two columns with the given cell contents. *)
Definition table_with (a b c d : list slot) : list slot :=
  [TableStart; RowStart; CellStart] ++ a ++ [CellStart] ++ b ++
  [RowStart; CellStart] ++ c ++ [CellStart] ++ d ++ [TableEnd].

Definition letter (s : string) (bold : bool) : list slot :=
  map (fun c => Ch c bold) (lit s).

End TableScenario.

(** An insertion of text is current when the offset it addresses is, in the
    document as it is when the insertion arrives, the insertion offset of a
    cell of the table being filled, and that cell is still empty. *)
Definition insertion_is_current (index : Z)
  (entry : EditOperation * list TableScenario.slot) : bool :=
  match entry with
  | (InsertText offset _, before) =>
      match TableScenario.locate_table index
              (TableScenario.parse_document_structure before) with
      | Some t =>
          existsb
            (fun cell =>
               (TableScenario.insertion_offset cell =? offset)%Z &&
               negb (truthy (TableScenario.text cell)))
            (TableScenario.cells t)
      | None => false
      end
  | _ => true
  end.

(* ================================================================== *)
(** ** Conditions on the inputs of the tools *)
(* ================================================================== *)

(** The inputs for which [insert_doc_elements] has nothing to send: a table
    without a row or column count (absent or 0), a list without a list
    type (absent or empty), or an element type that is none of 'table',
    'list' and 'page_break'. *)
Definition element_request_refused
  (element_type : str) (rows columns : option Z) (list_type : option str)
  : bool :=
  if eqb_str element_type (lit "table")
  then negb (truthy_int rows && truthy_int columns)
  else if eqb_str element_type (lit "list")
       then negb (truthy_str list_type)
       else negb (eqb_str element_type (lit "page_break")).

(** [image_source.startswith('http://') or
    image_source.startswith('https://')] *)
Definition is_url (image_source : str) : bool :=
  starts_with (lit "http://") image_source ||
  starts_with (lit "https://") image_source.

(* ================================================================== *)
(** ** Tools of the Drive listing, document creation and comments *)
(* ================================================================== *)

(** A file of a Drive listing; a field is [None] when the key is absent. *)
Record drive_file := {
  file_name : option str;
  file_id : option str;
  file_modifiedTime : option str;
  file_webViewLink : option str
}.

(** A reply to a comment, as [_read_comments_impl] reads it.  The author is
    [reply.get('author', {}).get('displayName')]: [None] when either key is
    absent. *)
Record comment_reply := {
  reply_id : option str;
  reply_author : option str;
  reply_content : option str;
  reply_createdTime : option str
}.

(** A comment; [comment_resolved] is the truth value of
    [comment.get('resolved', False)] and [comment_replies] is
    [comment.get('replies', [])]. *)
Record comment := {
  comment_id : option str;
  comment_author : option str;
  comment_content : option str;
  comment_createdTime : option str;
  comment_resolved : bool;
  comment_replies : list comment_reply
}.

(** Calls of the listing, creation and comment tools, indexed by what the
    tool reads of the reply: the ['files'] of a listing, the ['documentId']
    of a created document, the ['comments'] of a comment listing, each
    [None] when the key is absent. *)
Inductive driveE : Type -> Type :=
| FilesList (q : str) (pageSize : Z) (fields : str)
    : driveE (option (list drive_file))
| DocumentsCreate (title : str) : driveE (option str)
| DocumentsBatchUpdate (documentId : option str)
    (requests : list EditOperation) : driveE unit
| CommentsList (fileId fields : str) : driveE (option (list comment)).

(** A tool body over the calls [E]: returns, raises, or calls and continues
    with the reply (or the exception the call raised). *)
Inductive script (E : Type -> Type) (A : Type) : Type :=
| Answer (a : A)
| Abort (e : exn)
| Request (R : Type) (c : E R) (k : result R -> script E A).
Arguments Answer {E A} a.
Arguments Abort {E A} e.
Arguments Request {E A R} c k.

(** A call outside any [try]: an exception propagates. *)
Definition request {E : Type -> Type} {R} (c : E R) : script E R :=
  Request c (fun r => match r with Ok v => Answer v | Err e => Abort e end).

Fixpoint and_then {E : Type -> Type} {A B}
  (p : script E A) (f : A -> script E B) : script E B :=
  match p with
  | Answer a => f a
  | Abort e => Abort e
  | Request c k => Request c (fun r => and_then (k r) f)
  end.

(** One recorded call. *)
Inductive asked (E : Type -> Type) :=
| Asked (R : Type) (c : E R).
Arguments Asked {E R} c.

Section Play.

Variable E : Type -> Type.

(** [W] is the state of the remote side. *)
Variable W : Type.

Definition service := forall R, E R -> W -> result R * W.

Variable h : service.

(** The outcome of a tool, the final remote state and the calls issued,
    in order. *)
Fixpoint play {A} (p : script E A) (w : W)
  : outcome A * W * list (asked E) :=
  match p with
  | Answer a => (Returned a, w, [])
  | Abort e => (Raised e, w, [])
  | Request c k =>
      let '(r, w') := h c w in
      let '(o, w'', evs) := play (k r) w' in
      (o, w'', Asked c :: evs)
  end.

Definition answer_of {A} (p : script E A) (w : W) : outcome A :=
  fst (fst (play p w)).

Definition requests_of {A} (p : script E A) (w : W) : list (asked E) :=
  snd (play p w).

End Play.

(** [KeyError(key)]; its [str] is the [repr] of the key. *)
Definition KeyError (key : str) : exn :=
  OtherError (lit "'" ++ key ++ lit "'").

(** A value formatted in an f-string: [None] prints as "None". *)
Definition str_or_none (o : option str) : str :=
  match o with Some s => s | None => lit "None" end.

Definition apostrophe : char := 39%N.
Definition backslash : char := 92%N.

(** [query.replace(apostrophe, backslash + apostrophe)]: every apostrophe
    becomes a backslash followed by an apostrophe. *)
Definition escape_apostrophes (query : str) : str :=
  flat_map (fun c => if (c =? apostrophe)%N then [backslash; apostrophe]
                     else [c])
    query.

(** The line of one file: [f['name']] and [f['id']] raise KeyError when
    the key is absent, [f.get(...)] gives [None]. *)
Definition file_line (f : drive_file) : result str :=
  match file_name f with
  | None => Err (KeyError (lit "name"))
  | Some name =>
      match file_id f with
      | None => Err (KeyError (lit "id"))
      | Some id =>
          Ok (lit "- " ++ name ++ lit " (ID: " ++ id ++ lit ") Modified: " ++
              str_or_none (file_modifiedTime f) ++ lit " Link: " ++
              str_or_none (file_webViewLink f))
      end
  end.

(** A file whose line can be written. *)
Definition has_name_and_id (f : drive_file) : bool :=
  is_some (file_name f) && is_some (file_id f).

(** [for f in files: output.append(...)] *)
Fixpoint file_lines (files : list drive_file) (output : list str)
  : result (list str) :=
  match files with
  | [] => Ok output
  | f :: rest =>
      match file_line f with
      | Ok line => file_lines rest (output ++ [line])
      | Err e => Err e
      end
  end.

Definition docs_mime_clause : str :=
  lit " and mimeType='application/vnd.google-apps.document' and trashed=false".

(** The text of a listing, or the exception of its loop. *)
Definition listing (files : list drive_file) (header : str) : script driveE str :=
  match file_lines files [header] with
  | Ok output => Answer (join nl output)
  | Err e => Abort e
  end.

Definition search_docs (query : str) (page_size : Z) : script driveE str :=
  let escaped_query := escape_apostrophes query in
  and_then
    (request
       (FilesList
          (lit "name contains '" ++ escaped_query ++ lit "'" ++
           docs_mime_clause)
          page_size
          (lit "files(id, name, createdTime, modifiedTime, webViewLink)")))
    (fun response =>
       let files := match response with Some files => files | None => [] end in
       match files with
       | [] =>
           Answer (lit "No Google Docs found matching '" ++ query ++ lit "'.")
       | _ :: _ =>
           listing files
             (lit "Found " ++ of_Z (Z.of_nat (List.length files)) ++
              lit " Google Docs matching '" ++ query ++ lit "':")
       end).

Definition list_docs_in_folder (folder_id : str) (page_size : Z)
  : script driveE str :=
  and_then
    (request
       (FilesList
          (lit "'" ++ folder_id ++ lit "' in parents" ++ docs_mime_clause)
          page_size
          (lit "files(id, name, modifiedTime, webViewLink)")))
    (fun rsp =>
       let items := match rsp with Some items => items | None => [] end in
       match items with
       | [] =>
           Answer (lit "No Google Docs found in folder '" ++ folder_id ++
                   lit "'.")
       | _ :: _ =>
           listing items
             (lit "Found " ++ of_Z (Z.of_nat (List.length items)) ++
              lit " Docs in folder '" ++ folder_id ++ lit "':")
       end).

(** [create_doc]: the initial content, if any, is inserted at offset 1 of
    the document just created. *)
Definition create_doc (user_google_email title content : str)
  : script driveE str :=
  and_then (request (DocumentsCreate title))
    (fun doc_id =>
       and_then
         (if truthy content then
            let requests := [InsertText 1 content] in
            request (DocumentsBatchUpdate doc_id requests)
          else Answer tt)
         (fun _ =>
            let link := doc_link (str_or_none doc_id) in
            Answer (lit "Created Google Doc '" ++ title ++ lit "' (ID: " ++
                    str_or_none doc_id ++ lit ") for " ++ user_google_email ++
                    lit ". Link: " ++ link))).

(** *** Reading comments (core/comments.py) *)

(** The separator of [_read_comments_impl] and the end of its header are
    written with a doubled backslash in the source: the two characters
    backslash and n, not a line feed. *)
Definition backslash_n : str := [backslash; 110%N].

Definition reply_lines (reply : comment_reply) : list str :=
  [lit "    Reply ID: " ++ default_str (reply_id reply) [];
   lit "    Author: " ++ default_str (reply_author reply) (lit "Unknown");
   lit "    Created: " ++ default_str (reply_createdTime reply) [];
   lit "    Content: " ++ default_str (reply_content reply) []].

(** What one comment appends to [output]. *)
Definition comment_lines (c : comment) : list str :=
  let status := if comment_resolved c then lit " [RESOLVED]" else [] in
  [lit "Comment ID: " ++ default_str (comment_id c) [];
   lit "Author: " ++ default_str (comment_author c) (lit "Unknown");
   lit "Created: " ++ default_str (comment_createdTime c) [] ++ status;
   lit "Content: " ++ default_str (comment_content c) []] ++
  (match comment_replies c with
   | [] => []
   | replies =>
       (lit "  Replies (" ++ of_Z (Z.of_nat (List.length replies)) ++
        lit "):") :: flat_map reply_lines replies
   end) ++
  [[]].

Definition comments_fields : str :=
  lit "comments(id,content,author,createdTime,modifiedTime,resolved,replies(content,author,id,createdTime,modifiedTime))".

Definition read_comments_impl (app_name file_id : str) : script driveE str :=
  and_then (request (CommentsList file_id comments_fields))
    (fun response =>
       let comments :=
         match response with Some comments => comments | None => [] end in
       match comments with
       | [] =>
           Answer (lit "No comments found in " ++ app_name ++ lit " " ++
                   file_id)
       | _ :: _ =>
           let output :=
             (lit "Found " ++ of_Z (Z.of_nat (List.length comments)) ++
              lit " comments in " ++ app_name ++ lit " " ++ file_id ++
              lit ":" ++ backslash_n) ::
             flat_map comment_lines comments in
           Answer (join backslash_n output)
       end).

(** A string without line feed. *)
Definition single_line (s : str) : Prop := ~ In 10%N s.

Definition single_line_opt (o : option str) : Prop :=
  match o with Some s => single_line s | None => True end.

Definition reply_single_line (reply : comment_reply) : Prop :=
  single_line_opt (reply_id reply) /\
  single_line_opt (reply_author reply) /\
  single_line_opt (reply_content reply) /\
  single_line_opt (reply_createdTime reply).

Definition comment_single_line (c : comment) : Prop :=
  single_line_opt (comment_id c) /\
  single_line_opt (comment_author c) /\
  single_line_opt (comment_content c) /\
  single_line_opt (comment_createdTime c) /\
  Forall reply_single_line (comment_replies c).

Module DriveExamples.

Definition report : drive_file :=
  {| file_name := Some (lit "Report");
     file_id := Some (lit "doc-1");
     file_modifiedTime := None;
     file_webViewLink := Some (lit "https://docs.example/doc-1") |}.

Definition nameless : drive_file :=
  {| file_name := None;
     file_id := Some (lit "doc-2");
     file_modifiedTime := None;
     file_webViewLink := None |}.

Definition remark : comment :=
  {| comment_id := Some (lit "c1");
     comment_author := None;
     comment_content := Some (lit "Please check");
     comment_createdTime := Some (lit "2024-01-01");
     comment_resolved := true;
     comment_replies :=
       [{| reply_id := Some (lit "r1");
           reply_author := Some (lit "Ann");
           reply_content := Some (lit "Done");
           reply_createdTime := None |}] |}.

(** A remote side without state: a listing gives [files], a document is
    created with the id "new-doc", every call succeeds. *)
Definition drive (files : list drive_file) : service driveE unit :=
  fun R c w =>
    match c in driveE R return result R * unit with
    | FilesList _ _ _ => (Ok (Some files), tt)
    | DocumentsCreate _ => (Ok (Some (lit "new-doc")), tt)
    | DocumentsBatchUpdate _ _ => (Ok tt, tt)
    | CommentsList _ _ => (Ok (Some [remark]), tt)
    end.

(** The same, but the batch update fails. *)
Definition read_only_drive : service driveE unit :=
  fun R c w =>
    match c in driveE R return result R * unit with
    | FilesList _ _ _ => (Ok None, tt)
    | DocumentsCreate _ => (Ok (Some (lit "new-doc")), tt)
    | DocumentsBatchUpdate _ _ => (Err (HttpError (lit "403")), tt)
    | CommentsList _ _ => (Ok None, tt)
    end.

End DriveExamples.

(* ================================================================== *)
(** ** Facts about running programs *)
(* ================================================================== *)

Section RunFacts.

Variable W : Type.
Variable h : handler W.

Lemma run_ret A (a : A) (w : W) : run h (Ret a) w = (Returned a, w, []).
Proof. reflexivity. Qed.

Lemma run_call A R (c : netE R) (k : result R -> prog A) (w : W) :
  run h (Call c k) w =
  (let '(o, w'', evs) := run h (k (fst (h c w))) (snd (h c w)) in
   (o, w'', Ev c :: evs)).
Proof. simpl. destruct (h c w) as [r w']. reflexivity. Qed.

(** Running [p] and then [f] on its value. *)
Lemma run_bind A B (p : prog A) (f : A -> prog B) (w : W) :
  run h (bind p f) w =
  match run h p w with
  | (Returned a, w', evs) =>
      let '(o, w'', evs') := run h (f a) w' in (o, w'', evs ++ evs')
  | (Raised e, w', evs) => (Raised e, w', evs)
  end.
Proof.
  revert w. induction p as [a | e | R c k IH]; intro w; simpl.
  - destruct (run h (f a) w) as [[o w''] evs']. reflexivity.
  - reflexivity.
  - destruct (h c w) as [r w'].
    rewrite IH.
    destruct (run h (k r) w') as [[[a | e] w1] evs]; simpl.
    + destruct (run h (f a) w1) as [[o w2] evs']. reflexivity.
    + reflexivity.
Qed.

(** A single call outside [try]: the reply, or the exception. *)
Lemma run_single_call R (c : netE R) (w : W) :
  run h (call c) w =
  (match fst (h c w) with Ok v => Returned v | Err e => Raised e end,
   snd (h c w), [Ev c]).
Proof.
  unfold call. simpl. destruct (h c w) as [[v | e] w']; reflexivity.
Qed.

(** A tool that sends one request to a collaborator and then returns:
    exactly that call is issued, whatever the reply. *)
Lemma calls_of_call_then_ret A R (c : netE R) (f : R -> A) (w : W) :
  calls_of h (bind (call c) (fun r => Ret (f r))) w = [Ev c].
Proof.
  unfold calls_of. rewrite run_bind, run_single_call.
  destruct (h c w) as [[v | e] w']; reflexivity.
Qed.

End RunFacts.

(* ================================================================== *)
(** ** Validation gates of the tools *)
(* ================================================================== *)

Lemma first_failure_some prefix checks :
  (exists check, In check checks /\ fst check = false) ->
  exists message, first_failure prefix checks = Some (prefix ++ message).
Proof.
  induction checks as [| [ok msg] rest IH]; intros [check [Hin Hfail]].
  - destruct Hin.
  - simpl. destruct ok; simpl.
    + apply IH. destruct Hin as [<- | Hin]; [discriminate |].
      exists check. split; assumption.
    + exists msg. reflexivity.
Qed.

Lemma first_failure_none prefix checks :
  first_failure prefix checks = None ->
  forall check, In check checks -> fst check = true.
Proof.
  induction checks as [| [ok msg] rest IH]; simpl; intros Hnone check Hin.
  - destruct Hin.
  - destruct ok; simpl in Hnone; [| discriminate].
    destruct Hin as [<- | Hin]; [reflexivity | apply IH; assumption].
Qed.

(** The nested checks of [modify_doc_text] are its list of checks, taken
    in order. *)
Lemma modify_doc_text_validation_checks validator d s e t b i u fs ff :
  modify_doc_text_validation validator d s e t b i u fs ff =
  validation_error validator (ModifyDocText d s e t b i u fs ff).
Proof.
  unfold modify_doc_text_validation, validation_error, error_prefix,
    checks_performed.
  destruct (validate_document_id validator d) as [ok1 m1].
  destruct ok1; simpl; [| reflexivity].
  destruct (formatting_requested b i u fs ff) eqn:Hfmt.
  - rewrite orb_true_r, andb_false_r. simpl.
    destruct (validate_text_formatting_params validator b i u fs ff)
      as [ok2 m2].
    destruct ok2; simpl; [| reflexivity].
    destruct e as [e |]; simpl; [| reflexivity].
    destruct (validate_index_range validator s (Some e)) as [ok3 m3].
    destruct ok3; reflexivity.
  - rewrite orb_false_r, andb_true_r.
    destruct t; reflexivity.
Qed.

Lemma tool_body_validation validator tc :
  tool_body validator tc =
  match validation_error validator tc with
  | Some error => Ret error
  | None => tool_body validator tc
  end.
Proof.
  destruct (validation_error validator tc) as [error |] eqn:Hv;
    [| reflexivity].
  destruct tc; simpl.
  - unfold modify_doc_text.
    rewrite modify_doc_text_validation_checks, Hv. reflexivity.
  - unfold update_doc_headers_footers.
    change (update_doc_headers_footers_validation validator document_id
              section_type content header_footer_type)
      with (validation_error validator
              (UpdateDocHeadersFooters document_id section_type content
                 header_footer_type)).
    rewrite Hv. reflexivity.
  - unfold batch_update_doc.
    change (batch_update_doc_validation validator document_id operations)
      with (validation_error validator
              (BatchUpdateDoc document_id operations)).
    rewrite Hv. reflexivity.
  - unfold create_table_with_data.
    change (create_table_with_data_validation validator document_id data
              index)
      with (validation_error validator
              (CreateTableWithData document_id data index bold_headers)).
    rewrite Hv. reflexivity.
Qed.

Lemma error_prefix_marks tc message :
  starts_with (lit "Error:") (error_prefix tc ++ message) ||
  starts_with (lit "ERROR:") (error_prefix tc ++ message) = true.
Proof. destruct tc; reflexivity. Qed.

(** C4.  Validation errors are returned, not raised, before any network
    call: for each of [modify_doc_text], [update_doc_headers_footers],
    [batch_update_doc] and [create_table_with_data], and every input on
    which one of the validation checks the tool performs fails, the tool
    body is a plain return of a text that starts with "Error:" or "ERROR:";
    run against any collaborators it returns that text, leaves the remote
    side untouched and issues no call. *)
Theorem validation_failure_returns_error_text
  (validator : ValidationManager) (tc : tool_call) :
  (exists check,
     In check (checks_performed validator tc) /\ fst check = false) ->
  exists message,
    tool_body validator tc = Ret message /\
    starts_with (lit "Error:") message || starts_with (lit "ERROR:") message
      = true /\
    forall W (h : handler W) (w : W),
      run h (tool_body validator tc) w = (Returned message, w, []).
Proof.
  intro Hfail.
  destruct (first_failure_some (error_prefix tc) _ Hfail) as [msg Hmsg].
  exists (error_prefix tc ++ msg).
  assert (Hbody : tool_body validator tc = Ret (error_prefix tc ++ msg)).
  { rewrite tool_body_validation. unfold validation_error.
    rewrite Hmsg. reflexivity. }
  split; [exact Hbody |].
  split; [apply error_prefix_marks |].
  intros W h w. rewrite Hbody. reflexivity.
Qed.

Lemma validation_failure_returns_error_text_witness :
  exists message,
    tool_body Examples.reject_ids
      (BatchUpdateDoc (lit "doc-1") [[(lit "type", VStr (lit "insert_text"))]])
    = Ret message /\
    starts_with (lit "Error:") message || starts_with (lit "ERROR:") message
      = true /\
    forall W (h : handler W) (w : W),
      run h (tool_body Examples.reject_ids
               (BatchUpdateDoc (lit "doc-1")
                  [[(lit "type", VStr (lit "insert_text"))]])) w
      = (Returned message, w, []).
Proof.
  apply (@validation_failure_returns_error_text Examples.reject_ids
           (BatchUpdateDoc (lit "doc-1")
              [[(lit "type", VStr (lit "insert_text"))]])).
  exists (false, lit "Invalid document ID").
  split; [simpl; left; reflexivity | reflexivity].
Defined.

(** C6.  [batch_update_doc] given an empty operations list fails
    validation: with the batch check the spec describes, the check refuses
    the empty list, and the tool returns a text made of "Error: " and the
    diagnostic of the first failed check (the document id check, or else
    the batch check on the empty list), without any call: the batch manager
    is never invoked. *)
Theorem batch_update_doc_empty_operations
  (describe_range : SpecValidation.range_failure -> str)
  (describe_batch : SpecValidation.batch_failure -> str)
  (required_params : str -> option (list str))
  (base : ValidationManager) (document_id : str) :
  let validator :=
    with_spec_checks
      describe_range describe_batch required_params base in
  let message :=
    if fst (validate_document_id base document_id)
    then describe_batch SpecValidation.EmptyOperations
    else snd (validate_document_id base document_id) in
  fst (validate_batch_operations validator []) = false /\
  batch_update_doc validator document_id [] = Ret (lit "Error: " ++ message) /\
  forall W (h : handler W) (w : W),
    run h (batch_update_doc validator document_id []) w
    = (Returned (lit "Error: " ++ message), w, []).
Proof.
  intros validator message.
  assert (Hbody : batch_update_doc validator document_id []
                  = Ret (lit "Error: " ++ message)).
  { unfold batch_update_doc, batch_update_doc_validation, message.
    subst validator. simpl.
    destruct (validate_document_id base document_id) as [ok msg].
    destruct ok; reflexivity. }
  split; [reflexivity |].
  split; [exact Hbody |].
  intros W h w. rewrite Hbody. reflexivity.
Qed.

(** C7.  The range check the spec describes: for non-negative
    [start < end] it succeeds; for [end <= start], equality included, it
    fails; and it fails whenever [start < 0] or [end < 0]. *)
Theorem validate_index_range_spec
  (describe_range : SpecValidation.range_failure -> str)
  (start_index end_index : Z) :
  ((0 <= start_index < end_index)%Z ->
   fst (SpecValidation.validate_index_range describe_range
          start_index (Some end_index)) = true) /\
  ((end_index <= start_index)%Z ->
   fst (SpecValidation.validate_index_range describe_range
          start_index (Some end_index)) = false) /\
  ((start_index < 0 \/ end_index < 0)%Z ->
   fst (SpecValidation.validate_index_range describe_range
          start_index (Some end_index)) = false).
Proof.
  unfold SpecValidation.validate_index_range.
  repeat split; intro H;
    destruct (Z.ltb_spec start_index 0); simpl; try reflexivity; try lia;
    destruct (Z.ltb_spec end_index 0); simpl; try reflexivity; try lia;
    destruct (Z.leb_spec end_index start_index); simpl;
    try reflexivity; lia.
Qed.

Lemma validate_index_range_spec_witness :
  fst (SpecValidation.validate_index_range Examples.describe_range
         2 (Some 5%Z)) = true /\
  fst (SpecValidation.validate_index_range Examples.describe_range
         5 (Some 5%Z)) = false /\
  fst (SpecValidation.validate_index_range Examples.describe_range
         (-1) (Some 3%Z)) = false.
Proof.
  split; [| split].
  - apply (proj1 (validate_index_range_spec Examples.describe_range 2 5)).
    lia.
  - apply (proj1 (proj2
             (validate_index_range_spec Examples.describe_range 5 5))).
    lia.
  - apply (proj2 (proj2
             (validate_index_range_spec Examples.describe_range (-1) 3))).
    left. lia.
Defined.

(* ================================================================== *)
(** ** Request batches of the editing tools *)
(* ================================================================== *)

Lemma some_inj A (a b : A) : Some a = Some b -> a = b.
Proof. intro H. injection H as H. exact H. Qed.

(** Goes through the requests of a literal batch [Hin : In r [...]] and
    settles a goal on the start offset of each by arithmetic. *)
Ltac each_request Hin :=
  repeat (destruct Hin as [<- | Hin]); try (destruct Hin);
  unfold create_insert_text_request, create_delete_range_request,
    create_format_text_request, create_insert_table_request,
    create_insert_page_break_request, create_insert_image_request,
    create_bullet_list_request;
  cbn [lowest_offset];
  try (let Heq := fresh "Heq" in
       intro Heq; apply some_inj in Heq; lia);
  try (f_equal; lia).

Lemma avoid_section_break_nonzero index : avoid_section_break index <> 0%Z.
Proof.
  unfold avoid_section_break.
  destruct (Z.eqb_spec index 0); [discriminate | assumption].
Qed.

Lemma run_try_call W (h : handler W) R (c : netE R) (w : W) :
  run h (try_call c) w = (Returned (fst (h _ c w)), snd (h _ c w), [Ev c]).
Proof. unfold try_call. simpl. destruct (h R c w). reflexivity. Qed.

(** [modify_doc_text] sends nothing when validation fails and exactly one
    batch otherwise. *)
Lemma modify_doc_text_calls W (h : handler W) (w : W)
  validator d s e t b i u fs ff :
  calls_of h (modify_doc_text validator d s e t b i u fs ff) w =
  match modify_doc_text_validation validator d s e t b i u fs ff with
  | Some _ => []
  | None =>
      [Ev (DocsBatchUpdate d (modify_doc_text_requests s e t b i u fs ff))]
  end.
Proof.
  unfold modify_doc_text.
  destruct (modify_doc_text_validation validator d s e t b i u fs ff);
    [reflexivity |].
  cbv zeta. apply calls_of_call_then_ret.
Qed.

Lemma text_requests_avoid_zero s e t :
  avoids_offset_zero (fst (text_requests s e t)).
Proof.
  unfold text_requests, avoids_offset_zero.
  destruct t as [txt |]; [| intros r []].
  assert (Hlen : (0 <= len txt)%Z) by (unfold len; lia).
  destruct e as [e |].
  - destruct (Z.ltb_spec s e); destruct (Z.eqb_spec s 0);
      cbn [fst In]; intros r Hin; each_request Hin.
  - destruct (Z.eqb_spec s 0);
      cbn [fst In]; intros r Hin; each_request Hin.
Qed.

Lemma format_range_start_nonzero s e t : fst (format_range s e t) <> 0%Z.
Proof.
  unfold format_range.
  destruct (format_range_of_text s e t) as [fs0 fe0]. simpl.
  destruct (Z.eqb_spec fs0 0); [discriminate | assumption].
Qed.

Lemma format_requests_avoid_zero s e t b i u fs ff :
  avoids_offset_zero (fst (format_requests s e t b i u fs ff)).
Proof.
  unfold format_requests, avoids_offset_zero.
  destruct (formatting_requested b i u fs ff); [| intros r []].
  pose proof (format_range_start_nonzero s e t) as Hnz.
  destruct (format_range s e t) as [fs' fe']. simpl in *.
  intros r [<- | []]. simpl. intro Heq. injection Heq. exact Hnz.
Qed.

Lemma modify_doc_text_requests_avoid_zero s e t b i u fs ff :
  avoids_offset_zero (modify_doc_text_requests s e t b i u fs ff).
Proof.
  unfold modify_doc_text_requests. intros r Hin.
  apply in_app_or in Hin. destruct Hin as [Hin | Hin].
  - exact (text_requests_avoid_zero s e t r Hin).
  - exact (format_requests_avoid_zero s e t b i u fs ff r Hin).
Qed.

Lemma batches_single d requests (rs : list EditOperation) :
  In rs (batches [Ev (DocsBatchUpdate d requests)]) -> rs = requests.
Proof. simpl. intros [H | []]. symmetry. exact H. Qed.

(** Every request [insert_doc_elements] sends starts at the index it was
    given, 0 replaced by 1. *)
Lemma insert_doc_elements_offsets W (h : handler W) (w : W)
  str_lower d element_type index rows columns list_type text requests r :
  In requests
     (batches (calls_of h (insert_doc_elements str_lower d element_type index
                             rows columns list_type text) w)) ->
  In r requests ->
  lowest_offset r = Some (avoid_section_break index).
Proof.
  unfold insert_doc_elements. cbv zeta.
  intros Hin Hr.
  repeat match type of Hin with
         | context [if ?b then _ else _] => destruct b
         | context [match ?o with Some _ => _ | None => _ end] => destruct o
         end;
    try (rewrite calls_of_call_then_ret in Hin);
    try (apply batches_single in Hin; subst requests; each_request Hr;
         reflexivity);
    destruct Hin.
Qed.

(** [insert_doc_image] sends at most one batch, a single image insertion
    at the index it was given, 0 replaced by 1. *)
Lemma insert_doc_image_offsets W (h : handler W) (w : W)
  d image_source index width height requests :
  In requests
     (batches (calls_of h (insert_doc_image d image_source index
                             width height) w)) ->
  exists uri,
    requests = [InsertImage (avoid_section_break index) uri width height].
Proof.
  unfold insert_doc_image. cbv zeta.
  destruct (negb (starts_with (lit "http://") image_source ||
                  starts_with (lit "https://") image_source)).
  - unfold calls_of. rewrite run_bind, run_try_call.
    destruct (h _ (DriveFilesGet image_source (lit "id, name, mimeType")) w)
      as [[file_metadata | e] w1]; cbn [fst snd].
    + destruct (negb (starts_with (lit "image/")
                        (default_str (meta_mimeType file_metadata) []))).
      * simpl. intros [].
      * rewrite run_bind, run_single_call.
        destruct (h _ _ w1) as [[[] | e] w2]; cbn [fst snd];
          intros [Heq | []]; eexists; symmetry; exact Heq.
    + simpl. intros [].
  - rewrite calls_of_call_then_ret. intro Hin.
    apply batches_single in Hin. eexists. exact Hin.
Qed.

(** C1.  No request batch transmitted by [modify_doc_text],
    [insert_doc_elements] or [insert_doc_image] addresses offset 0 as an
    insertion point or as the start of a range.  An insertion requested at
    index 0 is emitted at index 1; a replacement requested at start 0 is
    emitted as an insertion at index 1 followed by the deletion of the old
    range shifted by the new text, so no deletion starting at 0 is sent. *)
Theorem offset_zero_never_addressed
  W (h : handler W) (w : W) (validator : ValidationManager)
  (str_lower : str -> str) (requests : list EditOperation) :
  (forall d s e t b i u fs ff,
     In requests
        (batches (calls_of h
                    (modify_doc_text validator d s e t b i u fs ff) w)) ->
     avoids_offset_zero requests /\
     (s = 0%Z -> forall txt, t = Some txt ->
      exists formatting,
        requests =
        (if is_replacement 0 e
         then [InsertText 1 txt;
               DeleteRange (1 + len txt) (default_Z e 0 + len txt)]
         else [InsertText 1 txt]) ++ formatting)) /\
  (forall d element_type index rows columns list_type text,
     In requests
        (batches (calls_of h
                    (insert_doc_elements str_lower d element_type index
                       rows columns list_type text) w)) ->
     avoids_offset_zero requests /\
     (index = 0%Z -> forall r, In r requests -> lowest_offset r = Some 1%Z)) /\
  (forall d image_source index width height,
     In requests
        (batches (calls_of h
                    (insert_doc_image d image_source index width height)
                    w)) ->
     avoids_offset_zero requests /\
     (index = 0%Z ->
      exists uri, requests = [InsertImage 1 uri width height])).
Proof.
  split; [| split].
  - intros d s e t b i u fs ff Hin.
    rewrite modify_doc_text_calls in Hin.
    destruct (modify_doc_text_validation validator d s e t b i u fs ff);
      [destruct Hin |].
    apply batches_single in Hin. subst requests.
    split; [apply modify_doc_text_requests_avoid_zero |].
    intros -> txt ->.
    unfold modify_doc_text_requests. eexists. f_equal.
    unfold text_requests, is_replacement.
    destruct e as [e |]; [| reflexivity].
    destruct (0 <? e)%Z; reflexivity.
  - intros d element_type index rows columns list_type text Hin.
    split.
    + intros r Hr Hzero.
      rewrite (insert_doc_elements_offsets _ _ _ _ _ _ _ _ _ _ _ _ Hin Hr)
        in Hzero.
      apply some_inj in Hzero.
      exact (avoid_section_break_nonzero _ Hzero).
    + intros -> r Hr.
      exact (insert_doc_elements_offsets _ _ _ _ _ _ _ _ _ _ _ _ Hin Hr).
  - intros d image_source index width height Hin.
    destruct (insert_doc_image_offsets _ _ _ _ _ _ _ _ Hin) as [uri ->].
    split.
    + intros r [<- | []]. simpl. intro Hzero. apply some_inj in Hzero.
      exact (avoid_section_break_nonzero _ Hzero).
    + intros ->. exists uri. reflexivity.
Qed.

Lemma offset_zero_never_addressed_witness :
  avoids_offset_zero [InsertText 1 (lit "Hi"); DeleteRange 3 7] /\
  (0 = 0 -> forall txt, Some (lit "Hi") = Some txt ->
   exists formatting,
     [InsertText 1 (lit "Hi"); DeleteRange 3 7] =
     (if is_replacement 0 (Some 5%Z)
      then [InsertText 1 txt;
            DeleteRange (1 + len txt) (default_Z (Some 5%Z) 0 + len txt)]
      else [InsertText 1 txt]) ++ formatting)%Z.
Proof.
  refine (proj1 (offset_zero_never_addressed
                   (Examples.quiet Examples.table_ok) tt
                   Examples.accept_all (fun s => s)
                   [InsertText 1 (lit "Hi"); DeleteRange 3 7])
            (lit "doc-1") 0%Z (Some 5%Z) (Some (lit "Hi"))
            None None None None None _).
  vm_compute. left. reflexivity.
Defined.

Lemma text_requests_no_format s e t fstart fend b i u fs ff :
  ~ In (FormatText fstart fend b i u fs ff) (fst (text_requests s e t)).
Proof.
  unfold text_requests.
  destruct t as [txt |]; [| intros []].
  destruct e as [e |];
    [destruct (s <? e)%Z; [destruct (s =? 0)%Z |] |];
    cbn [fst In]; intro Hin;
    repeat (destruct Hin as [Heq | Hin]; [discriminate Heq |]);
    destruct Hin.
Qed.

(** When formatting is requested and validation passes, an [end_index] was
    given and the range check accepted the range. *)
Lemma modify_doc_text_validation_passed validator d s e t b i u fs ff :
  modify_doc_text_validation validator d s e t b i u fs ff = None ->
  formatting_requested b i u fs ff = true ->
  exists e0, e = Some e0 /\
             fst (validate_index_range validator s e) = true.
Proof.
  unfold modify_doc_text_validation. intros Hv Hf. rewrite Hf in Hv.
  destruct (validate_document_id validator d) as [ok1 m1].
  destruct ok1; [| discriminate Hv].
  rewrite andb_false_r in Hv. cbn [negb] in Hv.
  destruct (validate_text_formatting_params validator b i u fs ff)
    as [ok2 m2].
  destruct ok2; [| discriminate Hv]. cbn [negb] in Hv.
  destruct e as [e0 |]; [| discriminate Hv].
  exists e0. split; [reflexivity |].
  destruct (validate_index_range validator s (Some e0)) as [ok3 m3].
  destruct ok3; [reflexivity | discriminate Hv].
Qed.

(** C8.  Every FormatText request emitted by [modify_doc_text] has
    start >= 1 and end > start, provided the range check of the validation
    manager refuses a negative start (as the spec says it does): a format
    start of 0 is bumped to 1, and a range whose end, after the adjustment
    for written text, is not after the start is widened to end = start + 1
    instead of being refused. *)
Theorem format_request_range
  (validator : ValidationManager)
  (Hstart : forall s e,
      fst (validate_index_range validator s e) = true -> (0 <= s)%Z)
  W (h : handler W) (w : W) d s e t b i u fs ff
  (requests : list EditOperation) fstart fend b' i' u' fs' ff' :
  In requests
     (batches (calls_of h (modify_doc_text validator d s e t b i u fs ff) w))
  ->
  In (FormatText fstart fend b' i' u' fs' ff') requests ->
  (1 <= fstart)%Z /\
  (exists end', fend = Some end' /\ (fstart < end')%Z) /\
  (s = 0%Z -> fstart = 1%Z) /\
  (forall raw_end,
      snd (format_range_of_text s e t) = Some raw_end ->
      (raw_end <= fstart)%Z -> fend = Some (fstart + 1)%Z).
Proof.
  intros Hin Hfmt.
  rewrite modify_doc_text_calls in Hin.
  destruct (modify_doc_text_validation validator d s e t b i u fs ff)
    eqn:Hv; [destruct Hin |].
  apply batches_single in Hin. subst requests.
  unfold modify_doc_text_requests in Hfmt.
  apply in_app_or in Hfmt. destruct Hfmt as [Hfmt | Hfmt].
  { exfalso. exact (text_requests_no_format _ _ _ _ _ _ _ _ _ _ Hfmt). }
  unfold format_requests in Hfmt.
  destruct (formatting_requested b i u fs ff) eqn:Hf; [| destruct Hfmt].
  destruct (modify_doc_text_validation_passed _ _ _ _ _ _ _ _ _ _ Hv Hf)
    as [e0 [-> Hok]].
  apply Hstart in Hok.
  destruct (format_range s (Some e0) t) as [fs0 fe0] eqn:Hr.
  cbn [fst In] in Hfmt. destruct Hfmt as [Heq | []].
  unfold create_format_text_request in Heq.
  injection Heq as -> -> _ _ _ _ _.
  unfold format_range in Hr.
  destruct (format_range_of_text s (Some e0) t) as [rs re] eqn:Hraw.
  cbn [snd].
  assert (Hre : exists raw_end, re = Some raw_end /\ (0 <= rs)%Z /\
                                (s = 0%Z -> rs = 0%Z \/ rs = 1%Z)).
  { unfold format_range_of_text in Hraw.
    destruct t as [txt |].
    - destruct (is_replacement s (Some e0)).
      + injection Hraw as <- <-. eexists. repeat split; [lia | auto].
      + destruct (Z.eqb_spec s 0); injection Hraw as <- <-;
          eexists; repeat split; try lia; auto.
    - injection Hraw as <- <-. eexists. repeat split; [lia | auto]. }
  destruct Hre as [raw_end [-> [Hrs Hzero]]].
  injection Hr as <- <-.
  destruct (Z.eqb_spec rs 0) as [-> | Hnz];
    [destruct (Z.leb_spec raw_end 1) | destruct (Z.leb_spec raw_end rs)];
    repeat split;
    try lia;
    try (eexists; split; [reflexivity | lia]);
    try (intro Hs; destruct (Hzero Hs); lia);
    try (intros raw Hraw' Hle; injection Hraw' as <-;
         first [reflexivity | exfalso; lia]).
Qed.

Lemma spec_range_check_refuses_negative_start describe_range s e :
  fst (SpecValidation.validate_index_range describe_range s e) = true ->
  (0 <= s)%Z.
Proof.
  unfold SpecValidation.validate_index_range.
  destruct (Z.ltb_spec s 0); [discriminate | lia].
Qed.

Lemma format_request_range_witness :
  (1 <= 1)%Z /\
  (exists end', Some 2%Z = Some end' /\ (1 < end')%Z) /\
  (0%Z = 0%Z -> 1%Z = 1%Z) /\
  (forall raw_end,
      snd (format_range_of_text 0 (Some 1%Z) None) = Some raw_end ->
      (raw_end <= 1)%Z -> Some 2%Z = Some (1 + 1)%Z).
Proof.
  refine (@format_request_range Examples.spec_checks _
            unit (Examples.quiet Examples.table_ok) tt
            (lit "doc-1") 0%Z (Some 1%Z) None (Some true) None None None None
            [FormatText 1 (Some 2%Z) (Some true) None None None None]
            1%Z (Some 2%Z) (Some true) None None None None _ _).
  - intros s e. apply spec_range_check_refuses_negative_start.
  - vm_compute. left. reflexivity.
  - simpl. left. reflexivity.
Defined.

(* ================================================================== *)
(** ** Boundary retry of create_table_with_data *)
(* ================================================================== *)

(** The calls [create_table_with_data] issues: none when validation fails;
    otherwise one attempt, and a second one at [index - 1] exactly when the
    first attempt reports a failure whose message contains the boundary
    text. *)
Lemma create_table_with_data_calls W (h : handler W) (w : W)
  validator d data index bold :
  calls_of h (create_table_with_data validator d data index bold) w =
  match create_table_with_data_validation validator d data index with
  | Some _ => []
  | None =>
      match fst (h _ (CreateAndPopulateTable d data index bold) w) with
      | Ok (false, message, _) =>
          if contains boundary_message message
          then [Ev (CreateAndPopulateTable d data index bold);
                Ev (CreateAndPopulateTable d data (index - 1) bold)]
          else [Ev (CreateAndPopulateTable d data index bold)]
      | _ => [Ev (CreateAndPopulateTable d data index bold)]
      end
  end.
Proof.
  unfold create_table_with_data.
  destruct (create_table_with_data_validation validator d data index);
    [reflexivity |].
  unfold calls_of. rewrite run_bind, run_single_call.
  destruct (h _ (CreateAndPopulateTable d data index bold) w)
    as [[[[success message] metadata] | e] w1]; cbn [fst snd];
    [| reflexivity].
  rewrite run_bind.
  destruct success; cbn [negb andb].
  - rewrite run_ret. reflexivity.
  - destruct (contains boundary_message message).
    + rewrite run_single_call.
      destruct (h _ (CreateAndPopulateTable d data (index - 1) bold) w1)
        as [[[[success2 message2] metadata2] | e2] w2]; cbn [fst snd];
        [destruct success2 |]; reflexivity.
    + rewrite run_ret. reflexivity.
Qed.

(** C2.  Once validation has passed, [create_table_with_data] attempts the
    table at [index]; if that attempt fails with a message containing
    "must be less than the end index", exactly one retry is issued, at
    [index - 1]; after any other failure (or a success, or an exception)
    no retry is issued; and no execution issues more than one retry. *)
Theorem boundary_retry_policy W (h : handler W) (w : W)
  (validator : ValidationManager) (d : str) (data : table_data)
  (index : Z) (bold : bool) :
  let evs :=
    calls_of h (create_table_with_data validator d data index bold) w in
  let first := CreateAndPopulateTable d data index bold in
  let retry := CreateAndPopulateTable d data (index - 1) bold in
  (create_table_with_data_validation validator d data index = None ->
   (forall message metadata,
       fst (h _ first w) = Ok (false, message, metadata) ->
       contains boundary_message message = true ->
       evs = [Ev first; Ev retry] /\
       table_attempts evs = [index; (index - 1)%Z]) /\
   (forall message metadata,
       fst (h _ first w) = Ok (false, message, metadata) ->
       contains boundary_message message = false ->
       evs = [Ev first]) /\
   (forall message metadata,
       fst (h _ first w) = Ok (true, message, metadata) ->
       evs = [Ev first]) /\
   (forall e, fst (h _ first w) = Err e -> evs = [Ev first])) /\
  (evs = [] \/ evs = [Ev first] \/ evs = [Ev first; Ev retry]).
Proof.
  intros evs first retry. subst evs.
  rewrite create_table_with_data_calls. fold first retry.
  split.
  - intros ->. split; [| split; [| split]].
    + intros message metadata Hfail Hmsg. rewrite Hfail, Hmsg.
      split; reflexivity.
    + intros message metadata H H0. rewrite H, H0. reflexivity.
    + intros message metadata H. rewrite H. reflexivity.
    + intros e H. rewrite H. reflexivity.
  - destruct (create_table_with_data_validation validator d data index);
      [left; reflexivity |].
    destruct (fst (h _ first w)) as [[[success message] metadata] | e];
      [destruct success; [| destruct (contains boundary_message message)] |];
      auto.
Qed.

Lemma boundary_retry_policy_witness :
  calls_of (Examples.quiet Examples.table_at_end)
    (create_table_with_data Examples.accept_all (lit "doc-1")
       Examples.grid_2x3 10 true) tt
  = [Ev (CreateAndPopulateTable (lit "doc-1") Examples.grid_2x3 10 true);
     Ev (CreateAndPopulateTable (lit "doc-1") Examples.grid_2x3 (10 - 1) true)]
  /\
  table_attempts
    (calls_of (Examples.quiet Examples.table_at_end)
       (create_table_with_data Examples.accept_all (lit "doc-1")
          Examples.grid_2x3 10 true) tt)
  = [10%Z; (10 - 1)%Z].
Proof.
  refine (proj1 (proj1 (boundary_retry_policy
                          (Examples.quiet Examples.table_at_end) tt
                          Examples.accept_all (lit "doc-1")
                          Examples.grid_2x3 10 true) _)
            (snd (fst (Examples.table_at_end 10)))
            (snd (Examples.table_at_end 10)) _ _);
    reflexivity.
Defined.

(** The first end-to-end scenario of the spec: a 2x3 table at offset 10 of
    a document that ends at 10 is retried at 9 and reported as created. *)
Example boundary_retry_scenario :
  outcome_of (Examples.quiet Examples.table_at_end)
    (create_table_with_data Examples.accept_all (lit "doc-1")
       Examples.grid_2x3 10 true) tt
  = Returned
      (lit "SUCCESS: Table created. Table: 2x3, Index: 10. Link: https://docs.google.com/document/d/doc-1/edit").
Proof. vm_compute. reflexivity. Qed.

(** When every check passes, the tool goes on to its collaborator: the
    gate is the only way to a result without a call. *)
Lemma tool_calls_after_validation validator tc :
  validation_error validator tc = None ->
  forall W (h : handler W) (w : W),
    calls_of h (tool_body validator tc) w <> [].
Proof.
  intros Hv W h w.
  destruct tc; cbn [tool_body].
  - rewrite modify_doc_text_calls, modify_doc_text_validation_checks, Hv.
    discriminate.
  - unfold update_doc_headers_footers.
    change (update_doc_headers_footers_validation validator document_id
              section_type content header_footer_type)
      with (validation_error validator
              (UpdateDocHeadersFooters document_id section_type content
                 header_footer_type)).
    rewrite Hv. unfold calls_of. rewrite run_bind, run_single_call.
    destruct (h _ _ w) as [[[success message] | e] w1]; cbn [fst snd];
      [destruct success |]; discriminate.
  - unfold batch_update_doc.
    change (batch_update_doc_validation validator document_id operations)
      with (validation_error validator
              (BatchUpdateDoc document_id operations)).
    rewrite Hv. unfold calls_of. rewrite run_bind, run_single_call.
    destruct (h _ _ w) as [[[[success message] metadata] | e] w1];
      cbn [fst snd]; [destruct success |]; discriminate.
  - rewrite create_table_with_data_calls.
    change (create_table_with_data_validation validator document_id data
              index)
      with (validation_error validator
              (CreateTableWithData document_id data index bold_headers)).
    rewrite Hv.
    destruct (fst (h _ _ w)) as [[[success message] metadata] | e];
      [destruct success; [| destruct (contains boundary_message message)] |];
      discriminate.
Qed.

(* ================================================================== *)
(** ** UTF-8 decoding and encoding *)
(* ================================================================== *)

Lemma to_N_byte_of n : (n < 256)%N -> Byte.to_N (byte_of n) = n.
Proof.
  intro Hn. unfold byte_of.
  destruct (Byte.of_N n) as [b |] eqn:Hb.
  - apply Byte.to_of_N. exact Hb.
  - apply Byte.of_N_None_iff in Hb. lia.
Qed.

Ltac nlia := zify; Z.to_euclidean_division_equations; lia.

Ltac decide_tests :=
  repeat match goal with
         | |- context [(?a <? ?b)%N] =>
             destruct (N.ltb_spec a b); try nlia
         | |- context [(?a <=? ?b)%N] =>
             destruct (N.leb_spec a b); try nlia
         end.

Lemma utf8_decode_encode_char (c : N) (rest : bytes) :
  is_scalar c = true ->
  utf8_decode (utf8_encode_char c ++ rest) = cons_opt c (utf8_decode rest).
Proof.
  unfold is_scalar, utf8_encode_char. intro Hc.
  apply andb_prop in Hc. destruct Hc as [Hmax Hsur].
  apply N.leb_le in Hmax.
  destruct (N.ltb_spec c 128) as [H1 | H1].
  - cbn [app utf8_decode]. rewrite to_N_byte_of by lia.
    destruct (N.ltb_spec c 128); [reflexivity | lia].
  - destruct (N.ltb_spec c 2048) as [H2 | H2].
    + cbn [app utf8_decode]. unfold is_continuation.
      rewrite !to_N_byte_of by nlia.
      decide_tests. cbn [andb]. f_equal. nlia.
    + destruct (N.ltb_spec c 65536) as [H3 | H3].
      * cbn [app utf8_decode]. unfold is_continuation.
        rewrite !to_N_byte_of by nlia.
        assert (Hcp : ((224 + c / 4096 - 224) * 4096 +
                       (128 + (c / 64) mod 64 - 128) * 64 +
                       (128 + c mod 64 - 128) = c)%N) by nlia.
        rewrite Hcp, Hsur.
        decide_tests. cbn [andb]. reflexivity.
      * cbn [app utf8_decode]. unfold is_continuation.
        rewrite !to_N_byte_of by nlia.
        assert (Hcp : ((240 + c / 262144 - 240) * 262144 +
                       (128 + (c / 4096) mod 64 - 128) * 4096 +
                       (128 + (c / 64) mod 64 - 128) * 64 +
                       (128 + c mod 64 - 128) = c)%N) by nlia.
        rewrite Hcp.
        decide_tests. cbn [andb]. reflexivity.
Qed.

Theorem utf8_decode_encode s :
  forallb is_scalar s = true -> utf8_decode (utf8_encode s) = Some s.
Proof.
  induction s as [| c rest IH]; intro Hs; [reflexivity |].
  cbn [forallb] in Hs. apply andb_prop in Hs. destruct Hs as [Hc Hrest].
  cbn [utf8_encode flat_map].
  rewrite utf8_decode_encode_char by exact Hc.
  fold (utf8_encode rest). rewrite IH by exact Hrest. reflexivity.
Qed.

Lemma byte_of_to_N b : byte_of (Byte.to_N b) = b.
Proof. unfold byte_of. rewrite Byte.of_to_N. reflexivity. Qed.

Lemma to_N_below_256 b : (Byte.to_N b < 256)%N.
Proof. pose proof (Byte.to_N_bounded b). lia. Qed.

Lemma cons_opt_some c o s :
  cons_opt c o = Some s -> exists s', o = Some s' /\ s = c :: s'.
Proof.
  destruct o as [s' |]; cbn [cons_opt]; intro H; [| discriminate H].
  injection H as <-. exists s'. split; reflexivity.
Qed.

(** Rebuilding a byte from its number. *)
Lemma byte_of_eq n b : n = Byte.to_N b -> byte_of n = b.
Proof. intros ->. apply byte_of_to_N. Qed.

Ltac split_tests H :=
  repeat match type of H with
         | context [(?a <? ?b)%N] => destruct (N.ltb_spec a b)
         | context [(?a <=? ?b)%N] => destruct (N.leb_spec a b)
         end;
  cbn [andb negb] in H; try discriminate H.

Ltac encoded_as cp He :=
  cbn [utf8_encode flat_map];
  match goal with
  | |- utf8_encode_char _ ++ flat_map utf8_encode_char ?s' = _ =>
      fold (utf8_encode s')
  end;
  rewrite He; unfold utf8_encode_char;
  repeat match goal with
         | |- context [(cp <? ?k)%N] => destruct (N.ltb_spec cp k); try lia
         end;
  cbn [app];
  repeat match goal with
         | |- _ :: _ = _ :: _ => f_equal
         end;
  try reflexivity; apply byte_of_eq; subst cp; nlia.

Ltac scalar_tail cp Hs :=
  cbn [forallb]; rewrite Hs; unfold is_scalar;
  repeat match goal with
         | |- context [(?a <=? ?b)%N] => destruct (N.leb_spec a b)
         end;
  try reflexivity; lia.

Lemma utf8_decode_sound_bounded n :
  forall bs s,
    (List.length bs <= n)%nat ->
    utf8_decode bs = Some s ->
    utf8_encode s = bs /\ forallb is_scalar s = true.
Proof.
  induction n as [| n IH]; intros bs s Hlen Hdec.
  - destruct bs; [| cbn [List.length] in Hlen; lia].
    injection Hdec as <-. split; reflexivity.
  - destruct bs as [| b0 r0].
    { injection Hdec as <-. split; reflexivity. }
    cbn [List.length] in Hlen.
    pose proof (to_N_below_256 b0) as Hb0.
    cbn [utf8_decode] in Hdec.
    destruct (N.ltb_spec (Byte.to_N b0) 128) as [Hone | Hone].
    { apply cons_opt_some in Hdec. destruct Hdec as [s' [Hd ->]].
      destruct (IH r0 s' ltac:(lia) Hd) as [He Hs].
      set (cp := Byte.to_N b0) in *.
      split; [encoded_as cp He | scalar_tail cp Hs]. }
    destruct ((194 <=? Byte.to_N b0) && (Byte.to_N b0 <=? 223))%N eqn:Htwo.
    { apply andb_prop in Htwo. destruct Htwo as [Hlo Hhi].
      apply N.leb_le in Hlo, Hhi.
      destruct r0 as [| b1 r1]; [discriminate Hdec |].
      pose proof (to_N_below_256 b1) as Hb1.
      unfold is_continuation in Hdec.
      set (cp := ((Byte.to_N b0 - 192) * 64 + (Byte.to_N b1 - 128))%N) in *.
      cbn [List.length] in Hlen.
      split_tests Hdec;
        apply cons_opt_some in Hdec; destruct Hdec as [s' [Hd ->]];
        destruct (IH r1 s' ltac:(lia) Hd) as [He Hs];
        assert (Hcp : (128 <= cp < 2048)%N) by (subst cp; lia);
        (split; [encoded_as cp He | scalar_tail cp Hs]). }
    destruct ((224 <=? Byte.to_N b0) && (Byte.to_N b0 <=? 239))%N eqn:Hthree.
    { apply andb_prop in Hthree. destruct Hthree as [Hlo Hhi].
      apply N.leb_le in Hlo, Hhi.
      destruct r0 as [| b1 [| b2 r2]]; try discriminate Hdec.
      pose proof (to_N_below_256 b1) as Hb1.
      pose proof (to_N_below_256 b2) as Hb2.
      unfold is_continuation in Hdec.
      set (cp := ((Byte.to_N b0 - 224) * 4096 + (Byte.to_N b1 - 128) * 64 +
                  (Byte.to_N b2 - 128))%N) in *.
      cbn [List.length] in Hlen.
      split_tests Hdec;
        apply cons_opt_some in Hdec; destruct Hdec as [s' [Hd ->]];
        destruct (IH r2 s' ltac:(lia) Hd) as [He Hs];
        assert (Hcp : (2048 <= cp < 65536)%N) by (subst cp; lia);
        (split; [encoded_as cp He | scalar_tail cp Hs]). }
    destruct ((240 <=? Byte.to_N b0) && (Byte.to_N b0 <=? 244))%N eqn:Hfour;
      [| discriminate Hdec].
    apply andb_prop in Hfour. destruct Hfour as [Hlo Hhi].
    apply N.leb_le in Hlo, Hhi.
    destruct r0 as [| b1 [| b2 [| b3 r3]]]; try discriminate Hdec.
    pose proof (to_N_below_256 b1) as Hb1.
    pose proof (to_N_below_256 b2) as Hb2.
    pose proof (to_N_below_256 b3) as Hb3.
    unfold is_continuation in Hdec.
    set (cp := ((Byte.to_N b0 - 240) * 262144 + (Byte.to_N b1 - 128) * 4096 +
                (Byte.to_N b2 - 128) * 64 + (Byte.to_N b3 - 128))%N) in *.
    cbn [List.length] in Hlen.
    split_tests Hdec;
      apply cons_opt_some in Hdec; destruct Hdec as [s' [Hd ->]];
      destruct (IH r3 s' ltac:(lia) Hd) as [He Hs];
      (split; [encoded_as cp He | scalar_tail cp Hs]).
Qed.

Theorem utf8_decode_sound bs s :
  utf8_decode bs = Some s ->
  utf8_encode s = bs /\ forallb is_scalar s = true.
Proof. apply (@utf8_decode_sound_bounded (List.length bs)). lia. Qed.

Example utf8_decode_two_bytes : utf8_decode [xc3; xa9] = Some [233%N].
Proof. reflexivity. Qed.

Example utf8_decode_four_bytes :
  utf8_decode [xf0; x9f; x98; x80] = Some [128512%N].
Proof. reflexivity. Qed.

Example utf8_decode_overlong : utf8_decode [xc0; x80] = None.
Proof. reflexivity. Qed.

Example utf8_decode_surrogate : utf8_decode [xed; xa0; x80] = None.
Proof. reflexivity. Qed.

Example utf8_decode_truncated : utf8_decode [x41; xe2; x82] = None.
Proof. reflexivity. Qed.

(* ================================================================== *)
(** ** Error paths of the read-only tools *)
(* ================================================================== *)

(** C9.  For every [table_index] greater than or equal to the number of
    tables found in the document, [debug_table_structure] returns the text
    "Error: Table index {table_index} not found. Document has {n}
    table(s)." instead of raising, and does nothing more: the only call is
    the one that fetched the document. *)
Theorem debug_table_structure_index_not_found
  W (h : handler W) (w w' : W)
  (find_tables : document -> list table_info)
  (json_dumps : json -> str) (py_repr : str -> str)
  (document_id : str) (table_index : Z) (doc : document) :
  h _ (DocsGet document_id false) w = (Ok doc, w') ->
  (Z.of_nat (List.length (find_tables doc)) <= table_index)%Z ->
  run h (debug_table_structure find_tables json_dumps py_repr
           document_id table_index) w
  = (Returned
       (lit "Error: Table index " ++ of_Z table_index ++
        lit " not found. Document has " ++
        of_Z (Z.of_nat (List.length (find_tables doc))) ++ lit " table(s)."),
     w', [Ev (DocsGet document_id false)]).
Proof.
  intros Hget Hindex.
  unfold debug_table_structure.
  rewrite run_bind, run_single_call, Hget. cbn [fst snd].
  destruct (Z.leb_spec (Z.of_nat (List.length (find_tables doc)))
              table_index) as [_ | Hlt]; [| lia].
  rewrite run_ret. reflexivity.
Qed.

Lemma debug_table_structure_index_not_found_witness :
  run (Examples.quiet Examples.table_ok)
    (debug_table_structure Examples.no_tables Examples.no_json (fun s => s)
       (lit "doc-1") 0) tt
  = (Returned
       (lit "Error: Table index " ++ of_Z 0 ++
        lit " not found. Document has " ++
        of_Z (Z.of_nat
                (List.length (Examples.no_tables Examples.empty_document)))
        ++ lit " table(s)."),
     tt, [Ev (DocsGet (lit "doc-1") false)]).
Proof.
  apply (@debug_table_structure_index_not_found
           unit (Examples.quiet Examples.table_ok) tt tt
           Examples.no_tables Examples.no_json (fun s => s)
           (lit "doc-1") 0%Z Examples.empty_document).
  - reflexivity.
  - simpl. lia.
Defined.

(** C10.  When [get_doc_content] handles a file that is not a native
    document and the download completes, it returns a text: the metadata
    header followed by a body.  When the bytes yield no Office text and are
    not valid UTF-8 (no string of encodable code points has them as its
    UTF-8 encoding), the body is the placeholder naming the mime type and
    the byte count, and no [UnicodeDecodeError] escapes; when they are the
    UTF-8 encoding of a string, the body is that string. *)
Theorem get_doc_content_downloaded_file
  W (h : handler W) (w w1 w2 : W)
  (extract_office_xml_text : bytes -> str -> option str) (frames : nat)
  (document_id : str) (file_metadata : file_metadata)
  (chunks : bytes * list bytes) :
  h _ (DriveFilesGet document_id (lit "id, name, mimeType, webViewLink")) w
  = (Ok file_metadata, w1) ->
  eqb_str (default_str (meta_mimeType file_metadata) []) native_mime_type
  = false ->
  h _ (DriveGetMedia document_id) w1 = (Ok chunks, w2) ->
  let mime_type := default_str (meta_mimeType file_metadata) [] in
  let file_content_bytes := download_loop (fst chunks) (snd chunks) in
  let header :=
    content_header
      (default_str (meta_name file_metadata) (lit "Unknown File"))
      document_id mime_type
      (default_str (meta_webViewLink file_metadata) (lit "#")) in
  (exists body_text,
      outcome_of h (get_doc_content extract_office_xml_text frames document_id) w
      = Returned (header ++ body_text)) /\
  (truthy_str (extract_office_xml_text file_content_bytes mime_type) = false
   ->
   (forall s, forallb is_scalar s = true ->
              utf8_encode s <> file_content_bytes) ->
   outcome_of h (get_doc_content extract_office_xml_text frames document_id) w
   = Returned
       (header ++
        lit "[Binary or unsupported text encoding for mimeType '" ++
        mime_type ++ lit "' - " ++
        of_Z (Z.of_nat (List.length file_content_bytes)) ++ lit " bytes]"))
  /\
  (truthy_str (extract_office_xml_text file_content_bytes mime_type) = false
   ->
   forall s, forallb is_scalar s = true ->
             utf8_encode s = file_content_bytes ->
   outcome_of h (get_doc_content extract_office_xml_text frames document_id) w
   = Returned (header ++ s)).
Proof.
  intros Hmeta Hmime Hmedia mime_type file_content_bytes header.
  assert (Hout :
    outcome_of h (get_doc_content extract_office_xml_text frames document_id) w
    = Returned (header ++
                downloaded_body_text extract_office_xml_text
                  file_content_bytes mime_type)).
  { unfold outcome_of, get_doc_content.
    rewrite run_bind, run_single_call, Hmeta. cbn [fst snd].
    cbv zeta. rewrite Hmime.
    rewrite !run_bind, run_single_call, Hmedia. cbn [fst snd].
    rewrite !run_ret. reflexivity. }
  split; [eexists; exact Hout |].
  split.
  - intros Hoffice Hinvalid. rewrite Hout.
    unfold downloaded_body_text. rewrite Hoffice.
    destruct (utf8_decode file_content_bytes) as [s |] eqn:Hdecode;
      [| reflexivity].
    apply utf8_decode_sound in Hdecode. destruct Hdecode as [He Hs].
    exfalso. exact (Hinvalid s Hs He).
  - intros Hoffice s Hs He. rewrite Hout.
    unfold downloaded_body_text. rewrite Hoffice, <- He.
    rewrite (utf8_decode_encode s Hs). reflexivity.
Qed.

Lemma get_doc_content_downloaded_file_witness :
  outcome_of Examples.binary_file
    (get_doc_content Examples.no_office_text 1000 (lit "file-1")) tt
  = Returned
      (content_header (lit "blob.bin") (lit "file-1")
         (lit "application/octet-stream") (lit "#") ++
       lit "[Binary or unsupported text encoding for mimeType 'application/octet-stream' - 1 bytes]").
Proof.
  refine (proj1 (proj2 (@get_doc_content_downloaded_file
                          unit Examples.binary_file tt tt tt
                          Examples.no_office_text 1000%nat (lit "file-1")
                          Examples.binary_metadata ([xff], []) _ _ _)) _ _);
    try reflexivity.
  intros s Hs He. apply utf8_decode_encode in Hs.
  rewrite He in Hs. discriminate Hs.
Defined.

(* ================================================================== *)
(** ** Depth of the text extraction walk *)
(* ================================================================== *)

Lemma flat_map_map_pointwise A B C (f : B -> list C) (g : A -> B)
  (f' : A -> list C) (l : list A) :
  Forall (fun x => f (g x) = f' x) l ->
  flat_map f (map g l) = flat_map f' l.
Proof.
  induction 1 as [| x l Hx _ IH]; simpl; [reflexivity |].
  rewrite Hx, IH. reflexivity.
Qed.

(** The recursive call on the content of a cell, as the source writes
    it. *)
Lemma element_lines_table depth tableRows :
  element_lines depth (Table tableRows) =
  flat_map
    (fun row =>
       flat_map
         (fun cell_content =>
            keep_nonblank
              (extract_text_from_elements cell_content None (S depth)))
         row)
    tableRows.
Proof. reflexivity. Qed.

(** Beyond depth 5 the walk returns the empty string. *)
Lemma extract_text_beyond_ceiling elements tab_name depth :
  (5 < depth)%nat -> extract_text_from_elements elements tab_name depth = [].
Proof.
  intro Hdepth. unfold extract_text_from_elements.
  destruct (Nat.ltb_spec 5 depth); [reflexivity | lia].
Qed.

(** Cutting the cells nested deeper than the ceiling changes nothing in
    what an element contributes. *)
Lemma element_lines_truncate e :
  forall depth budget,
    (depth + budget = 5)%nat ->
    element_lines depth (truncate_element budget e) = element_lines depth e.
Proof.
  induction e as [runs | tableRows IH |] using element_nested_ind;
    intros depth budget Hsum; [reflexivity | | reflexivity].
  cbn [truncate_element]. rewrite !element_lines_table.
  apply flat_map_map_pointwise.
  eapply Forall_impl; [| exact IH]. clear IH.
  intros row IHrow. cbv beta.
  apply flat_map_map_pointwise.
  eapply Forall_impl; [| exact IHrow]. clear IHrow.
  intros cell_content IHcell. cbv beta.
  f_equal. unfold extract_text_from_elements.
  destruct budget as [| budget'].
  - destruct (Nat.ltb_spec 5 (S depth)); [reflexivity | lia].
  - destruct (5 <? S depth)%nat; [reflexivity |].
    f_equal. f_equal.
    apply flat_map_map_pointwise.
    eapply Forall_impl; [| exact IHcell].
    intros x IHx. cbv beta. apply IHx. lia.
Qed.

Lemma extract_text_truncate elements tab_name :
  extract_text_from_elements (map (truncate_element 5) elements) tab_name 0
  = extract_text_from_elements elements tab_name 0.
Proof.
  unfold extract_text_from_elements. cbn [Nat.ltb Nat.leb].
  f_equal. f_equal.
  apply flat_map_map_pointwise.
  apply Forall_forall. intros e _.
  apply element_lines_truncate. reflexivity.
Qed.

Lemma tab_hierarchy_text_truncate_cells t :
  forall level,
    tab_hierarchy_text (truncate_cells_of_tab 5 t) level
    = tab_hierarchy_text t level.
Proof.
  induction t as [documentTab childTabs IH] using tab_nested_ind.
  intro level. cbn [truncate_cells_of_tab tab_hierarchy_text].
  f_equal.
  - destruct documentTab as [dt |]; [| reflexivity].
    cbn [option_map truncate_document_tab tab_title tab_body].
    apply extract_text_truncate.
  - f_equal. rewrite map_map.
    apply map_ext_Forall.
    eapply Forall_impl; [| exact IH].
    intros child IHchild. apply IHchild.
Qed.

(** The text of a tab nested at any level is part of the text of the tab
    it is nested in. *)
Lemma tab_hierarchy_text_descendant n t t' :
  descendant n t t' ->
  forall level,
  exists before after,
    tab_hierarchy_text t level
    = before ++ tab_hierarchy_text t' (n + level) ++ after.
Proof.
  induction 1 as [t | n documentTab childTabs child t' Hin _ IH];
    intro level.
  - exists [], []. rewrite app_nil_r. reflexivity.
  - destruct (in_split _ _ Hin) as [l1 [l2 ->]].
    destruct (IH (S level)) as [before [after Heq]].
    cbn [tab_hierarchy_text].
    rewrite map_app, concat_app. cbn [map List.concat].
    rewrite Heq, Nat.add_succ_r.
    match goal with
    | |- exists _ _, ?own ++ ?pre ++ _ = _ =>
        exists (own ++ pre ++ before);
        exists (after ++
                List.concat
                  (map (fun child_tab =>
                          tab_hierarchy_text child_tab (S level)) l2))
    end.
    rewrite <- !app_assoc. reflexivity.
Qed.

Lemma document_text_truncate_cells doc :
  document_text (truncate_cells 5 doc) = document_text doc.
Proof.
  unfold document_text, truncate_cells. cbn [doc_body doc_tabs].
  rewrite extract_text_truncate. f_equal. f_equal.
  apply flat_map_map_pointwise.
  apply Forall_forall. intros t _.
  rewrite tab_hierarchy_text_truncate_cells. reflexivity.
Qed.

(** The ceiling is exact: a paragraph inside five tables is at depth 5 and
    is kept; inside six tables it is at depth 6 and is dropped. *)
Example cell_text_at_depth_5 :
  extract_text_from_elements
    [nest_table 5 (Paragraph [Some (lit "cell text")])] None 0
  = lit "cell text".
Proof. reflexivity. Qed.

Example cell_text_at_depth_6 :
  extract_text_from_elements
    [nest_table 6 (Paragraph [Some (lit "cell text")])] None 0
  = [].
Proof. reflexivity. Qed.

(** *** The stack the walks need *)

Lemma element_call_depth_table depth tableRows :
  element_call_depth depth (Table tableRows) =
  list_max
    (flat_map
       (fun row =>
          map (fun cell_content => extract_call_depth cell_content (S depth))
            row)
       tableRows).
Proof. reflexivity. Qed.

Lemma list_max_bounded (l : list nat) (bound : nat) :
  Forall (fun n => (n <= bound)%nat) l -> (list_max l <= bound)%nat.
Proof.
  induction 1 as [| n l Hn _ IH]; cbn [list_max fold_right]; [lia |].
  fold (list_max l). lia.
Qed.

Lemma list_max_member (l : list nat) (n : nat) :
  In n l -> (n <= list_max l)%nat.
Proof.
  induction l as [| m l IH]; [contradiction |].
  cbn [list_max fold_right]. fold (list_max l).
  intros [-> | Hin]; [lia |]. specialize (IH Hin). lia.
Qed.

(** Whatever the input, the element walk never nests more than seven
    calls: the guard stops it at depth 6. *)
Lemma element_call_depth_bounded e :
  forall depth, (depth <= 5)%nat ->
  (element_call_depth depth e <= 6 - depth)%nat.
Proof.
  induction e as [runs | tableRows IH |] using element_nested_ind;
    intros depth Hdepth; [cbn; lia | | cbn; lia].
  cbn [element_call_depth].
  apply list_max_bounded.
  apply Forall_flat_map.
  eapply Forall_impl; [| exact IH]. clear IH.
  intros row IHrow. cbv beta.
  apply Forall_map.
  eapply Forall_impl; [| exact IHrow]. clear IHrow.
  intros cell_content IHcell. cbv beta.
  destruct (Nat.ltb_spec 5 (S depth)) as [Hgt | Hle]; [lia |].
  assert (list_max (map (element_call_depth (S depth)) cell_content)
          <= 6 - S depth)%nat; [| lia].
  apply list_max_bounded. apply Forall_map.
  eapply Forall_impl; [| exact IHcell].
  intros x IHx. cbv beta. apply IHx. lia.
Qed.

Lemma extract_call_depth_bounded elements depth :
  (extract_call_depth elements depth <= 7)%nat.
Proof.
  unfold extract_call_depth.
  destruct (Nat.ltb_spec 5 depth) as [Hgt | Hle]; [lia |].
  assert (list_max (map (element_call_depth depth) elements) <= 6 - depth)%nat;
    [| lia].
  apply list_max_bounded. apply Forall_map.
  apply Forall_forall. intros e _.
  apply element_call_depth_bounded. exact Hle.
Qed.

(** Cutting the cells nested deeper than the ceiling changes nothing in
    the calls the walk makes: the call for such a cell returns before it
    looks at the content. *)
Lemma element_call_depth_truncate e :
  forall depth budget,
    (depth + budget = 5)%nat ->
    element_call_depth depth (truncate_element budget e)
    = element_call_depth depth e.
Proof.
  induction e as [runs | tableRows IH |] using element_nested_ind;
    intros depth budget Hsum; [reflexivity | | reflexivity].
  cbn [truncate_element element_call_depth]. f_equal.
  apply flat_map_map_pointwise.
  eapply Forall_impl; [| exact IH]. clear IH.
  intros row IHrow. cbv beta.
  rewrite map_map. apply map_ext_Forall.
  eapply Forall_impl; [| exact IHrow]. clear IHrow.
  intros cell_content IHcell. cbv beta.
  destruct budget as [| budget'].
  - destruct (Nat.ltb_spec 5 (S depth)); [reflexivity | lia].
  - destruct (5 <? S depth)%nat; [reflexivity |].
    f_equal. f_equal. rewrite map_map. apply map_ext_Forall.
    eapply Forall_impl; [| exact IHcell].
    intros x IHx. cbv beta. apply IHx. lia.
Qed.

Lemma extract_call_depth_truncate elements :
  extract_call_depth (map (truncate_element 5) elements) 0
  = extract_call_depth elements 0.
Proof.
  unfold extract_call_depth. cbn [Nat.ltb Nat.leb].
  f_equal. f_equal. rewrite map_map. apply map_ext.
  intro e. apply element_call_depth_truncate. reflexivity.
Qed.

Lemma extract_text_on_stack_truncate frames elements tab_name :
  extract_text_on_stack frames (map (truncate_element 5) elements) tab_name 0
  = extract_text_on_stack frames elements tab_name 0.
Proof.
  unfold extract_text_on_stack.
  rewrite extract_call_depth_truncate, extract_text_truncate. reflexivity.
Qed.

(** The loop over the child tabs, when every call either returns its text
    or runs out of stack. *)
Lemma append_results_on_stack A (need : A -> nat) (text_of : A -> str)
  (frames : nat) (call : A -> result str) (l : list A) :
  Forall (fun a => call a = if (need a <=? frames)%nat
                            then Ok (text_of a) else Err recursion_error) l ->
  forall text,
    append_results (Ok text) (map call l)
    = if (list_max (map need l) <=? frames)%nat
      then Ok (text ++ List.concat (map text_of l))
      else Err recursion_error.
Proof.
  induction 1 as [| a l Ha _ IH]; intro text.
  - cbn. rewrite app_nil_r. reflexivity.
  - cbn [map append_results list_max fold_right List.concat].
    fold (list_max (map need l)). rewrite Ha.
    destruct (Nat.leb_spec (need a) frames) as [Hfit | Hdeep].
    + rewrite IH, <- app_assoc.
      destruct (Nat.leb_spec (list_max (map need l)) frames);
        destruct (Nat.leb_spec (Nat.max (need a) (list_max (map need l)))
                    frames); try reflexivity; lia.
    + destruct (Nat.leb_spec (Nat.max (need a) (list_max (map need l)))
                  frames); [lia | reflexivity].
Qed.

(** [process_tab_hierarchy] returns the text of the tab hierarchy when the
    calls it nests fit the stack, and raises RecursionError when they do
    not. *)
Lemma process_tab_hierarchy_on_stack t :
  forall frames level,
    process_tab_hierarchy frames t level
    = if (tab_call_depth t <=? frames)%nat
      then Ok (tab_hierarchy_text t level)
      else Err recursion_error.
Proof.
  induction t as [documentTab childTabs IH] using tab_nested_ind.
  intros [| frames] level; [reflexivity |].
  cbn [process_tab_hierarchy tab_call_depth tab_hierarchy_text].
  cbv zeta.
  set (own_need := match documentTab with
                   | Some dt => extract_call_depth (tab_body dt) 0
                   | None => 0%nat
                   end).
  set (children_need := list_max (map tab_call_depth childTabs)).
  assert (Hchildren :
    forall text,
      append_results (Ok text)
        (map (fun child_tab =>
                process_tab_hierarchy frames child_tab (S level)) childTabs)
      = if (children_need <=? frames)%nat
        then Ok (text ++
                 List.concat
                   (map (fun child_tab =>
                           tab_hierarchy_text child_tab (S level)) childTabs))
        else Err recursion_error).
  { apply (@append_results_on_stack _ tab_call_depth
             (fun child_tab => tab_hierarchy_text child_tab (S level))).
    eapply Forall_impl; [| exact IH].
    intros child IHchild. apply IHchild. }
  change (S (Nat.max own_need children_need) <=? S frames)%nat
    with (Nat.max own_need children_need <=? frames)%nat.
  destruct documentTab as [dt |].
  - unfold extract_text_on_stack. fold own_need.
    destruct (Nat.leb_spec own_need frames) as [Hown | Hown].
    + rewrite Hchildren.
      destruct (Nat.leb_spec children_need frames);
        destruct (Nat.leb_spec (Nat.max own_need children_need) frames);
        try reflexivity; lia.
    + destruct (Nat.leb_spec (Nat.max own_need children_need) frames);
        [lia |].
      destruct childTabs; reflexivity.
  - rewrite Hchildren. subst own_need. cbn [Nat.max app].
    reflexivity.
Qed.

Lemma kept_texts_on_stack (frames : nat) (tabs : list tab) :
  kept_texts (map (fun t => process_tab_hierarchy frames t 0) tabs)
  = if (list_max (map tab_call_depth tabs) <=? frames)%nat
    then Ok (flat_map (fun t => keep_nonblank (tab_hierarchy_text t 0)) tabs)
    else Err recursion_error.
Proof.
  induction tabs as [| t tabs IH]; [reflexivity |].
  cbn [map kept_texts list_max fold_right flat_map].
  fold (list_max (map tab_call_depth tabs)).
  rewrite process_tab_hierarchy_on_stack.
  destruct (Nat.leb_spec (tab_call_depth t) frames) as [Hfit | Hdeep].
  - rewrite IH.
    destruct (Nat.leb_spec (list_max (map tab_call_depth tabs)) frames);
      destruct (Nat.leb_spec
                  (Nat.max (tab_call_depth t)
                     (list_max (map tab_call_depth tabs))) frames);
      try reflexivity; lia.
  - destruct (Nat.leb_spec
                (Nat.max (tab_call_depth t)
                   (list_max (map tab_call_depth tabs))) frames);
      [lia | reflexivity].
Qed.

(** The walk of a whole document returns its text when the calls it nests
    fit the stack, and raises RecursionError when they do not. *)
Lemma native_body_text_on_stack frames doc :
  native_body_text frames doc
  = if (native_call_depth doc <=? frames)%nat
    then Ok (document_text doc)
    else Err recursion_error.
Proof.
  unfold native_body_text, native_call_depth, document_text,
    extract_text_on_stack.
  cbv zeta.
  destruct (Nat.leb_spec (extract_call_depth (doc_body doc) 0) frames)
    as [Hmain | Hmain].
  - rewrite kept_texts_on_stack.
    destruct (Nat.leb_spec (list_max (map tab_call_depth (doc_tabs doc)))
                frames);
      destruct (Nat.leb_spec
                  (Nat.max (extract_call_depth (doc_body doc) 0)
                     (list_max (map tab_call_depth (doc_tabs doc)))) frames);
      try reflexivity; lia.
  - destruct (Nat.leb_spec
                (Nat.max (extract_call_depth (doc_body doc) 0)
                   (list_max (map tab_call_depth (doc_tabs doc)))) frames);
      [lia | reflexivity].
Qed.

Lemma tab_call_depth_truncate_cells t :
  tab_call_depth (truncate_cells_of_tab 5 t) = tab_call_depth t.
Proof.
  induction t as [documentTab childTabs IH] using tab_nested_ind.
  cbn [truncate_cells_of_tab tab_call_depth]. f_equal. f_equal.
  - destruct documentTab as [dt |]; [| reflexivity].
    cbn [option_map truncate_document_tab tab_body].
    apply extract_call_depth_truncate.
  - f_equal. rewrite map_map. apply map_ext_Forall. exact IH.
Qed.

Lemma native_call_depth_truncate_cells doc :
  native_call_depth (truncate_cells 5 doc) = native_call_depth doc.
Proof.
  unfold native_call_depth, truncate_cells. cbn [doc_body doc_tabs].
  rewrite extract_call_depth_truncate. f_equal. f_equal.
  rewrite map_map. apply map_ext. exact tab_call_depth_truncate_cells.
Qed.

(** A tab nested [n] levels down needs [n] frames more than it needs by
    itself. *)
Lemma descendant_call_depth n t t' :
  descendant n t t' -> (n + tab_call_depth t' <= tab_call_depth t)%nat.
Proof.
  induction 1 as [t | n documentTab childTabs child t' Hin _ IH]; [lia |].
  cbn [tab_call_depth].
  assert (tab_call_depth child <= list_max (map tab_call_depth childTabs))%nat.
  { apply list_max_member. apply in_map. exact Hin. }
  lia.
Qed.

Lemma tab_call_depth_positive t : (1 <= tab_call_depth t)%nat.
Proof. destruct t. cbn [tab_call_depth]. lia. Qed.

(** C3, as stated, fails for tabs in both of its parts.  The walk has no
    ceiling on tabs nested inside tabs: in [deep_tabs_document] the only
    text sits in a tab seven levels below a top-level tab; cutting the
    document at depth 5 leaves no text at all, while the walk of the whole
    document returns the header and the text of that tab.  And the walk
    does not return on trees of arbitrary nesting depth: with room for a
    thousand nested calls, a chain of a thousand tabs around a tab ends in
    RecursionError. *)
Lemma extraction_tab_ceiling_counterexample :
  native_body_text 1000 (truncate_document 5 deep_tabs_document) = Ok [] /\
  native_body_text 1000 deep_tabs_document
  = Ok (tab_header (repeat_str (lit "    ") 7 ++ lit "Notes") ++
        lit "deep text") /\
  ~ (forall frames doc,
        native_body_text frames (truncate_document 5 doc)
        = native_body_text frames doc) /\
  native_body_text 1000
    {| doc_body := [];
       doc_tabs :=
         [nest_tab 1000 (leaf_tab (lit "Notes") (lit "deep text"))] |}
  = Err recursion_error.
Proof.
  split; [vm_compute; reflexivity |].
  split; [vm_compute; reflexivity |].
  split; [| vm_compute; reflexivity].
  intro Hclaim. specialize (Hclaim 1000%nat deep_tabs_document).
  vm_compute in Hclaim. discriminate Hclaim.
Qed.

(** C3, amended.  The walk over the elements of a body is bounded at depth
    5: it never nests more than seven calls, so with room for seven it
    returns whatever the input, and the content of cells nested more than 5
    tables deep contributes nothing, in the main body and in the body of
    every tab.  The walk over tabs has no ceiling.  It returns exactly when
    the calls it nests, one for each level of tabs, fit the call stack; the
    text of a tab nested at any level is then part of the result; and when
    a tab is nested deeper than the stack has room, the walk raises
    RecursionError instead of cutting the tree. *)
Theorem extraction_depth_ceiling :
  (forall frames elements tab_name depth,
      (7 <= frames)%nat ->
      extract_text_on_stack frames elements tab_name depth
      = Ok (extract_text_from_elements elements tab_name depth)) /\
  (forall frames doc,
      native_body_text frames (truncate_cells 5 doc)
      = native_body_text frames doc) /\
  (forall frames t level,
      (exists text, process_tab_hierarchy frames t level = Ok text) <->
      (tab_call_depth t <= frames)%nat) /\
  (forall n t t' frames level text,
      descendant n t t' ->
      process_tab_hierarchy frames t level = Ok text ->
      exists before text' after,
        process_tab_hierarchy (frames - n) t' (n + level) = Ok text' /\
        text = before ++ text' ++ after) /\
  (forall n t t' frames level,
      descendant n t t' ->
      (frames <= n)%nat ->
      process_tab_hierarchy frames t level = Err recursion_error).
Proof.
  split; [| split; [| split; [| split]]].
  - intros frames elements tab_name depth Hframes.
    unfold extract_text_on_stack.
    pose proof (extract_call_depth_bounded elements depth) as Hneed.
    destruct (Nat.leb_spec (extract_call_depth elements depth) frames);
      [reflexivity | lia].
  - intros frames doc.
    rewrite !native_body_text_on_stack.
    rewrite native_call_depth_truncate_cells, document_text_truncate_cells.
    reflexivity.
  - intros frames t level. rewrite process_tab_hierarchy_on_stack.
    destruct (Nat.leb_spec (tab_call_depth t) frames) as [Hfit | Hdeep].
    + split; [intros _; exact Hfit | intros _; eexists; reflexivity].
    + split; [intros [text Htext]; discriminate Htext | lia].
  - intros n t t' frames level text Hnested Hrun.
    rewrite process_tab_hierarchy_on_stack in Hrun.
    pose proof (descendant_call_depth Hnested) as Hneed.
    destruct (Nat.leb_spec (tab_call_depth t) frames) as [Hfit | Hdeep];
      [| discriminate Hrun].
    injection Hrun as <-.
    destruct (tab_hierarchy_text_descendant Hnested level)
      as [before [after Htext]].
    exists before, (tab_hierarchy_text t' (n + level)), after.
    split; [| exact Htext].
    rewrite process_tab_hierarchy_on_stack.
    destruct (Nat.leb_spec (tab_call_depth t') (frames - n));
      [reflexivity | lia].
  - intros n t t' frames level Hnested Hframes.
    rewrite process_tab_hierarchy_on_stack.
    pose proof (descendant_call_depth Hnested) as Hneed.
    pose proof (tab_call_depth_positive t') as Hpos.
    destruct (Nat.leb_spec (tab_call_depth t) frames); [lia | reflexivity].
Qed.

Lemma extraction_depth_ceiling_witness :
  extract_text_on_stack 7
    [nest_table 9 (Paragraph [Some (lit "too deep")])] None 0
  = Ok (extract_text_from_elements
          [nest_table 9 (Paragraph [Some (lit "too deep")])] None 0) /\
  (exists before text' after,
      process_tab_hierarchy (20 - 7)
        (leaf_tab (lit "Notes") (lit "deep text")) (7 + 0) = Ok text' /\
      tab_header (repeat_str (lit "    ") 7 ++ lit "Notes") ++ lit "deep text"
      = before ++ text' ++ after) /\
  process_tab_hierarchy 7
    (nest_tab 7 (leaf_tab (lit "Notes") (lit "deep text"))) 0
  = Err recursion_error.
Proof.
  assert (Hnested :
    descendant 7 (nest_tab 7 (leaf_tab (lit "Notes") (lit "deep text")))
      (leaf_tab (lit "Notes") (lit "deep text"))).
  { simpl. repeat (eapply descendant_child; [left; reflexivity |]).
    apply descendant_self. }
  split; [| split].
  - apply (proj1 extraction_depth_ceiling). lia.
  - apply (proj1 (proj2 (proj2 (proj2 extraction_depth_ceiling)))
             7%nat
             (nest_tab 7 (leaf_tab (lit "Notes") (lit "deep text")))
             (leaf_tab (lit "Notes") (lit "deep text"))
             20%nat 0%nat).
    + exact Hnested.
    + vm_compute. reflexivity.
  - apply (proj2 (proj2 (proj2 (proj2 extraction_depth_ceiling)))
             7%nat
             (nest_tab 7 (leaf_tab (lit "Notes") (lit "deep text")))
             (leaf_tab (lit "Notes") (lit "deep text"))).
    + exact Hnested.
    + lia.
Defined.

(* ================================================================== *)
(** ** Table creation and population *)
(* ================================================================== *)

Module TableFacts.
Import TableScenario.

Lemma walk_step_shift d pos st s :
  walk_step (pos + d) (shift_walk d st) s = shift_walk d (walk_step pos st s).
Proof.
  destruct st as [oc ot rs cs dt].
  destruct s as [| ch bd | | | |]; unfold walk_step, close_cell, shift_walk;
    cbn [open_cell open_table rows_seen columns_seen done_tables option_map];
    try reflexivity;
    destruct oc as [c |]; destruct ot as [t |];
    cbn [open_cell open_table rows_seen columns_seen done_tables option_map];
    unfold shift_table, shift_cell;
    cbn [row_index column_index start_offset end_offset insertion_offset
         text text_bold table_start_offset table_end_offset row_count
         column_count cells];
    repeat rewrite map_app; cbn [map];
    cbn [row_index column_index start_offset end_offset insertion_offset
         text text_bold table_start_offset table_end_offset row_count
         column_count cells];
    repeat match goal with
           | |- _ = _ =>
               first [reflexivity | lia | rewrite map_app; reflexivity
                     | progress f_equal]
           end.
Qed.

Lemma walk_from_shift d doc :
  forall pos st,
    walk_from (pos + d) (shift_walk d st) doc
    = shift_walk d (walk_from pos st doc).
Proof.
  induction doc as [| s rest IH]; intros pos st; cbn [walk_from];
    [reflexivity |].
  rewrite <- IH, <- walk_step_shift. f_equal. lia.
Qed.

Lemma walk_from_app a b :
  forall pos st,
    walk_from pos st (a ++ b)
    = walk_from (pos + Z.of_nat (List.length a)) (walk_from pos st a) b.
Proof.
  induction a as [| s rest IH]; intros pos st; cbn [walk_from app List.length].
  - f_equal. lia.
  - rewrite IH. f_equal. lia.
Qed.

Lemma walk_plain_closed doc :
  plain doc = true ->
  forall pos st, open_cell st = None -> walk_from pos st doc = st.
Proof.
  induction doc as [| s rest IH]; intros Hplain pos st Hclosed;
    cbn [walk_from]; [reflexivity |].
  cbn [plain forallb] in Hplain. apply andb_prop in Hplain.
  destruct Hplain as [Hs Hrest].
  assert (Hstep : walk_step pos st s = st).
  { destruct s; try discriminate Hs; cbn [walk_step];
      [reflexivity | rewrite Hclosed; reflexivity]. }
  rewrite Hstep. apply IH; assumption.
Qed.

Lemma walk_plain_done doc :
  plain doc = true ->
  forall pos st, done_tables (walk_from pos st doc) = done_tables st.
Proof.
  induction doc as [| s rest IH]; intros Hplain pos st;
    cbn [walk_from]; [reflexivity |].
  cbn [plain forallb] in Hplain. apply andb_prop in Hplain.
  destruct Hplain as [Hs Hrest].
  rewrite (IH Hrest).
  destruct s; try discriminate Hs; cbn [walk_step]; [reflexivity |].
  destruct (open_cell st); reflexivity.
Qed.

(** The tables of a document made of a stretch between two plain
    stretches are the tables of the middle stretch, moved by the length of
    the first. *)
Lemma parse_framed before mid after :
  plain before = true -> plain after = true ->
  tables (parse_document_structure (before ++ mid ++ after))
  = map (shift_table (Z.of_nat (List.length before))) (tables_of mid).
Proof.
  intros Hb Ha. unfold parse_document_structure, tables_of. cbn [tables].
  fold walk_start.
  rewrite walk_from_app, (walk_plain_closed _ Hb) by reflexivity.
  rewrite walk_from_app, (walk_plain_done _ Ha).
  change (0 + Z.of_nat (List.length before))%Z
    with (0 + Z.of_nat (List.length before))%Z.
  change walk_start
    with (shift_walk (Z.of_nat (List.length before)) walk_start) at 1.
  rewrite walk_from_shift. reflexivity.
Qed.

Lemma cell_at_shift d t r c :
  cell_at (shift_table d t) r c = option_map (shift_cell d) (cell_at t r c).
Proof.
  unfold cell_at, shift_table. cbn [cells].
  induction (cells t) as [| x rest IH]; cbn [map find]; [reflexivity |].
  cbn [shift_cell row_index column_index].
  destruct ((row_index x =? r)%nat && (column_index x =? c)%nat);
    [reflexivity | exact IH].
Qed.

Lemma row_cells_shift d t r :
  row_cells (shift_table d t) r = map (shift_cell d) (row_cells t r).
Proof.
  unfold row_cells, shift_table. cbn [cells].
  induction (cells t) as [| x rest IH]; cbn [map filter]; [reflexivity |].
  cbn [shift_cell row_index].
  destruct (row_index x =? r)%nat; cbn [map]; rewrite IH; reflexivity.
Qed.

(** Locating the table in a document around a stretch whose tables start
    at non-negative offsets: the first table of the stretch. *)
Lemma locate_table_framed before mid after :
  plain before = true -> plain after = true ->
  forallb (fun t => (0 <=? table_start_offset t)%Z) (tables_of mid) = true ->
  locate_table (Z.of_nat (List.length before))
    (parse_document_structure (before ++ mid ++ after))
  = option_map (shift_table (Z.of_nat (List.length before)))
      (hd_error (tables_of mid)).
Proof.
  intros Hb Ha Hstart. unfold locate_table.
  rewrite (parse_framed _ _ _ Hb Ha).
  destruct (tables_of mid) as [| t rest]; [reflexivity |].
  cbn [map find hd_error option_map shift_table table_start_offset].
  cbn [forallb] in Hstart. apply andb_prop in Hstart.
  destruct Hstart as [Ht _]. apply Z.leb_le in Ht.
  destruct (Z.leb_spec (Z.of_nat (List.length before))
              (table_start_offset t + Z.of_nat (List.length before)));
    [reflexivity | lia].
Qed.

Lemma splice_framed before mid after k new :
  (0 <= k <= Z.of_nat (List.length mid))%Z ->
  splice (k + Z.of_nat (List.length before)) new (before ++ mid ++ after)
  = before ++ splice k new mid ++ after.
Proof.
  intro Hk. unfold splice.
  replace (Z.to_nat (k + Z.of_nat (List.length before)))
    with (List.length before + Z.to_nat k)%nat by lia.
  assert (Hk' : (Z.to_nat k <= List.length mid)%nat) by lia.
  rewrite firstn_app_2, skipn_app, skipn_all2 by lia.
  replace (List.length before + Z.to_nat k - List.length before)%nat
    with (Z.to_nat k) by lia.
  rewrite firstn_app, skipn_app.
  replace (Z.to_nat k - List.length mid)%nat with 0%nat by lia.
  cbn [firstn skipn app]. rewrite app_nil_r.
  rewrite <- !app_assoc. reflexivity.
Qed.

(** An insertion inside the middle stretch of a document is accepted and
    changes that stretch only. *)
Lemma send_insert_framed before mid after hist op k new :
  before <> [] -> after <> [] ->
  (0 <= k <= Z.of_nat (List.length mid))%Z ->
  (forall doc,
      apply_operation op doc =
      let len := Z.of_nat (List.length doc) in
      let offset := (k + Z.of_nat (List.length before))%Z in
      if (offset <? 1)%Z then
        inl (lit "Index " ++ of_Z offset ++ lit " must be at least 1.")
      else if (len <=? offset)%Z then inl (boundary_error offset len)
      else inr (splice offset new doc)) ->
  send op {| slots := before ++ mid ++ after; history := hist |}
  = (None,
     {| slots := before ++ splice k new mid ++ after;
        history := hist ++ [(op, before ++ mid ++ after)] |}).
Proof.
  intros Hb Ha Hk Hop. unfold send. cbn [slots history].
  rewrite Hop. cbv zeta.
  assert (Hlb : (1 <= Z.of_nat (List.length before))%Z).
  { destruct before; [contradiction | cbn [List.length]; lia]. }
  assert (Hla : (1 <= Z.of_nat (List.length after))%Z).
  { destruct after; [contradiction | cbn [List.length]; lia]. }
  destruct (Z.ltb_spec (k + Z.of_nat (List.length before)) 1); [lia |].
  rewrite !length_app.
  destruct (Z.leb_spec
              (Z.of_nat (List.length before +
                         (List.length mid + List.length after)))
              (k + Z.of_nat (List.length before))); [lia |].
  rewrite splice_framed by exact Hk. reflexivity.
Qed.

Lemma set_bold_outside pos start_index end_index b doc :
  (pos + Z.of_nat (List.length doc) <= start_index \/ end_index <= pos)%Z ->
  set_bold_from pos start_index end_index b doc = doc.
Proof.
  revert pos. induction doc as [| s rest IH]; intros pos Hout;
    cbn [set_bold_from]; [reflexivity |].
  cbn [List.length] in Hout.
  rewrite IH by lia. f_equal.
  destruct s; try reflexivity.
  destruct (Z.leb_spec start_index pos); destruct (Z.ltb_spec pos end_index);
    cbn [andb]; try reflexivity; lia.
Qed.

Lemma set_bold_app pos start_index end_index b a c :
  set_bold_from pos start_index end_index b (a ++ c)
  = set_bold_from pos start_index end_index b a ++
    set_bold_from (pos + Z.of_nat (List.length a)) start_index end_index b c.
Proof.
  revert pos. induction a as [| s rest IH]; intro pos;
    cbn [set_bold_from app List.length].
  - f_equal. lia.
  - rewrite IH. do 3 f_equal. lia.
Qed.

Lemma set_bold_shift d pos start_index end_index b doc :
  set_bold_from (pos + d) (start_index + d) (end_index + d) b doc
  = set_bold_from pos start_index end_index b doc.
Proof.
  revert pos. induction doc as [| s rest IH]; intro pos;
    cbn [set_bold_from]; [reflexivity |].
  replace (pos + d + 1)%Z with (pos + 1 + d)%Z by lia.
  rewrite IH. f_equal.
  destruct s; try reflexivity.
  destruct (Z.leb_spec (start_index + d) (pos + d));
    destruct (Z.leb_spec start_index pos); try lia;
    destruct (Z.ltb_spec (pos + d) (end_index + d));
    destruct (Z.ltb_spec pos end_index); try lia; reflexivity.
Qed.

(** Bolding a span inside the middle stretch changes that stretch only. *)
Lemma send_format_framed before mid after hist s e :
  (0 <= s)%Z -> (e <= Z.of_nat (List.length mid))%Z ->
  let index := Z.of_nat (List.length before) in
  let op := FormatText (s + index) (Some (e + index)%Z) (Some true)
              None None None None in
  send op {| slots := before ++ mid ++ after; history := hist |}
  = (None,
     {| slots := before ++ set_bold_from 0 s e true mid ++ after;
        history := hist ++ [(op, before ++ mid ++ after)] |}).
Proof.
  intros Hs He index op.
  assert (Hbold :
    set_bold_from 0 (s + index) (e + index) true (before ++ mid ++ after)
    = before ++ set_bold_from 0 s e true mid ++ after).
  { rewrite !set_bold_app.
    rewrite (@set_bold_outside 0 (s + index) (e + index) true before)
      by (left; subst index; lia).
    rewrite (@set_bold_outside
               (0 + Z.of_nat (List.length before) +
                Z.of_nat (List.length mid))
               (s + index) (e + index) true after)
      by (right; subst index; lia).
    fold index. rewrite set_bold_shift. reflexivity. }
  unfold send, op. cbn [apply_operation slots history].
  rewrite Hbold. reflexivity.
Qed.

Ltac compute_closed :=
  repeat match goal with
    | |- context [tables_of ?m] =>
        let v := eval vm_compute in (tables_of m) in
        progress change (tables_of m) with v
    | |- context [splice ?k ?new ?m] =>
        let v := eval vm_compute in (splice k new m) in
        progress change (splice k new m) with v
    | |- context [cell_at ?t ?r ?c] =>
        let v := eval vm_compute in (cell_at t r c) in
        progress change (cell_at t r c) with v
    | |- context [row_cells ?t ?r] =>
        let v := eval vm_compute in (row_cells t r) in
        progress change (row_cells t r) with v
    | |- context [rev ?l] =>
        let v := eval vm_compute in (rev l) in
        progress change (rev l) with v
    | |- context [set_bold_from 0 ?s ?e ?b ?m] =>
        let v := eval vm_compute in (set_bold_from 0 s e b m) in
        progress change (set_bold_from 0 s e b m) with v
    end.

Ltac reduce_records :=
  cbn [slots history hd_error option_map populate_cells truthy_str
       truthy default_str shift_cell insertion_offset start_offset
       end_offset row_index column_index text text_bold map last
       andb Nat.eqb].

Section Framed.

Variables before after : list slot.
Hypothesis before_plain : plain before = true.
Hypothesis after_plain : plain after = true.
Hypothesis before_nonempty : before <> [].
Hypothesis after_nonempty : after <> [].

Let index := Z.of_nat (List.length before).

Ltac locate_step :=
  rewrite (locate_table_framed _ _ _ before_plain after_plain)
    by reflexivity;
  compute_closed; reduce_records.

Ltac insert_step :=
  rewrite ?cell_at_shift; compute_closed; reduce_records;
  match goal with
  | |- context [send (InsertText (?k + ?i) ?v)
                  {| slots := before ++ ?mid ++ after; history := ?hist |}] =>
      rewrite (@send_insert_framed before mid after hist
                 (InsertText (k + i) v) k (map (fun c => Ch c false) v)
                 before_nonempty after_nonempty);
      [| cbn; lia | intro; reflexivity]
  end;
  compute_closed; reduce_records.

Ltac format_step :=
  unfold format_header_row; reduce_records;
  locate_step;
  rewrite ?row_cells_shift; compute_closed; reduce_records;
  match goal with
  | |- context [send (FormatText (?s + ?i) (Some (?e + ?i)%Z)
                        (Some true) None None None None)
                  {| slots := before ++ ?mid ++ after; history := ?hist |}] =>
      rewrite (@send_format_framed before mid after hist s e);
      [| lia | cbn; lia]
  end;
  compute_closed; reduce_records.

(** The run of the table manager on the scenario input, in a document
    whose table goes between two plain stretches. *)
Lemma manager_on_framed :
  create_and_populate_table header_and_row index true
    {| slots := before ++ after; history := [] |}
  = ((true, lit "Successfully created 2x2 table",
      {| tm_rows := Some 2%Z; tm_columns := Some 2%Z |}),
     {| slots :=
          before ++
          table_with (letter "A" true) (letter "B" true)
            (letter "1" false) (letter "2" false) ++
          after;
        history :=
          [(InsertTable index 2 2, before ++ after);
           (InsertText (4 + index) (lit "B"),
            before ++ table_with [] [] [] [] ++ after);
           (InsertText (3 + index) (lit "A"),
            before ++ table_with [] (letter "B" false) [] [] ++ after);
           (FormatText (2 + index) (Some (6 + index)%Z) (Some true)
              None None None None,
            before ++
            table_with (letter "A" false) (letter "B" false) [] [] ++ after);
           (InsertText (9 + index) (lit "2"),
            before ++
            table_with (letter "A" true) (letter "B" true) [] [] ++ after);
           (InsertText (8 + index) (lit "1"),
            before ++
            table_with (letter "A" true) (letter "B" true) []
              (letter "2" false) ++
            after)] |}).
Proof.
  unfold create_and_populate_table.
  let v := eval vm_compute in header_and_row in
  change header_and_row with v.
  cbn [List.length hd Z.of_nat Pos.of_succ_nat Pos.succ].
  change (before ++ after) with (before ++ [] ++ after).
  change index with (0 + index)%Z at 1.
  unfold index.
  rewrite (@send_insert_framed before [] after [] _ 0 (table_slots 2 2)
             before_nonempty after_nonempty);
    [| cbn; lia | intro; reflexivity].
  compute_closed.
  cbn [enumerate populate_rows]. compute_closed. reduce_records.
  locate_step.
  insert_step.
  insert_step.
  format_step.
  locate_step.
  insert_step.
  insert_step.
  reflexivity.
Qed.

Ltac texts_step :=
  rewrite (@parse_framed before _ after before_plain after_plain);
  compute_closed;
  unfold table_texts, table_bold;
  cbn [map shift_table row_count seq];
  rewrite ?row_cells_shift; compute_closed;
  cbn [map shift_cell text text_bold];
  reflexivity.

(** C5.  The second end-to-end scenario of the spec, with the table
    manager the spec describes working on a linear document, for a table
    inserted between two stretches of plain text:
    [create_table_with_data] given [[["A","B"],["1","2"]]] and
    [bold_headers=True] emits an InsertTable, then two InsertText for the
    header cells followed by a FormatText(bold=True) over the span of the
    header row, then two InsertText for the data row.  Every insertion
    addresses the insertion offset that an empty cell has when the
    insertion arrives, and in the resulting document every value is in its
    own cell, the header row bold and the data row not; the text around the
    table is untouched. *)
Theorem table_population_scenario
  (validator : ValidationManager) (document_id : str) :
  create_table_with_data_validation validator document_id
    header_and_row index = None ->
  let start := {| slots := before ++ after; history := [] |} in
  let tool :=
    create_table_with_data validator document_id header_and_row index true in
  let final := snd (fst (run table_remote tool start)) in
  emitted final
  = [InsertTable index 2 2;
     InsertText (index + 4) (lit "B"); InsertText (index + 3) (lit "A");
     FormatText (index + 2) (Some (index + 6)%Z) (Some true)
       None None None None;
     InsertText (index + 9) (lit "2"); InsertText (index + 8) (lit "1")] /\
  forallb (insertion_is_current index) (history final) = true /\
  slots final
  = before ++
    table_with (letter "A" true) (letter "B" true)
      (letter "1" false) (letter "2" false) ++
    after /\
  map table_texts (tables (parse_document_structure (slots final)))
  = [[[lit "A"; lit "B"]; [lit "1"; lit "2"]]] /\
  map table_bold (tables (parse_document_structure (slots final)))
  = [[[[true]; [true]]; [[false]; [false]]]] /\
  calls_of table_remote tool start
  = [Ev (CreateAndPopulateTable document_id header_and_row index true)].
Proof.
  intros Hvalid start tool final.
  assert (Hrun :
    run table_remote tool start
    = (Returned
         (lit "SUCCESS: " ++ lit "Successfully created 2x2 table" ++
          lit ". Table: " ++ of_Z 2 ++ lit "x" ++ of_Z 2 ++
          lit ", Index: " ++ of_Z index ++ lit ". Link: " ++
          doc_link document_id),
       snd (create_and_populate_table header_and_row index true start),
       [Ev (CreateAndPopulateTable document_id header_and_row index true)])).
  { subst tool. unfold create_table_with_data. rewrite Hvalid.
    rewrite run_bind, run_single_call. cbn [table_remote].
    subst start. rewrite manager_on_framed.
    cbn [fst snd negb andb bind run default_Z tm_rows tm_columns].
    reflexivity. }
  subst final. unfold calls_of. rewrite Hrun. cbn [fst snd].
  subst start. rewrite manager_on_framed. cbn [snd slots history].
  split; [| split; [| split; [| split; [| split]]]].
  - cbn [emitted history map fst].
    rewrite !(Z.add_comm index). reflexivity.
  - cbn [forallb insertion_is_current]. unfold index.
    rewrite !(@locate_table_framed before _ after before_plain after_plain)
      by reflexivity.
    compute_closed.
    cbn [hd_error option_map shift_table cells map existsb shift_cell
         insertion_offset text truthy negb].
    rewrite !Z.eqb_refl. cbn [andb orb].
    rewrite ?andb_false_r, ?orb_true_r, ?orb_false_r. reflexivity.
  - reflexivity.
  - texts_step.
  - texts_step.
  - reflexivity.
Qed.

End Framed.

Lemma table_population_scenario_witness :
  emitted
    (snd (fst (run table_remote
                 (create_table_with_data Examples.accept_all (lit "doc-1")
                    header_and_row 6 true)
                 {| slots := intro_document; history := [] |})))
  = [InsertTable 6 2 2;
     InsertText 10 (lit "B"); InsertText 9 (lit "A");
     FormatText 8 (Some 12%Z) (Some true) None None None None;
     InsertText 15 (lit "2"); InsertText 14 (lit "1")].
Proof.
  refine (proj1 (@table_population_scenario
                   (SectionBreak :: letter "Intro" false)
                   (map (fun c => Ch c false) nl)
                   _ _ _ _ Examples.accept_all (lit "doc-1") _));
    first [reflexivity | discriminate].
Defined.

(** The first end-to-end scenario of the spec on the linear document: a
    table of 2 rows and 3 columns at offset 10 of a document of total
    length 10 is refused at 10 with the boundary message, retried at 9, and
    reported with its dimensions. *)
Example boundary_retry_on_document :
  let start := {| slots := ten_document; history := [] |} in
  let tool :=
    create_table_with_data Examples.accept_all (lit "doc-1")
      Examples.grid_2x3 10 true in
  total_length (parse_document_structure ten_document) = 10%Z /\
  table_attempts (calls_of table_remote tool start) = [10%Z; 9%Z] /\
  outcome_of table_remote tool start
  = Returned
      (lit "SUCCESS: Successfully created 2x3 table. Table: 2x3, Index: 10. Link: https://docs.google.com/document/d/doc-1/edit") /\
  map table_texts
    (tables (parse_document_structure
               (slots (snd (fst (run table_remote tool start))))))
  = [[[lit "a"; lit "b"; lit "c"]; [lit "d"; lit "e"; lit "f"]]].
Proof. vm_compute. repeat split; reflexivity. Qed.

End TableFacts.

(* ================================================================== *)
(** ** More on the batches of modify_doc_text *)
(* ================================================================== *)

(** When validation lets a call through, there is something to send. *)
Lemma modify_doc_text_something_to_do validator d s e t b i u fs ff :
  modify_doc_text_validation validator d s e t b i u fs ff = None ->
  is_some t || formatting_requested b i u fs ff = true.
Proof.
  unfold modify_doc_text_validation.
  destruct (validate_document_id validator d) as [ok1 m1].
  destruct ok1; [| discriminate].
  destruct t; [reflexivity |].
  destruct (formatting_requested b i u fs ff); [reflexivity | discriminate].
Qed.

Lemma text_requests_length s e t :
  (List.length (fst (text_requests s e t)) <= 2)%nat /\
  (is_some t = true -> (1 <= List.length (fst (text_requests s e t)))%nat).
Proof.
  unfold text_requests.
  destruct t as [txt |]; [| split; [cbn; lia | discriminate]].
  destruct e as [e |];
    [destruct (s <? e)%Z; [destruct (s =? 0)%Z |] |];
    cbn [fst List.length]; split; intros; lia.
Qed.

Lemma format_requests_length s e t b i u fs ff :
  List.length (fst (format_requests s e t b i u fs ff))
  = if formatting_requested b i u fs ff then 1%nat else 0%nat.
Proof.
  unfold format_requests.
  destruct (formatting_requested b i u fs ff); [| reflexivity].
  destruct (format_range s e t). reflexivity.
Qed.

(** X1.  [modify_doc_text] never transmits an empty batch: whenever it
    calls the remote API at all, it does so exactly once, and the batch
    holds between one and three requests. *)
Theorem modify_doc_text_batch_size
  W (h : handler W) (w : W) (validator : ValidationManager)
  d s e t b i u fs ff :
  calls_of h (modify_doc_text validator d s e t b i u fs ff) w <> [] ->
  exists requests,
    calls_of h (modify_doc_text validator d s e t b i u fs ff) w
    = [Ev (DocsBatchUpdate d requests)] /\
    (1 <= List.length requests <= 3)%nat.
Proof.
  rewrite modify_doc_text_calls.
  destruct (modify_doc_text_validation validator d s e t b i u fs ff)
    eqn:Hv; [intro H; contradiction H; reflexivity |].
  intros _. eexists. split; [reflexivity |].
  apply modify_doc_text_something_to_do in Hv.
  unfold modify_doc_text_requests. rewrite length_app.
  rewrite format_requests_length.
  destruct (text_requests_length s e t) as [Hmax Hmin].
  destruct (formatting_requested b i u fs ff).
  - lia.
  - rewrite orb_false_r in Hv. specialize (Hmin Hv). lia.
Qed.

Lemma modify_doc_text_batch_size_witness :
  exists requests,
    calls_of (Examples.quiet Examples.table_ok)
      (modify_doc_text Examples.accept_all (lit "doc-1") 3 (Some 8%Z)
         (Some (lit "new")) (Some true) None None None None) tt
    = [Ev (DocsBatchUpdate (lit "doc-1") requests)] /\
    (1 <= List.length requests <= 3)%nat.
Proof.
  apply (@modify_doc_text_batch_size unit (Examples.quiet Examples.table_ok)
           tt Examples.accept_all (lit "doc-1") 3%Z (Some 8%Z)
           (Some (lit "new")) (Some true) None None None None).
  vm_compute. discriminate.
Defined.

Lemma len_nonempty (txt : str) : txt <> [] -> (1 <= len txt)%Z.
Proof.
  destruct txt; [contradiction | unfold len; cbn [List.length]; lia].
Qed.

(** X2.  When [modify_doc_text] writes a non-empty text and formats it in
    the same call, the FormatText request covers exactly the text written:
    it starts at the index of the InsertText request and ends [len(text)]
    after it.  The one case left out is a replacement that starts at
    index 0. *)
Theorem modify_doc_text_formats_written_text
  W (h : handler W) (w : W) (validator : ValidationManager)
  d s e (txt : str) b i u fs ff (requests : list EditOperation)
  fstart fend b' i' u' fs' ff' :
  txt <> [] ->
  (s =? 0)%Z && is_replacement s e = false ->
  In requests
     (batches (calls_of h
                 (modify_doc_text validator d s e (Some txt) b i u fs ff) w))
  ->
  In (FormatText fstart fend b' i' u' fs' ff') requests ->
  exists index,
    In (InsertText index txt) requests /\
    fstart = index /\ fend = Some (index + len txt)%Z.
Proof.
  intros Htxt Hcase Hin Hfmt.
  apply len_nonempty in Htxt.
  rewrite modify_doc_text_calls in Hin.
  destruct (modify_doc_text_validation validator d s e (Some txt)
              b i u fs ff); [destruct Hin |].
  apply batches_single in Hin. subst requests.
  unfold modify_doc_text_requests in *.
  apply in_app_or in Hfmt. destruct Hfmt as [Hfmt | Hfmt].
  { exfalso. exact (text_requests_no_format _ _ _ _ _ _ _ _ _ _ Hfmt). }
  unfold format_requests in Hfmt.
  destruct (formatting_requested b i u fs ff); [| destruct Hfmt].
  destruct (format_range s e (Some txt)) as [fs0 fe0] eqn:Hr.
  cbn [fst In] in Hfmt. destruct Hfmt as [Heq | []].
  unfold create_format_text_request in Heq.
  injection Heq as -> -> _ _ _ _ _.
  unfold format_range, format_range_of_text in Hr.
  unfold text_requests.
  destruct e as [e0 |]; cbn [is_replacement] in *.
  - destruct (Z.ltb_spec s e0).
    + destruct (Z.eqb_spec s 0); [discriminate Hcase |].
      exists s. cbn [fst].
      destruct (Z.leb_spec (s + len txt) s); [lia |].
      injection Hr as <- <-.
      split; [right; left; reflexivity | split; reflexivity].
    + destruct (Z.eqb_spec s 0) as [-> | Hs]; cbn [fst].
      * exists 1%Z. cbn [Z.eqb] in Hr.
        destruct (Z.leb_spec (1 + len txt) 1); [lia |].
        injection Hr as <- <-.
        split; [left; reflexivity | split; reflexivity].
      * exists s. destruct (Z.eqb_spec s 0); [contradiction |].
        destruct (Z.leb_spec (s + len txt) s); [lia |].
        injection Hr as <- <-.
        split; [left; reflexivity | split; reflexivity].
  - destruct (Z.eqb_spec s 0) as [-> | Hs]; cbn [fst].
    + exists 1%Z. cbn [Z.eqb] in Hr.
      destruct (Z.leb_spec (1 + len txt) 1); [lia |].
      injection Hr as <- <-.
      split; [left; reflexivity | split; reflexivity].
    + exists s. destruct (Z.eqb_spec s 0); [contradiction |].
      destruct (Z.leb_spec (s + len txt) s); [lia |].
      injection Hr as <- <-.
      split; [left; reflexivity | split; reflexivity].
Qed.

Lemma modify_doc_text_formats_written_text_witness :
  exists index,
    In (InsertText index (lit "new"))
       [DeleteRange 3 8; InsertText 3 (lit "new");
        FormatText 3 (Some 6%Z) (Some true) None None None None] /\
    3%Z = index /\ Some 6%Z = Some (index + len (lit "new"))%Z.
Proof.
  refine (@modify_doc_text_formats_written_text
            unit (Examples.quiet Examples.table_ok) tt Examples.accept_all
            (lit "doc-1") 3%Z (Some 8%Z) (lit "new")
            (Some true) None None None None
            [DeleteRange 3 8; InsertText 3 (lit "new");
             FormatText 3 (Some 6%Z) (Some true) None None None None]
            3%Z (Some 6%Z) (Some true) None None None None _ _ _ _).
  - discriminate.
  - reflexivity.
  - vm_compute. left. reflexivity.
  - simpl. right. right. left. reflexivity.
Defined.

(** X3.  A replacement at index 0 with formatting: the text is inserted at
    index 1 and so occupies [1, 1 + len(text)), but the format range is
    computed from the requested start 0, so the FormatText request runs
    from 1 to [max(2, len(text))]: for a text of two or more characters it
    stops one short of the end of the text written. *)
Theorem modify_doc_text_replace_at_zero_format
  W (h : handler W) (w : W) (validator : ValidationManager)
  d (e0 : Z) (txt : str) b i u fs ff (requests : list EditOperation) :
  (0 < e0)%Z ->
  formatting_requested b i u fs ff = true ->
  In requests
     (batches (calls_of h
                 (modify_doc_text validator d 0 (Some e0) (Some txt)
                    b i u fs ff) w)) ->
  requests
  = [InsertText 1 txt;
     DeleteRange (1 + len txt) (e0 + len txt);
     FormatText 1 (Some (Z.max 2 (len txt))) b i u fs ff].
Proof.
  intros He Hf Hin.
  rewrite modify_doc_text_calls in Hin.
  destruct (modify_doc_text_validation validator d 0 (Some e0) (Some txt)
              b i u fs ff); [destruct Hin |].
  apply batches_single in Hin. subst requests.
  unfold modify_doc_text_requests, text_requests, format_requests,
    format_range, format_range_of_text, is_replacement.
  rewrite Hf.
  destruct (Z.ltb_spec 0 e0); [| lia].
  cbn [Z.eqb fst app].
  change (0 + len txt)%Z with (len txt).
  unfold create_insert_text_request, create_delete_range_request,
    create_format_text_request.
  do 2 f_equal.
  destruct (Z.leb_spec (len txt) 1); do 3 f_equal; lia.
Qed.

Lemma modify_doc_text_replace_at_zero_format_witness :
  [InsertText 1 (lit "Hello"); DeleteRange 6 10;
   FormatText 1 (Some 5%Z) (Some true) None None None None]
  = [InsertText 1 (lit "Hello");
     DeleteRange (1 + len (lit "Hello")) (5 + len (lit "Hello"));
     FormatText 1 (Some (Z.max 2 (len (lit "Hello")))) (Some true)
       None None None None].
Proof.
  refine (@modify_doc_text_replace_at_zero_format
            unit (Examples.quiet Examples.table_ok) tt Examples.spec_checks
            (lit "doc-1") 5%Z (lit "Hello") (Some true) None None None None
            _ _ _ _).
  - lia.
  - reflexivity.
  - vm_compute. left. reflexivity.
Defined.

(* ================================================================== *)
(** ** Refusals and sources of the insertion tools *)
(* ================================================================== *)

Ltac refused :=
  cbn [andb orb negb];
  split;
  [ intros _; eexists; split; reflexivity
  | discriminate ].

Ltac accepted :=
  cbn [andb orb negb];
  split;
  [ discriminate
  | intros _; eexists; rewrite calls_of_call_then_ret;
    split; [reflexivity | cbn [List.length]; lia] ].

(** X4.  [insert_doc_elements] either refuses its input with an "Error:"
    text and no call, or sends exactly one batch of one or two requests.
    It refuses exactly a table whose row or column count is absent or 0,
    a list whose list type is absent or empty, and an unsupported element
    type; a negative row or column count is not refused. *)
Theorem insert_doc_elements_refusals
  W (h : handler W) (w : W) (str_lower : str -> str)
  d element_type index rows columns list_type text :
  let tool :=
    insert_doc_elements str_lower d element_type index rows columns
      list_type text in
  (element_request_refused element_type rows columns list_type = true ->
   exists message,
     tool = Ret message /\ starts_with (lit "Error:") message = true) /\
  (element_request_refused element_type rows columns list_type = false ->
   exists requests,
     calls_of h tool w = [Ev (DocsBatchUpdate d requests)] /\
     (1 <= List.length requests <= 2)%nat).
Proof.
  intro tool. subst tool.
  unfold element_request_refused, insert_doc_elements, truthy_int,
    truthy_str.
  cbv zeta.
  destruct (eqb_str element_type (lit "table"));
    [ destruct rows as [r |]; [| refused];
      destruct columns as [c |]; [| destruct (r =? 0)%Z; refused];
      destruct (r =? 0)%Z; destruct (c =? 0)%Z; first [refused | accepted]
    | ].
  destruct (eqb_str element_type (lit "list"));
    [ destruct list_type as [lt |]; [| refused];
      destruct (truthy lt); first [refused | accepted]
    | ].
  destruct (eqb_str element_type (lit "page_break"));
    first [refused | accepted].
Qed.

Lemma insert_doc_elements_refusals_witness :
  (exists message,
      insert_doc_elements (fun s => s) (lit "doc-1") (lit "table") 5
        (Some 0%Z) (Some 3%Z) None None = Ret message /\
      starts_with (lit "Error:") message = true) /\
  (exists requests,
      calls_of (Examples.quiet Examples.table_ok)
        (insert_doc_elements (fun s => s) (lit "doc-1") (lit "table") 5
           (Some (-2)%Z) (Some 3%Z) None None) tt
      = [Ev (DocsBatchUpdate (lit "doc-1") requests)] /\
      (1 <= List.length requests <= 2)%nat).
Proof.
  split.
  - apply (proj1 (@insert_doc_elements_refusals
                    unit (Examples.quiet Examples.table_ok) tt (fun s => s)
                    (lit "doc-1") (lit "table") 5%Z (Some 0%Z) (Some 3%Z)
                    None None)).
    reflexivity.
  - apply (proj2 (@insert_doc_elements_refusals
                    unit (Examples.quiet Examples.table_ok) tt (fun s => s)
                    (lit "doc-1") (lit "table") 5%Z (Some (-2)%Z)
                    (Some 3%Z) None None)).
    reflexivity.
Defined.

(** X5.  For an image given by URL ([http://] or [https://]),
    [insert_doc_image] never calls Drive: its only call is the batch with
    the single image insertion, the URL passed as it is, at the index given
    (1 for 0). *)
Theorem insert_doc_image_url_source
  W (h : handler W) (w : W) d image_source index width height :
  is_url image_source = true ->
  calls_of h (insert_doc_image d image_source index width height) w
  = [Ev (DocsBatchUpdate d
           [InsertImage (avoid_section_break index) image_source
              width height])].
Proof.
  unfold is_url. intro Hurl.
  unfold insert_doc_image. cbv zeta. rewrite Hurl. cbn [negb].
  apply calls_of_call_then_ret.
Qed.

Lemma insert_doc_image_url_source_witness :
  calls_of (Examples.quiet Examples.table_ok)
    (insert_doc_image (lit "doc-1") (lit "https://example.com/a.png") 0
       None (Some 40%Z)) tt
  = [Ev (DocsBatchUpdate (lit "doc-1")
           [InsertImage (avoid_section_break 0)
              (lit "https://example.com/a.png") None (Some 40%Z)])].
Proof.
  apply (@insert_doc_image_url_source
           unit (Examples.quiet Examples.table_ok) tt (lit "doc-1")
           (lit "https://example.com/a.png") 0%Z None (Some 40%Z)).
  reflexivity.
Defined.

(** X6.  For an image given by a Drive file id, [insert_doc_image] asks
    Drive for the file first.  If that call raises, or the file's mime type
    (the empty string when absent) does not start with "image/", the tool
    returns an "Error:" text instead of raising and sends no batch: the
    document is not touched. *)
Theorem insert_doc_image_drive_failure
  W (h : handler W) (w : W) d image_source index width height :
  is_url image_source = false ->
  let lookup := DriveFilesGet image_source (lit "id, name, mimeType") in
  let tool := insert_doc_image d image_source index width height in
  (forall e,
      fst (h _ lookup w) = Err e ->
      run h tool w
      = (Returned (lit "Error: Could not access Drive file " ++
                   image_source ++ lit ": " ++ exn_message e),
         snd (h _ lookup w), [Ev lookup])) /\
  (forall file_metadata,
      fst (h _ lookup w) = Ok file_metadata ->
      starts_with (lit "image/")
        (default_str (meta_mimeType file_metadata) []) = false ->
      run h tool w
      = (Returned (lit "Error: File " ++ image_source ++
                   lit " is not an image (MIME type: " ++
                   default_str (meta_mimeType file_metadata) [] ++ lit ")."),
         snd (h _ lookup w), [Ev lookup])).
Proof.
  unfold is_url. intros Hurl. cbv zeta.
  unfold insert_doc_image. cbv zeta. rewrite Hurl. cbn [negb].
  split.
  - intros e He. rewrite run_bind, run_try_call, He. reflexivity.
  - intros file_metadata Hm Hmime.
    rewrite run_bind, run_try_call, Hm, Hmime. reflexivity.
Qed.

Lemma insert_doc_image_drive_failure_witness :
  run (Examples.quiet Examples.table_ok)
    (insert_doc_image (lit "doc-1") (lit "file-7") 4 None None) tt
  = (Returned (lit "Error: File " ++ lit "file-7" ++
               lit " is not an image (MIME type: " ++
               default_str (meta_mimeType Examples.empty_metadata) [] ++
               lit ")."),
     tt, [Ev (DriveFilesGet (lit "file-7") (lit "id, name, mimeType"))]).
Proof.
  refine (proj2 (@insert_doc_image_drive_failure
                   unit (Examples.quiet Examples.table_ok) tt (lit "doc-1")
                   (lit "file-7") 4%Z None None _)
            Examples.empty_metadata _ _);
    reflexivity.
Defined.

(* ================================================================== *)
(** ** The result of create_table_with_data after a retry *)
(* ================================================================== *)

(** X7.  When the first attempt of [create_table_with_data] fails at the
    document boundary, the result is that of the retry alone: a success is
    reported with the message and the dimensions of the retry but with the
    index the caller gave (not [index - 1], where the table was created); a
    failure is reported with the retry's message, the boundary message of
    the first attempt being dropped; an exception of the retry escapes. *)
Theorem create_table_with_data_after_retry
  W (h : handler W) (w : W) (validator : ValidationManager)
  (d : str) (data : table_data) (index : Z) (bold : bool)
  (message : str) (metadata : table_metadata) :
  create_table_with_data_validation validator d data index = None ->
  fst (h _ (CreateAndPopulateTable d data index bold) w)
  = Ok (false, message, metadata) ->
  contains boundary_message message = true ->
  outcome_of h (create_table_with_data validator d data index bold) w
  = match fst (h _ (CreateAndPopulateTable d data (index - 1) bold)
                 (snd (h _ (CreateAndPopulateTable d data index bold) w)))
    with
    | Ok (true, message2, metadata2) =>
        Returned (lit "SUCCESS: " ++ message2 ++ lit ". Table: " ++
                  of_Z (default_Z (tm_rows metadata2) 0) ++ lit "x" ++
                  of_Z (default_Z (tm_columns metadata2) 0) ++
                  lit ", Index: " ++ of_Z index ++ lit ". Link: " ++
                  doc_link d)
    | Ok (false, message2, _) => Returned (lit "ERROR: " ++ message2)
    | Err e => Raised e
    end.
Proof.
  intros Hvalid Hfirst Hboundary.
  unfold create_table_with_data, outcome_of. rewrite Hvalid.
  rewrite run_bind, run_single_call, Hfirst.
  rewrite run_bind. cbn [negb andb]. rewrite Hboundary.
  rewrite run_single_call.
  destruct (fst (h _ (CreateAndPopulateTable d data (index - 1) bold)
                   (snd (h _ (CreateAndPopulateTable d data index bold) w))))
    as [[[success2 message2] metadata2] | e2];
    [destruct success2 |]; reflexivity.
Qed.

Lemma create_table_with_data_after_retry_witness :
  outcome_of (Examples.quiet Examples.table_at_end)
    (create_table_with_data Examples.accept_all (lit "doc-1")
       Examples.grid_2x3 10 true) tt
  = Returned (lit "SUCCESS: " ++ lit "Table created" ++ lit ". Table: " ++
              of_Z 2 ++ lit "x" ++ of_Z 3 ++ lit ", Index: " ++ of_Z 10 ++
              lit ". Link: " ++ doc_link (lit "doc-1")).
Proof.
  refine (@create_table_with_data_after_retry
            unit (Examples.quiet Examples.table_at_end) tt
            Examples.accept_all (lit "doc-1") Examples.grid_2x3 10%Z true
            (snd (fst (Examples.table_at_end 10)))
            (snd (Examples.table_at_end 10)) _ _ _);
    reflexivity.
Defined.

(* ================================================================== *)
(** ** Negative table indices in debug_table_structure *)
(* ================================================================== *)

Lemma py_index_from_end A (l : list A) (i : Z) :
  (- Z.of_nat (List.length l) <= i < 0)%Z ->
  exists a,
    nth_error l (Z.to_nat (Z.of_nat (List.length l) + i)) = Some a /\
    py_index l i = Ok a.
Proof.
  intro Hi. unfold py_index. cbv zeta.
  destruct (Z.leb_spec 0 i) as [Hge | _]; [lia |].
  destruct (Z.leb_spec (- Z.of_nat (List.length l)) i) as [_ | Hlt]; [| lia].
  destruct (nth_error l (Z.to_nat (Z.of_nat (List.length l) + i)))
    as [a |] eqn:Hnth.
  - exists a. split; reflexivity.
  - apply nth_error_None in Hnth. lia.
Qed.

Lemma py_index_before_start A (l : list A) (i : Z) :
  (i < - Z.of_nat (List.length l))%Z ->
  py_index l i = Err (IndexError (lit "list index out of range")).
Proof.
  intro Hi. unfold py_index. cbv zeta.
  destruct (Z.leb_spec 0 i) as [Hge | _]; [lia |].
  destruct (Z.leb_spec (- Z.of_nat (List.length l)) i) as [Hge | _]; [lia |].
  reflexivity.
Qed.

(** X8.  The guard of [debug_table_structure] only refuses indices at or
    beyond the number of tables.  A negative [table_index] is passed to the
    list: with [n] tables, an index in [-n, 0) describes the table at
    position [n + table_index], counted from the end, and an index below
    [-n] (any negative index when the document has no table) makes the tool
    raise IndexError instead of returning the "not found" text. *)
Theorem debug_table_structure_negative_index
  W (h : handler W) (w w' : W)
  (find_tables : document -> list table_info)
  (json_dumps : json -> str) (py_repr : str -> str)
  (document_id : str) (table_index : Z) (doc : document) :
  h _ (DocsGet document_id false) w = (Ok doc, w') ->
  (table_index < 0)%Z ->
  let n := Z.of_nat (List.length (find_tables doc)) in
  let tool :=
    debug_table_structure find_tables json_dumps py_repr
      document_id table_index in
  ((table_index < - n)%Z ->
   run h tool w
   = (Raised (IndexError (lit "list index out of range")), w',
      [Ev (DocsGet document_id false)])) /\
  ((- n <= table_index)%Z ->
   exists info,
     nth_error (find_tables doc) (Z.to_nat (n + table_index)) = Some info /\
     run h tool w
     = (Returned
          (lit "Table structure debug for table " ++ of_Z table_index ++
           lit ":" ++ nl ++ nl ++
           json_dumps (table_debug_info py_repr table_index info) ++
           nl ++ nl ++ lit "Link: " ++ doc_link document_id),
        w', [Ev (DocsGet document_id false)])).
Proof.
  intros Hget Hneg n tool. subst tool.
  unfold debug_table_structure.
  rewrite run_bind, run_single_call, Hget. cbn [fst snd].
  fold n.
  destruct (Z.leb_spec n table_index) as [Hge | _]; [lia |].
  split.
  - intro Hlow. rewrite py_index_before_start by (fold n; lia).
    reflexivity.
  - intro Hin.
    destruct (@py_index_from_end _ (find_tables doc) table_index)
      as [info [Hnth Hidx]]; [fold n; lia |].
    exists info. split; [exact Hnth |].
    rewrite Hidx. reflexivity.
Qed.

Lemma debug_table_structure_negative_index_witness :
  run (Examples.quiet Examples.table_ok)
    (debug_table_structure Examples.no_tables Examples.no_json (fun s => s)
       (lit "doc-1") (-1)) tt
  = (Raised (IndexError (lit "list index out of range")), tt,
     [Ev (DocsGet (lit "doc-1") false)]).
Proof.
  refine (proj1 (@debug_table_structure_negative_index
                   unit (Examples.quiet Examples.table_ok) tt tt
                   Examples.no_tables Examples.no_json (fun s => s)
                   (lit "doc-1") (-1)%Z Examples.empty_document _ _) _).
  - reflexivity.
  - lia.
  - simpl. lia.
Defined.

(* ================================================================== *)
(** ** The calls of get_doc_content *)
(* ================================================================== *)

(** X9.  [get_doc_content] always asks Drive for the metadata first.  If
    that call raises, the exception escapes and nothing else is called.
    Otherwise exactly one more call follows: the Docs API with tabs included
    when the mime type is that of a native document, and the Drive download
    in every other case, a file without mime type included. *)
Theorem get_doc_content_dispatch
  W (h : handler W) (w : W)
  (extract_office_xml_text : bytes -> str -> option str) (frames : nat)
  (document_id : str) :
  let lookup :=
    DriveFilesGet document_id (lit "id, name, mimeType, webViewLink") in
  let tool := get_doc_content extract_office_xml_text frames document_id in
  (forall e,
      fst (h _ lookup w) = Err e ->
      run h tool w = (Raised e, snd (h _ lookup w), [Ev lookup])) /\
  (forall file_metadata,
      fst (h _ lookup w) = Ok file_metadata ->
      calls_of h tool w
      = [Ev lookup;
         if eqb_str (default_str (meta_mimeType file_metadata) [])
              native_mime_type
         then Ev (DocsGet document_id true)
         else Ev (DriveGetMedia document_id)]).
Proof.
  cbv zeta. unfold get_doc_content, calls_of.
  split.
  - intros e He. rewrite run_bind, run_single_call, He. reflexivity.
  - intros file_metadata Hm.
    rewrite run_bind, run_single_call, Hm. rewrite run_bind.
    destruct (eqb_str (default_str (meta_mimeType file_metadata) [])
                native_mime_type).
    + rewrite run_bind, run_single_call.
      destruct (h _ (DocsGet document_id true)
                  (snd (h _ (DriveFilesGet document_id
                               (lit "id, name, mimeType, webViewLink")) w)))
        as [[doc | e] w2]; [| reflexivity].
      cbn [fst snd].
      destruct (native_body_text frames doc); reflexivity.
    + rewrite run_bind, run_single_call.
      destruct (h _ (DriveGetMedia document_id)
                  (snd (h _ (DriveFilesGet document_id
                               (lit "id, name, mimeType, webViewLink")) w)))
        as [[chunks | e] w2]; reflexivity.
Qed.

Lemma get_doc_content_dispatch_witness :
  calls_of (Examples.quiet Examples.table_ok)
    (get_doc_content Examples.no_office_text 1000 (lit "file-1")) tt
  = [Ev (DriveFilesGet (lit "file-1")
           (lit "id, name, mimeType, webViewLink"));
     Ev (DriveGetMedia (lit "file-1"))].
Proof.
  apply (proj2 (@get_doc_content_dispatch
                  unit (Examples.quiet Examples.table_ok) tt
                  Examples.no_office_text 1000%nat (lit "file-1"))
           Examples.empty_metadata).
  reflexivity.
Defined.

(* ================================================================== *)
(** ** Text extraction *)
(* ================================================================== *)

(** X10.  [extract_text_from_elements] reads the elements one after the
    other and keeps nothing between them: the text of a list of elements
    followed by another is the text of the first, with the tab header if
    any, followed by the text of the second without header. *)
Theorem extract_text_from_elements_app
  (first second : list element) (tab_name : option str) (depth : nat) :
  extract_text_from_elements (first ++ second) tab_name depth
  = extract_text_from_elements first tab_name depth ++
    extract_text_from_elements second None depth.
Proof.
  unfold extract_text_from_elements.
  destruct (5 <? depth)%nat; [reflexivity |].
  cbn [truthy_str app].
  rewrite flat_map_app, app_assoc, concat_app. reflexivity.
Qed.

Lemma truthy_rev (s : str) : truthy (rev s) = truthy s.
Proof.
  destruct s as [| c s]; [reflexivity |].
  cbn [rev]. destruct (rev s); reflexivity.
Qed.

Lemma truthy_lstrip (s : str) :
  truthy (lstrip s) = existsb (fun c => negb (is_space c)) s.
Proof.
  induction s as [| c s IH]; [reflexivity |].
  cbn [lstrip existsb]. destruct (is_space c); [exact IH | reflexivity].
Qed.

Lemma existsb_reversed A (f : A -> bool) (l : list A) :
  existsb f (rev l) = existsb f l.
Proof.
  induction l as [| a l IH]; [reflexivity |].
  cbn [rev existsb]. rewrite existsb_app, IH. cbn [existsb].
  rewrite orb_false_r. apply orb_comm.
Qed.

(** A string is blank ([s.strip()] is empty) exactly when all its
    characters are whitespace. *)
Lemma truthy_strip (s : str) :
  truthy (strip s) = existsb (fun c => negb (is_space c)) s.
Proof.
  unfold strip.
  rewrite truthy_rev, truthy_lstrip, existsb_reversed.
  induction s as [| c s IH]; [reflexivity |].
  cbn [lstrip]. destruct (is_space c) eqn:Hc.
  - cbn [existsb]. rewrite Hc. exact IH.
  - reflexivity.
Qed.

(** X11.  For a body made of paragraphs only, [extract_text_from_elements]
    without tab name returns, at every depth up to 5, the texts of the
    paragraphs that hold a character other than whitespace, unchanged, in
    order and with nothing added between them; a paragraph of whitespace
    only leaves no trace. *)
Theorem extract_text_of_paragraphs
  (paragraphs : list (list (option str))) (depth : nat) :
  (depth <= 5)%nat ->
  extract_text_from_elements (map Paragraph paragraphs) None depth
  = List.concat
      (filter (existsb (fun c => negb (is_space c)))
         (map paragraph_text paragraphs)).
Proof.
  intro Hdepth. unfold extract_text_from_elements.
  destruct (Nat.ltb_spec 5 depth) as [Hgt | _]; [lia |].
  cbn [truthy_str app]. f_equal.
  induction paragraphs as [| runs rest IH]; [reflexivity |].
  cbn [map flat_map filter element_lines].
  unfold keep_nonblank at 1. rewrite truthy_strip.
  destruct (existsb (fun c => negb (is_space c)) (paragraph_text runs));
    cbn [app]; rewrite IH; reflexivity.
Qed.

Lemma extract_text_of_paragraphs_witness :
  extract_text_from_elements
    (map Paragraph
       [[Some (lit "Title"); Some nl]; [Some (lit "  "); Some nl];
        [None; Some (lit "Body")]])
    None 0
  = List.concat
      (filter (existsb (fun c => negb (is_space c)))
         (map paragraph_text
            [[Some (lit "Title"); Some nl]; [Some (lit "  "); Some nl];
             [None; Some (lit "Body")]])).
Proof.
  apply (@extract_text_of_paragraphs
           [[Some (lit "Title"); Some nl]; [Some (lit "  "); Some nl];
            [None; Some (lit "Body")]] 0).
  lia.
Defined.

(* ================================================================== *)
(** ** The order of the validation checks *)
(* ================================================================== *)

(** X12.  The checks of [update_doc_headers_footers], [batch_update_doc]
    and [create_table_with_data] are made one at a time, in the order of
    the source, and the first one that fails decides the result: a refused
    document id is reported by all three whatever the other checks say; the
    header and footer parameters come before the text content; the table
    data come before the index.  The text returned is the tool's prefix
    followed by the message of that check. *)
Theorem validation_reports_first_failure
  (validator : ValidationManager)
  (document_id section_type content header_footer_type : str)
  (operations : list operation) (data : table_data) (index : Z)
  (bold_headers : bool) :
  let id_check := validate_document_id validator document_id in
  let params_check :=
    validate_header_footer_params validator section_type header_footer_type in
  let text_check := validate_text_content validator content in
  let batch_check := validate_batch_operations validator operations in
  let data_check := validate_table_data validator data in
  let index_check := validate_index validator index (lit "Index") in
  let headers_footers :=
    update_doc_headers_footers validator document_id section_type content
      header_footer_type in
  let batch := batch_update_doc validator document_id operations in
  let table :=
    create_table_with_data validator document_id data index bold_headers in
  (fst id_check = false ->
   headers_footers = Ret (lit "Error: " ++ snd id_check) /\
   batch = Ret (lit "Error: " ++ snd id_check) /\
   table = Ret (lit "ERROR: " ++ snd id_check)) /\
  (fst id_check = true ->
   (fst params_check = false ->
    headers_footers = Ret (lit "Error: " ++ snd params_check)) /\
   (fst params_check = true -> fst text_check = false ->
    headers_footers = Ret (lit "Error: " ++ snd text_check)) /\
   (fst batch_check = false ->
    batch = Ret (lit "Error: " ++ snd batch_check)) /\
   (fst data_check = false ->
    table = Ret (lit "ERROR: " ++ snd data_check)) /\
   (fst data_check = true -> fst index_check = false ->
    table = Ret (lit "ERROR: " ++ snd index_check))).
Proof.
  cbv zeta.
  unfold update_doc_headers_footers, batch_update_doc,
    create_table_with_data, update_doc_headers_footers_validation,
    batch_update_doc_validation, create_table_with_data_validation.
  cbn [first_failure].
  destruct (validate_document_id validator document_id)
    as [id_valid id_msg].
  destruct (validate_header_footer_params validator section_type
              header_footer_type) as [params_valid params_msg].
  destruct (validate_text_content validator content)
    as [text_valid text_msg].
  destruct (validate_batch_operations validator operations)
    as [batch_valid batch_msg].
  destruct (validate_table_data validator data) as [data_valid data_msg].
  destruct (validate_index validator index (lit "Index"))
    as [index_valid index_msg].
  cbn [fst snd].
  split.
  - intros ->. cbn [negb]. repeat split; reflexivity.
  - intros ->. cbn [negb].
    split; [intros ->; reflexivity |].
    split; [intros -> ->; reflexivity |].
    split; [intros ->; reflexivity |].
    split; [intros ->; reflexivity |].
    intros -> ->. reflexivity.
Qed.

Lemma validation_reports_first_failure_witness :
  update_doc_headers_footers Examples.reject_ids (lit "doc-1")
    (lit "header") (lit "Title") (lit "DEFAULT")
  = Ret (lit "Error: " ++ lit "Invalid document ID") /\
  batch_update_doc Examples.reject_ids (lit "doc-1") []
  = Ret (lit "Error: " ++ lit "Invalid document ID") /\
  create_table_with_data Examples.reject_ids (lit "doc-1")
    Examples.grid_2x3 10 true
  = Ret (lit "ERROR: " ++ lit "Invalid document ID").
Proof.
  apply (proj1 (validation_reports_first_failure Examples.reject_ids
                  (lit "doc-1") (lit "header") (lit "Title") (lit "DEFAULT")
                  [] Examples.grid_2x3 10 true)).
  reflexivity.
Defined.

(* ================================================================== *)
(** ** Facts about running scripts *)
(* ================================================================== *)

Section PlayFacts.

Variable E : Type -> Type.
Variable W : Type.
Variable h : service E W.

Lemma play_request R (c : E R) (w : W) :
  play h (request c) w =
  (match fst (h c w) with Ok v => Returned v | Err e => Raised e end,
   snd (h c w), [Asked c]).
Proof.
  unfold request. simpl. destruct (h c w) as [[v | e] w']; reflexivity.
Qed.

Lemma play_and_then A B (p : script E A) (f : A -> script E B) (w : W) :
  play h (and_then p f) w =
  match play h p w with
  | (Returned a, w', evs) =>
      let '(o, w'', evs') := play h (f a) w' in (o, w'', evs ++ evs')
  | (Raised e, w', evs) => (Raised e, w', evs)
  end.
Proof.
  revert w. induction p as [a | e | R c k IH]; intro w; simpl.
  - destruct (play h (f a) w) as [[o w''] evs']. reflexivity.
  - reflexivity.
  - destruct (h c w) as [r w'].
    rewrite IH.
    destruct (play h (k r) w') as [[[a | e] w1] evs]; simpl.
    + destruct (play h (f a) w1) as [[o w2] evs']. reflexivity.
    + reflexivity.
Qed.

(** A tool that makes one call and then computes without calling: exactly
    that call is issued, whatever the reply. *)
Lemma requests_of_single A R (c : E R) (f : R -> script E A) (w : W) :
  (forall r w', snd (play h (f r) w') = []) ->
  requests_of h (and_then (request c) f) w = [Asked c].
Proof.
  intro Hquiet. unfold requests_of. rewrite play_and_then, play_request.
  destruct (fst (h c w)) as [v | e]; [| reflexivity].
  specialize (Hquiet v (snd (h c w))).
  destruct (play h (f v) (snd (h c w))) as [[o w2] evs].
  cbn [snd] in *. subst evs. reflexivity.
Qed.

End PlayFacts.

(* ================================================================== *)
(** ** The query of search_docs *)
(* ================================================================== *)

Lemma escape_apostrophes_cons (c : char) (query : str) :
  escape_apostrophes (c :: query)
  = (if (c =? apostrophe)%N then [backslash; apostrophe] else [c]) ++
    escape_apostrophes query.
Proof. reflexivity. Qed.

Lemma escape_no_bare_apostrophe (query before after : str) :
  escape_apostrophes query = before ++ apostrophe :: after ->
  exists before', before = before' ++ [backslash].
Proof.
  revert before. induction query as [| c query IH]; intros before H.
  - destruct before; discriminate H.
  - rewrite escape_apostrophes_cons in H.
    destruct (N.eqb_spec c apostrophe) as [-> | Hc].
    + destruct before as [| b0 [| b1 before]].
      * discriminate H.
      * exists []. cbn [app] in H |- *. congruence.
      * cbn [app] in H. injection H as H0 H1 H2. subst b0 b1.
        destruct (IH _ H2) as [before' ->].
        exists (backslash :: apostrophe :: before'). reflexivity.
    + destruct before as [| b0 before].
      * cbn [app] in H. congruence.
      * cbn [app] in H. injection H as H0 H1. subst b0.
        destruct (IH _ H1) as [before' ->].
        exists (c :: before'). reflexivity.
Qed.

Lemma escape_without_apostrophe (query : str) :
  ~ In apostrophe query -> escape_apostrophes query = query.
Proof.
  induction query as [| c query IH]; intro H; [reflexivity |].
  rewrite escape_apostrophes_cons.
  destruct (N.eqb_spec c apostrophe) as [-> | Hc].
  - exfalso. apply H. left. reflexivity.
  - cbn [app]. rewrite IH; [reflexivity |].
    intro Hin. apply H. right. exact Hin.
Qed.

Lemma listing_quiet W (h : service driveE W) files header (w : W) :
  snd (play h (listing files header) w) = [].
Proof.
  unfold listing. destruct (file_lines files [header]); reflexivity.
Qed.

(** X13.  [search_docs] makes exactly one call, a listing whose query quotes
    the search text between apostrophes.  In the quoted text every
    apostrophe of the search text is preceded by a backslash, so that no
    apostrophe of the search text closes the quotation; a search text
    without apostrophe is quoted unchanged (a backslash is not doubled). *)
Theorem search_docs_query_escaped
  W (h : service driveE W) (w : W) (query : str) (page_size : Z) :
  requests_of h (search_docs query page_size) w
  = [Asked
       (FilesList
          (lit "name contains '" ++ escape_apostrophes query ++ lit "'" ++
           docs_mime_clause)
          page_size
          (lit "files(id, name, createdTime, modifiedTime, webViewLink)"))] /\
  (forall before after,
      escape_apostrophes query = before ++ apostrophe :: after ->
      exists before', before = before' ++ [backslash]) /\
  (~ In apostrophe query -> escape_apostrophes query = query).
Proof.
  split; [| split].
  - unfold search_docs. cbv zeta. apply requests_of_single.
    intros [[| f files] |] w'; try reflexivity.
    apply listing_quiet.
  - intros before after. apply escape_no_bare_apostrophe.
  - apply escape_without_apostrophe.
Qed.

Lemma search_docs_query_escaped_witness :
  (exists before',
      lit "it" ++ [backslash] = before' ++ [backslash]) /\
  escape_apostrophes (lit "report") = lit "report".
Proof.
  split.
  - apply (proj1 (proj2 (@search_docs_query_escaped
                           unit (DriveExamples.drive []) tt (lit "it's")
                           10%Z))
             (lit "it" ++ [backslash]) (lit "s")).
    reflexivity.
  - apply (proj2 (proj2 (@search_docs_query_escaped
                           unit (DriveExamples.drive []) tt (lit "report")
                           10%Z))).
    vm_compute. intuition discriminate.
Defined.

(* ================================================================== *)
(** ** The text of a listing *)
(* ================================================================== *)

Lemma file_lines_complete (files : list drive_file) (output : list str) :
  forallb has_name_and_id files = true ->
  exists lines,
    file_lines files output = Ok (output ++ lines) /\
    Forall2 (fun f line => file_line f = Ok line) files lines.
Proof.
  revert output. induction files as [| f files IH]; intros output H.
  - exists []. rewrite app_nil_r. split; [reflexivity | constructor].
  - cbn [forallb] in H. apply andb_prop in H. destruct H as [Hf Hrest].
    unfold has_name_and_id in Hf. apply andb_prop in Hf.
    destruct Hf as [Hname Hid].
    assert (Hline : exists line, file_line f = Ok line).
    { unfold file_line.
      destruct (file_name f); [| discriminate Hname].
      destruct (file_id f); [| discriminate Hid].
      eexists. reflexivity. }
    destruct Hline as [line Hline].
    destruct (IH (output ++ [line]) Hrest) as [lines [Hlines Hall]].
    exists (line :: lines). cbn [file_lines]. rewrite Hline, Hlines.
    rewrite <- app_assoc. split; [reflexivity |].
    constructor; assumption.
Qed.

Lemma file_lines_incomplete (files : list drive_file) (output : list str) :
  forallb has_name_and_id files = false ->
  exists key,
    file_lines files output = Err (KeyError key) /\
    (key = lit "name" \/ key = lit "id").
Proof.
  revert output. induction files as [| f files IH]; intros output H.
  - discriminate H.
  - cbn [forallb file_lines] in H |- *.
    unfold has_name_and_id, file_line in *.
    destruct (file_name f) as [name |].
    + destruct (file_id f) as [id |].
      * cbn [is_some andb] in H. apply IH, H.
      * exists (lit "id"). split; [reflexivity | right; reflexivity].
    + exists (lit "name"). split; [reflexivity | left; reflexivity].
Qed.

Lemma listing_outcome W (h : service driveE W) (w : W) files header :
  (forallb has_name_and_id files = true ->
   exists lines,
     play h (listing files header) w
     = (Returned (join nl (header :: lines)), w, []) /\
     Forall2 (fun f line => file_line f = Ok line) files lines) /\
  (forallb has_name_and_id files = false ->
   exists key,
     play h (listing files header) w = (Raised (KeyError key), w, []) /\
     (key = lit "name" \/ key = lit "id")).
Proof.
  unfold listing. split; intro H.
  - destruct (file_lines_complete files [header] H) as [lines [-> Hall]].
    exists lines. split; [reflexivity | exact Hall].
  - destruct (file_lines_incomplete files [header] H) as [key [-> Hkey]].
    exists key. split; [reflexivity | exact Hkey].
Qed.

Ltac use_play H :=
  match goal with
  | |- context [play ?h ?p ?w] =>
      match type of H with
      | ?lhs = _ => change (play h p w) with lhs; rewrite H
      end
  end.

(** X14.  The text of [list_docs_in_folder] is all or nothing.  Without
    files (the key absent or the list empty) the tool answers that no
    document was found.  With files that all have a name and an id it
    returns the header with their number and one line for each of them, in
    order, joined by line feeds.  As soon as one file has no name or no id
    the tool raises KeyError and returns no line at all. *)
Theorem list_docs_in_folder_all_or_nothing
  W (h : service driveE W) (w : W) (folder_id : str) (page_size : Z)
  (response : option (list drive_file)) :
  fst (h _ (FilesList
              (lit "'" ++ folder_id ++ lit "' in parents" ++ docs_mime_clause)
              page_size (lit "files(id, name, modifiedTime, webViewLink)")) w)
  = Ok response ->
  let items := match response with Some items => items | None => [] end in
  let result := answer_of h (list_docs_in_folder folder_id page_size) w in
  (items = [] ->
   result = Returned (lit "No Google Docs found in folder '" ++ folder_id ++
                      lit "'.")) /\
  (items <> [] ->
   forallb has_name_and_id items = true ->
   exists lines,
     result
     = Returned
         (join nl
            ((lit "Found " ++ of_Z (Z.of_nat (List.length items)) ++
              lit " Docs in folder '" ++ folder_id ++ lit "':") :: lines)) /\
     Forall2 (fun f line => file_line f = Ok line) items lines) /\
  (forallb has_name_and_id items = false ->
   exists key,
     result = Raised (KeyError key) /\ (key = lit "name" \/ key = lit "id")).
Proof.
  intros Hreply items result. subst result.
  unfold answer_of, list_docs_in_folder.
  rewrite play_and_then, play_request, Hreply. fold items.
  destruct items as [| f files] eqn:Hitems.
  - split; [reflexivity | split]; [congruence | discriminate].
  - split; [discriminate | split].
    + intros _ Hall.
      destruct (proj1 (listing_outcome h (snd (h _ (FilesList
                  (lit "'" ++ folder_id ++ lit "' in parents" ++
                   docs_mime_clause)
                  page_size
                  (lit "files(id, name, modifiedTime, webViewLink)")) w))
                  (f :: files)
                  (lit "Found " ++
                   of_Z (Z.of_nat (List.length (f :: files))) ++
                   lit " Docs in folder '" ++ folder_id ++ lit "':")) Hall)
        as [lines [Hplay Hlines]].
      exists lines. use_play Hplay. split; [reflexivity | exact Hlines].
    + intro Hsome.
      destruct (proj2 (listing_outcome h (snd (h _ (FilesList
                  (lit "'" ++ folder_id ++ lit "' in parents" ++
                   docs_mime_clause)
                  page_size
                  (lit "files(id, name, modifiedTime, webViewLink)")) w))
                  (f :: files)
                  (lit "Found " ++
                   of_Z (Z.of_nat (List.length (f :: files))) ++
                   lit " Docs in folder '" ++ folder_id ++ lit "':")) Hsome)
        as [key [Hplay Hkey]].
      exists key. use_play Hplay. split; [reflexivity | exact Hkey].
Qed.

Lemma list_docs_in_folder_all_or_nothing_witness :
  exists key,
    answer_of
      (DriveExamples.drive [DriveExamples.report; DriveExamples.nameless])
      (list_docs_in_folder (lit "root") 100) tt
    = Raised (KeyError key) /\ (key = lit "name" \/ key = lit "id").
Proof.
  refine (proj2 (proj2 (@list_docs_in_folder_all_or_nothing
                          unit
                          (DriveExamples.drive
                             [DriveExamples.report; DriveExamples.nameless])
                          tt (lit "root") 100%Z
                          (Some [DriveExamples.report;
                                 DriveExamples.nameless]) _)) _);
    reflexivity.
Defined.

(** X15.  The text of [search_docs] is all or nothing in the same way, and
    it shows the search text as the caller gave it, not the escaped one. *)
Theorem search_docs_all_or_nothing
  W (h : service driveE W) (w : W) (query : str) (page_size : Z)
  (response : option (list drive_file)) :
  fst (h _ (FilesList
              (lit "name contains '" ++ escape_apostrophes query ++
               lit "'" ++ docs_mime_clause)
              page_size
              (lit "files(id, name, createdTime, modifiedTime, webViewLink)"))
         w)
  = Ok response ->
  let files := match response with Some files => files | None => [] end in
  let result := answer_of h (search_docs query page_size) w in
  (files = [] ->
   result = Returned (lit "No Google Docs found matching '" ++ query ++
                      lit "'.")) /\
  (files <> [] ->
   forallb has_name_and_id files = true ->
   exists lines,
     result
     = Returned
         (join nl
            ((lit "Found " ++ of_Z (Z.of_nat (List.length files)) ++
              lit " Google Docs matching '" ++ query ++ lit "':") :: lines)) /\
     Forall2 (fun f line => file_line f = Ok line) files lines) /\
  (forallb has_name_and_id files = false ->
   exists key,
     result = Raised (KeyError key) /\ (key = lit "name" \/ key = lit "id")).
Proof.
  intros Hreply files result. subst result.
  unfold answer_of, search_docs. cbv zeta.
  rewrite play_and_then, play_request, Hreply. fold files.
  destruct files as [| f rest] eqn:Hfiles.
  - split; [reflexivity | split]; [congruence | discriminate].
  - split; [discriminate | split].
    + intros _ Hall.
      destruct (proj1 (listing_outcome h (snd (h _ (FilesList
                  (lit "name contains '" ++ escape_apostrophes query ++
                   lit "'" ++ docs_mime_clause)
                  page_size
                  (lit "files(id, name, createdTime, modifiedTime, webViewLink)"))
                  w))
                  (f :: rest)
                  (lit "Found " ++
                   of_Z (Z.of_nat (List.length (f :: rest))) ++
                   lit " Google Docs matching '" ++ query ++ lit "':")) Hall)
        as [lines [Hplay Hlines]].
      exists lines. use_play Hplay. split; [reflexivity | exact Hlines].
    + intro Hsome.
      destruct (proj2 (listing_outcome h (snd (h _ (FilesList
                  (lit "name contains '" ++ escape_apostrophes query ++
                   lit "'" ++ docs_mime_clause)
                  page_size
                  (lit "files(id, name, createdTime, modifiedTime, webViewLink)"))
                  w))
                  (f :: rest)
                  (lit "Found " ++
                   of_Z (Z.of_nat (List.length (f :: rest))) ++
                   lit " Google Docs matching '" ++ query ++ lit "':")) Hsome)
        as [key [Hplay Hkey]].
      exists key. use_play Hplay. split; [reflexivity | exact Hkey].
Qed.

Lemma search_docs_all_or_nothing_witness :
  exists lines,
    answer_of (DriveExamples.drive [DriveExamples.report])
      (search_docs (lit "it's") 10) tt
    = Returned
        (join nl
           ((lit "Found " ++
             of_Z (Z.of_nat (List.length [DriveExamples.report])) ++
             lit " Google Docs matching '" ++ lit "it's" ++ lit "':")
            :: lines)) /\
    Forall2 (fun f line => file_line f = Ok line)
      [DriveExamples.report] lines.
Proof.
  refine (proj1 (proj2 (@search_docs_all_or_nothing
                          unit (DriveExamples.drive [DriveExamples.report])
                          tt (lit "it's") 10%Z
                          (Some [DriveExamples.report]) _)) _ _).
  - reflexivity.
  - discriminate.
  - reflexivity.
Defined.

(* ================================================================== *)
(** ** The calls of create_doc *)
(* ================================================================== *)

(** X16.  [create_doc] with empty content only creates the document.  With
    content it then sends one batch to the document just created, holding
    the single insertion of the content at offset 1; if that batch raises,
    the tool raises too and returns no text, although the document has been
    created. *)
Theorem create_doc_calls
  W (h : service driveE W) (w : W) (user_google_email title content : str)
  (doc_id : option str) :
  fst (h _ (DocumentsCreate title) w) = Ok doc_id ->
  let w1 := snd (h _ (DocumentsCreate title) w) in
  let tool := create_doc user_google_email title content in
  let insertion := DocumentsBatchUpdate doc_id [InsertText 1 content] in
  (content = [] -> requests_of h tool w = [Asked (DocumentsCreate title)]) /\
  (content <> [] ->
   requests_of h tool w = [Asked (DocumentsCreate title); Asked insertion] /\
   forall e,
     fst (h _ insertion w1) = Err e -> answer_of h tool w = Raised e).
Proof.
  intros Hcreate w1 tool insertion. subst tool.
  unfold requests_of, answer_of, create_doc.
  rewrite play_and_then, play_request, Hcreate. fold w1.
  rewrite play_and_then.
  destruct content as [| c content].
  - split; [reflexivity | congruence].
  - split; [discriminate |]. intros _.
    cbn [truthy]. rewrite play_request. fold insertion.
    destruct (fst (h _ insertion w1)) as [[] | e0].
    + split; [reflexivity | discriminate].
    + split; [reflexivity |]. intros e He.
      injection He as ->. reflexivity.
Qed.

Lemma create_doc_calls_witness :
  requests_of DriveExamples.read_only_drive
    (create_doc (lit "ann@example.com") (lit "Notes") (lit "Hello")) tt
  = [Asked (DocumentsCreate (lit "Notes"));
     Asked (DocumentsBatchUpdate (Some (lit "new-doc"))
              [InsertText 1 (lit "Hello")])] /\
  answer_of DriveExamples.read_only_drive
    (create_doc (lit "ann@example.com") (lit "Notes") (lit "Hello")) tt
  = Raised (HttpError (lit "403")).
Proof.
  destruct (proj2 (@create_doc_calls
                     unit DriveExamples.read_only_drive tt
                     (lit "ann@example.com") (lit "Notes") (lit "Hello")
                     (Some (lit "new-doc")) eq_refl))
    as [Hcalls Hraise]; [discriminate |].
  split; [exact Hcalls | apply Hraise; reflexivity].
Defined.

(* ================================================================== *)
(** ** The text of the comment listing *)
(* ================================================================== *)

Lemma single_line_app (a b : str) :
  single_line a -> single_line b -> single_line (a ++ b).
Proof.
  unfold single_line. intros Ha Hb Hin.
  apply in_app_or in Hin. tauto.
Qed.

Ltac literal_line :=
  let H := fresh in
  unfold single_line; intro H; vm_compute in H; intuition discriminate.

Lemma digits_single_line (d : Decimal.uint) :
  single_line (lit (NilEmpty.string_of_uint d)).
Proof.
  unfold single_line, lit.
  induction d; cbn [NilEmpty.string_of_uint list_ascii_of_string map In];
    intro H;
    [ exact H
    | destruct H as [H | H]; [vm_compute in H; discriminate H | auto] .. ].
Qed.

Lemma of_Z_single_line (n : Z) : single_line (of_Z n).
Proof.
  unfold of_Z, NilZero.string_of_int.
  destruct (Z.to_int n) as [d | d].
  - unfold NilZero.string_of_uint.
    destruct d; try apply digits_single_line. literal_line.
  - unfold NilZero.string_of_uint.
    assert (Hd : single_line
                   (lit (match d with
                         | Decimal.Nil => "0"%string
                         | _ => NilEmpty.string_of_uint d
                         end))).
    { destruct d; try apply digits_single_line. literal_line. }
    unfold single_line, lit in *.
    cbn [list_ascii_of_string map In]. intros [H | H].
    + vm_compute in H. discriminate H.
    + exact (Hd H).
Qed.

Lemma default_single_line (o : option str) (d : str) :
  single_line_opt o -> single_line d -> single_line (default_str o d).
Proof. destruct o; cbn; auto. Qed.

Lemma join_single_line (sep : str) (parts : list str) :
  single_line sep -> Forall single_line parts ->
  single_line (join sep parts).
Proof.
  intros Hsep Hparts. induction Hparts as [| p rest Hp Hrest IH].
  - literal_line.
  - cbn [join]. destruct rest as [| q rest]; [exact Hp |].
    apply single_line_app; [exact Hp |].
    apply single_line_app; [exact Hsep | exact IH].
Qed.

Lemma backslash_n_single_line : single_line backslash_n.
Proof. literal_line. Qed.

Lemma empty_single_line : single_line [].
Proof. literal_line. Qed.

Lemma unknown_single_line : single_line (lit "Unknown").
Proof. literal_line. Qed.

Lemma reply_lines_single_line (reply : comment_reply) :
  reply_single_line reply -> Forall single_line (reply_lines reply).
Proof.
  intros [Hid [Hauthor [Hcontent Hcreated]]].
  unfold reply_lines.
  repeat constructor;
    (apply single_line_app; [literal_line |]);
    apply default_single_line;
    auto using empty_single_line, unknown_single_line.
Qed.

Lemma flat_map_single_line A (f : A -> list str) (P : A -> Prop)
  (l : list A) :
  (forall a, P a -> Forall single_line (f a)) ->
  Forall P l -> Forall single_line (flat_map f l).
Proof.
  intros Hf Hl. induction Hl as [| a l Ha Hl IH]; [constructor |].
  cbn [flat_map]. apply Forall_app. split; [apply Hf, Ha | exact IH].
Qed.

Lemma comment_lines_single_line (c : comment) :
  comment_single_line c -> Forall single_line (comment_lines c).
Proof.
  intros [Hid [Hauthor [Hcontent [Hcreated Hreplies]]]].
  unfold comment_lines. cbv zeta.
  apply Forall_app. split; [| apply Forall_app; split].
  - repeat constructor.
    + apply single_line_app; [literal_line |].
      apply default_single_line; auto using empty_single_line.
    + apply single_line_app; [literal_line |].
      apply default_single_line; auto using unknown_single_line.
    + apply single_line_app; [literal_line |].
      apply single_line_app.
      * apply default_single_line; auto using empty_single_line.
      * destruct (comment_resolved c); literal_line.
    + apply single_line_app; [literal_line |].
      apply default_single_line; auto using empty_single_line.
  - destruct (comment_replies c) as [| reply replies] eqn:Hr;
      [constructor |].
    constructor.
    + apply single_line_app; [literal_line |].
      apply single_line_app; [apply of_Z_single_line | literal_line].
    + apply (@flat_map_single_line _ reply_lines reply_single_line);
        [exact reply_lines_single_line | exact Hreplies].
  - repeat constructor. exact empty_single_line.
Qed.

Lemma reply_lines_count (replies : list comment_reply) :
  List.length (flat_map reply_lines replies) = (4 * List.length replies)%nat.
Proof.
  induction replies as [| reply replies IH]; [reflexivity |].
  cbn [flat_map reply_lines app List.length]. rewrite IH. lia.
Qed.

Lemma comment_lines_count (c : comment) :
  List.length (comment_lines c)
  = (5 + match comment_replies c with
         | [] => 0
         | replies => 1 + 4 * List.length replies
         end)%nat.
Proof.
  unfold comment_lines. cbv zeta.
  destruct (comment_replies c) as [| reply replies].
  - reflexivity.
  - cbv beta iota. rewrite !length_app.
    change (List.length
              ((lit "  Replies (" ++
                of_Z (Z.of_nat (List.length (reply :: replies))) ++
                lit "):") :: flat_map reply_lines (reply :: replies)))
      with (S (List.length (flat_map reply_lines (reply :: replies)))).
    rewrite reply_lines_count. cbn [List.length]. lia.
Qed.

Lemma flat_map_count A B (f : A -> list B) (l : list A) :
  List.length (flat_map f l) = list_sum (map (fun a => List.length (f a)) l).
Proof.
  induction l as [| a l IH]; [reflexivity |].
  cbn [flat_map map list_sum fold_right]. fold (list_sum (map (fun a => List.length (f a)) l)).
  rewrite length_app, IH. reflexivity.
Qed.

(** X17.  [_read_comments_impl] joins the parts of its listing by the two
    characters backslash and n, not by a line feed.  Without comments (the
    key absent or the list empty) it returns the "No comments found" text.
    Otherwise the result is the header, itself ending in backslash and n,
    and the parts of the comments in order, all joined by backslash and n:
    five parts for a comment, and one more plus four for each reply when it
    has replies.  The tool puts no line feed into its result: when the
    application name, the file id and the comments hold none, the text
    returned holds none. *)
Theorem read_comments_joined_by_backslash_n
  W (h : service driveE W) (w : W) (app_name file_id : str)
  (response : option (list comment)) :
  fst (h _ (CommentsList file_id comments_fields) w) = Ok response ->
  let comments :=
    match response with Some comments => comments | None => [] end in
  let result := answer_of h (read_comments_impl app_name file_id) w in
  (comments = [] ->
   result = Returned (lit "No comments found in " ++ app_name ++ lit " " ++
                      file_id)) /\
  (comments <> [] ->
   exists parts,
     result
     = Returned
         (join [backslash; 110%N]
            ((lit "Found " ++ of_Z (Z.of_nat (List.length comments)) ++
              lit " comments in " ++ app_name ++ lit " " ++ file_id ++
              lit ":" ++ [backslash; 110%N]) :: parts)) /\
     parts = flat_map comment_lines comments /\
     List.length parts
     = list_sum
         (map (fun c =>
                 (5 + match comment_replies c with
                      | [] => 0
                      | replies => 1 + 4 * List.length replies
                      end)%nat)
            comments)) /\
  (single_line app_name ->
   single_line file_id ->
   Forall comment_single_line comments ->
   exists text, result = Returned text /\ single_line text).
Proof.
  intros Hreply comments result.
  assert (Hresult :
    result
    = Returned
        match comments with
        | [] => lit "No comments found in " ++ app_name ++ lit " " ++ file_id
        | _ :: _ =>
            join backslash_n
              ((lit "Found " ++ of_Z (Z.of_nat (List.length comments)) ++
                lit " comments in " ++ app_name ++ lit " " ++ file_id ++
                lit ":" ++ backslash_n) :: flat_map comment_lines comments)
        end).
  { subst result. unfold answer_of, read_comments_impl.
    rewrite play_and_then, play_request, Hreply. fold comments.
    destruct comments; reflexivity. }
  split; [| split].
  - intros Hnone. rewrite Hresult, Hnone. reflexivity.
  - intros Hsome. exists (flat_map comment_lines comments).
    split; [| split].
    + rewrite Hresult. destruct comments; [congruence | reflexivity].
    + reflexivity.
    + rewrite flat_map_count. f_equal. apply map_ext.
      exact comment_lines_count.
  - intros Happ Hfile Hcomments. rewrite Hresult. eexists.
    split; [reflexivity |].
    destruct comments as [| c rest] eqn:Hlist.
    + apply single_line_app; [literal_line |].
      apply single_line_app; [exact Happ |].
      apply single_line_app; [literal_line | exact Hfile].
    + apply join_single_line; [exact backslash_n_single_line |].
      constructor.
      * apply single_line_app; [literal_line |].
        apply single_line_app; [apply of_Z_single_line |].
        apply single_line_app; [literal_line |].
        apply single_line_app; [exact Happ |].
        apply single_line_app; [literal_line |].
        apply single_line_app; [exact Hfile |].
        apply single_line_app;
          [literal_line | exact backslash_n_single_line].
      * apply (@flat_map_single_line _ comment_lines comment_single_line);
          [exact comment_lines_single_line | exact Hcomments].
Qed.

Lemma read_comments_joined_by_backslash_n_witness :
  (exists parts,
      answer_of (DriveExamples.drive [])
        (read_comments_impl (lit "document") (lit "doc-1")) tt
      = Returned
          (join [backslash; 110%N]
             ((lit "Found " ++
               of_Z (Z.of_nat (List.length [DriveExamples.remark])) ++
               lit " comments in " ++ lit "document" ++ lit " " ++
               lit "doc-1" ++ lit ":" ++ [backslash; 110%N]) :: parts)) /\
      parts = flat_map comment_lines [DriveExamples.remark] /\
      List.length parts
      = list_sum
          (map (fun c =>
                  (5 + match comment_replies c with
                       | [] => 0
                       | replies => 1 + 4 * List.length replies
                       end)%nat)
             [DriveExamples.remark])) /\
  (exists text,
      answer_of (DriveExamples.drive [])
        (read_comments_impl (lit "document") (lit "doc-1")) tt
      = Returned text /\
      single_line text).
Proof.
  destruct (@read_comments_joined_by_backslash_n
              unit (DriveExamples.drive []) tt (lit "document")
              (lit "doc-1") (Some [DriveExamples.remark]) eq_refl)
    as [_ [Hparts Hline]].
  split.
  - apply Hparts. discriminate.
  - apply Hline.
    + unfold single_line. vm_compute. intuition discriminate.
    + unfold single_line. vm_compute. intuition discriminate.
    + repeat constructor; unfold single_line; vm_compute;
        intuition discriminate.
Defined.
